(** * micro-mcp: the protocol engine of [micro_mcp/mcp_server.py]

    A shallow embedding of class [MCPServer]: the tool and resource
    registries, the JSON-RPC dispatcher [_handle_jsonrpc], the response
    writer [_send_http_response] and [_handle_request] from the point where
    the bytes of the request have been received, followed by the properties
    of the specification that concern them.  The two loops that receive the
    request, the accept loop of [run] and the pin cache [_get_pin] are
    modelled after the reference runtime.

    Python values that travel through the dispatcher are JSON documents;
    Python's [None] is the JSON [null], and numbers are integers.
    Exceptions are explicit results.  A dictionary is the list of its
    entries in the order of first assignment; the order in which it is
    iterated is the runtime's (MicroPython iterates over the slots of a
    hash table), and is a field of the [Runtime] record.
    Handlers are functions of their arguments: they do not reach back into
    the server object.  The parts of the Python runtime the module calls
    but does not define ([json.loads], [json.dumps], [bytes.decode],
    [str()] of a list or dictionary, the device identifier and the
    millisecond timer) are fields of a [Runtime] record over which every
    definition is parameterised. *)

From Stdlib Require Import List String Ascii Bool Arith ZArith NArith Lia.
From Stdlib Require Import DecimalString DecimalN DecimalZ Permutation.
Import ListNotations.
Open Scope string_scope.

(** ** Python strings *)

Module PyStr.

Definition CR : ascii := ascii_of_nat 13.
Definition LF : ascii := ascii_of_nat 10.
Definition CRLF : string := String CR (String LF "").
Definition CRLFCRLF : string := CRLF ++ CRLF.

(** The double quote, for string literals that contain it. *)
Definition DQ : string := String (ascii_of_nat 34) "".

(** [str(n)] for a non-negative and for a signed integer. *)
Definition str_N (n : N) : string := NilEmpty.string_of_uint (N.to_uint n).
Definition str_nat (n : nat) : string := str_N (N.of_nat n).
Definition str_Z (z : Z) : string := NilEmpty.string_of_int (Z.to_int z).

(** [s[n:]] *)
Fixpoint drop (n : nat) (s : string) : string :=
  match n, s with
  | O, _ => s
  | S k, String _ s' => drop k s'
  | S _, EmptyString => EmptyString
  end.

(** [s.find(sub)], with Python's [-1] for "not found". *)
Fixpoint find_from (sub s : string) (i : Z) : Z :=
  if String.prefix sub s then i
  else match s with
       | EmptyString => (-1)%Z
       | String _ s' => find_from sub s' (i + 1)%Z
       end.

Definition find (sub s : string) : Z := find_from sub s 0.

(** [sub in s] *)
Definition contains (sub s : string) : bool := negb (find sub s =? -1)%Z.

(** [s.split(sep)] for a non-empty separator: [skip] counts the characters
    of a separator occurrence that are still to be passed over. *)
Fixpoint split_aux (sep : string) (skip : nat) (cur s : string) : list string :=
  match s with
  | EmptyString => [cur]
  | String c s' =>
      match skip with
      | S k => split_aux sep k cur s'
      | O =>
          if String.prefix sep s
          then cur :: split_aux sep (String.length sep - 1) "" s'
          else split_aux sep 0 (cur ++ String c "") s'
      end
  end.

Definition split (sep s : string) : list string := split_aux sep 0 "" s.

(** [s.split(sep, 1)] when [sep in s]: the text before and after the first
    occurrence. *)
Fixpoint split_once (sep s : string) : string * string :=
  if String.prefix sep s then ("", drop (String.length sep) s)
  else match s with
       | EmptyString => ("", "")
       | String c s' => let (a, b) := split_once sep s' in (String c a, b)
       end.

(** The characters [str.split()] treats as blank. *)
Definition is_space (c : ascii) : bool :=
  let n := nat_of_ascii c in
  ((n =? 32) || ((9 <=? n) && (n <=? 13)))%nat.

(** [s.split()]: maximal runs of non-blank characters. *)
Fixpoint split_ws_aux (cur : string) (s : string) : list string :=
  match s with
  | EmptyString => match cur with EmptyString => [] | _ => [cur] end
  | String c s' =>
      if is_space c
      then match cur with
           | EmptyString => split_ws_aux "" s'
           | _ => cur :: split_ws_aux "" s'
           end
      else split_ws_aux (cur ++ String c "") s'
  end.

Definition split_ws (s : string) : list string := split_ws_aux "" s.

Definition lower_char (c : ascii) : ascii :=
  let n := nat_of_ascii c in
  if ((65 <=? n) && (n <=? 90))%nat then ascii_of_nat (n + 32) else c.

(** [s.lower()] on ASCII text. *)
Fixpoint lower (s : string) : string :=
  match s with
  | EmptyString => EmptyString
  | String c s' => String (lower_char c) (lower s')
  end.

(** Truth value of a string: non-empty. *)
Definition truthy (s : string) : bool :=
  match s with EmptyString => false | _ => true end.

Definition hex_digit (n : N) : ascii :=
  if (n <? 10)%N then ascii_of_N (48 + n) else ascii_of_N (87 + n).

(** [binascii.hexlify(b).decode()] *)
Fixpoint hexlify (b : list Byte.byte) : string :=
  match b with
  | [] => ""
  | x :: b' =>
      let n := Byte.to_N x in
      String (hex_digit (n / 16)) (String (hex_digit (n mod 16)) (hexlify b'))
  end.

End PyStr.

(** ** Dictionaries with string keys

    The entries of a dictionary, in the order in which their keys were
    first assigned: assigning to a key that is present replaces the value
    where it stands, assigning to a new key appends it.  Lookup does not
    depend on that order; iteration is defined with the runtime, below. *)

Module Dict.

Section WithValue.
Context {V : Type}.

Definition t := list (string * V).

Definition empty : t := [].

Fixpoint get (k : string) (d : t) : option V :=
  match d with
  | [] => None
  | (k', v) :: d' => if String.eqb k k' then Some v else get k d'
  end.

Definition mem (k : string) (d : t) : bool :=
  match get k d with Some _ => true | None => false end.

Fixpoint set (k : string) (v : V) (d : t) : t :=
  match d with
  | [] => [(k, v)]
  | (k', v') :: d' =>
      if String.eqb k k' then (k', v) :: d' else (k', v') :: set k v d'
  end.

(** The keys in the order in which they were first assigned. *)
Definition keys (d : t) : list string := map fst d.

End WithValue.

Arguments t : clear implicits.

End Dict.

(** ** JSON documents and Python exceptions *)

#[warnings="-register-all"]
Inductive json : Type :=
| JNull
| JBool (b : bool)
| JNum (z : Z)
| JStr (s : string)
| JArr (l : list json)
| JObj (l : list (string * json)).

(** The exceptions that can occur.  [Raised] stands for any [Exception]
    instance raised by a handler or by a runtime function, with its
    [str()]. *)
Inductive exn : Type :=
| AttributeError (ty attr : string)
| UnhashableType (ty : string)
| KeyError (key : string)
| Raised (msg : string).

Inductive Result (A : Type) : Type :=
| Ret (a : A)
| Raise (e : exn).

Arguments Ret {A} a.
Arguments Raise {A} e.

Definition type_name (v : json) : string :=
  match v with
  | JNull => "NoneType"
  | JBool _ => "bool"
  | JNum _ => "int"
  | JStr _ => "str"
  | JArr _ => "list"
  | JObj _ => "dict"
  end.

(** [str(e)], with the wording of CPython for the errors the interpreter
    raises itself. *)
Definition str_exn (e : exn) : string :=
  match e with
  | AttributeError ty attr =>
      "'" ++ ty ++ "' object has no attribute '" ++ attr ++ "'"
  | UnhashableType ty => "unhashable type: '" ++ ty ++ "'"
  | KeyError key => "'" ++ key ++ "'"
  | Raised msg => msg
  end.

(** Truth value of a Python object, as tested by [if resp:]. *)
Definition truthy (v : json) : bool :=
  match v with
  | JNull => false
  | JBool b => b
  | JNum z => negb (z =? 0)%Z
  | JStr s => PyStr.truthy s
  | JArr l => match l with [] => false | _ => true end
  | JObj l => match l with [] => false | _ => true end
  end.

(** [v == "literal"] *)
Definition eq_str (v : json) (s : string) : bool :=
  match v with JStr s' => String.eqb s' s | _ => false end.

(** [v.get(key, default)]: only a dictionary has the method. *)
Definition py_get (v : json) (key : string) (default : json) : Result json :=
  match v with
  | JObj d => match Dict.get key d with
              | Some x => Ret x
              | None => Ret default
              end
  | _ => Raise (AttributeError (type_name v) "get")
  end.

(** [d[key]] on a dictionary document. *)
Definition py_item (v : json) (key : string) : Result json :=
  match v with
  | JObj d => match Dict.get key d with
              | Some x => Ret x
              | None => Raise (KeyError key)
              end
  | _ => Raise (Raised "object is not subscriptable")
  end.

(** [key in d] *)
Definition py_in (key : string) (v : json) : bool :=
  match v with JObj d => Dict.mem key d | _ => false end.

(** ** The Python runtime the module relies on *)

Record Runtime : Type := {
  (** [json.loads]: the parsed document, or the error it raises *)
  json_loads : string -> Result json;
  (** [json.dumps] *)
  json_dumps : json -> string;
  (** [bytes.decode()] of the received request *)
  bytes_decode : list Byte.byte -> Result string;
  (** [str()] of a list or of a dictionary *)
  py_repr : json -> string;
  (** [machine.unique_id()] *)
  unique_id : list Byte.byte;
  (** the value returned by the [k]-th call of [time.ticks_ms()] *)
  ticks_ms : nat -> N;
  (** the order in which a [dict] iterates over its keys, given them in
      the order in which they were first assigned *)
  dict_order : list string -> list string
}.

(** Iteration over a dictionary, by [d.keys()] or [d.values()]: the
    entries in the order of the runtime's [dict].  The language the
    module is written for, MicroPython, keeps a [dict] in a hash table and
    iterates over its slots; it does not promise the order of insertion. *)
Definition dict_items {V : Type} (rt : Runtime) (d : Dict.t V)
  : list (string * V) :=
  flat_map (fun k => match Dict.get k d with
                     | Some v => [(k, v)]
                     | None => []
                     end)
           (dict_order rt (Dict.keys d)).

Definition dict_values {V : Type} (rt : Runtime) (d : Dict.t V) : list V :=
  map snd (dict_items rt d).

(** ** The server object *)

(** A registry entry [{"schema": ..., "handler": ...}].  The handler of a
    tool is the outcome of the call [handler( **arguments )] as a function
    of [arguments]; the handler of a resource takes no argument. *)
Record ToolEntry : Type := {
  tool_schema : json;
  tool_handler : json -> Result json
}.

Record ResourceEntry : Type := {
  res_schema : json;
  res_handler : unit -> Result json
}.

Record MCPServer : Type := {
  server_name : string;
  server_version : string;
  protocol_version : string;
  _tools : Dict.t ToolEntry;
  _resources : Dict.t ResourceEntry;
  _session_id : option string
}.

(** [MCPServer(name, version, protocol_version)] *)
Definition MCPServer_init (name version protocol : string) : MCPServer :=
  {| server_name := name;
     server_version := version;
     protocol_version := protocol;
     _tools := Dict.empty;
     _resources := Dict.empty;
     _session_id := None |}.

Definition server_info (self : MCPServer) : json :=
  JObj [("name", JStr (server_name self));
        ("version", JStr (server_version self))].

Definition capabilities : json := JObj [("tools", JObj [])].

Definition with_tools (self : MCPServer) (d : Dict.t ToolEntry) : MCPServer :=
  {| server_name := server_name self;
     server_version := server_version self;
     protocol_version := protocol_version self;
     _tools := d;
     _resources := _resources self;
     _session_id := _session_id self |}.

Definition with_resources (self : MCPServer) (d : Dict.t ResourceEntry)
  : MCPServer :=
  {| server_name := server_name self;
     server_version := server_version self;
     protocol_version := protocol_version self;
     _tools := _tools self;
     _resources := d;
     _session_id := _session_id self |}.

Definition with_session_id (self : MCPServer) (sid : option string)
  : MCPServer :=
  {| server_name := server_name self;
     server_version := server_version self;
     protocol_version := protocol_version self;
     _tools := _tools self;
     _resources := _resources self;
     _session_id := sid |}.

(** *** Registry *)

Definition make_tool_schema (name description : string) (input_schema : json)
  : json :=
  JObj [("name", JStr name);
        ("description", JStr description);
        ("inputSchema", input_schema)].

Definition register_tool (self : MCPServer) (name description : string)
    (input_schema : json) (handler : json -> Result json) : MCPServer :=
  with_tools self
    (Dict.set name
       {| tool_schema := make_tool_schema name description input_schema;
          tool_handler := handler |}
       (_tools self)).

(** The decorator [tool(name, description, input_schema)(func)]. *)
Definition tool (self : MCPServer) (name description : string)
    (input_schema : json) (func : json -> Result json) : MCPServer :=
  with_tools self
    (Dict.set name
       {| tool_schema := make_tool_schema name description input_schema;
          tool_handler := func |}
       (_tools self)).

Definition make_resource_schema (uri name description mime_type : string)
  : json :=
  JObj [("uri", JStr uri);
        ("name", JStr name);
        ("description", JStr description);
        ("mimeType", JStr mime_type)].

(** The decorator [resource(uri, name, description, mime_type)(func)]. *)
Definition resource (self : MCPServer) (uri name description mime_type : string)
    (func : unit -> Result json) : MCPServer :=
  with_resources self
    (Dict.set uri
       {| res_schema := make_resource_schema uri name description mime_type;
          res_handler := func |}
       (_resources self)).

(** [key in d] and [d[key]] for a registry and an arbitrary decoded value:
    a list or a dictionary cannot be hashed, a value that is not a string
    is never a key. *)
Definition registry_contains {V : Type} (key : json) (d : Dict.t V)
  : Result bool :=
  match key with
  | JStr s => Ret (Dict.mem s d)
  | JArr _ | JObj _ => Raise (UnhashableType (type_name key))
  | _ => Ret false
  end.

Definition registry_item {V : Type} (key : json) (d : Dict.t V) : Result V :=
  match key with
  | JStr s => match Dict.get s d with
              | Some v => Ret v
              | None => Raise (KeyError s)
              end
  | JArr _ | JObj _ => Raise (UnhashableType (type_name key))
  | _ => Raise (KeyError (type_name key))
  end.

Definition result_bind {A B : Type} (r : Result A) (k : A -> Result B)
  : Result B :=
  match r with
  | Ret a => k a
  | Raise e => Raise e
  end.

(** The state a request runs in: the server object and the number of timer
    readings taken so far. *)
Record World : Type := {
  srv : MCPServer;
  ticks_read : nat
}.

(** Computations that read and update the world and may raise. *)
Definition M (A : Type) : Type := World -> Result A * World.

Definition ret {A : Type} (a : A) : M A := fun w => (Ret a, w).

Definition bind {A B : Type} (m : M A) (k : A -> M B) : M B :=
  fun w =>
    match m w with
    | (Ret a, w') => k a w'
    | (Raise e, w') => (Raise e, w')
    end.

Definition lift {A : Type} (r : Result A) : M A := fun w => (r, w).

(** [try: m  except Exception as e: h e] *)
Definition try_except {A : Type} (m : M A) (h : exn -> M A) : M A :=
  fun w =>
    match m w with
    | (Ret a, w') => (Ret a, w')
    | (Raise e, w') => h e w'
    end.

Definition get_self : M MCPServer := fun w => (Ret (srv w), w).

Definition set_session_id (sid : option string) : M unit :=
  fun w =>
    (Ret tt, {| srv := with_session_id (srv w) sid;
                ticks_read := ticks_read w |}).

Declare Scope mcp_scope.
Delimit Scope mcp_scope with mcp.
Notation "x <- m ;; k" := (bind m (fun x => k))
  (at level 61, m at next level, right associativity) : mcp_scope.
Notation "m ;;; k" := (bind m (fun _ => k))
  (at level 61, right associativity) : mcp_scope.

Definition rpc_result (req_id result : json) : json :=
  JObj [("jsonrpc", JStr "2.0"); ("id", req_id); ("result", result)].

Definition rpc_error (req_id : json) (code : Z) (message : string) : json :=
  JObj [("jsonrpc", JStr "2.0");
        ("id", req_id);
        ("error", JObj [("code", JNum code); ("message", JStr message)])].

Definition session_json (self : MCPServer) : json :=
  match _session_id self with
  | Some s => JStr s
  | None => JNull
  end.

Section Server.

Variable rt : Runtime.

(** [str(v)], as used by the f-strings. *)
Definition py_str (v : json) : string :=
  match v with
  | JNull => "None"
  | JBool true => "True"
  | JBool false => "False"
  | JNum z => PyStr.str_Z z
  | JStr s => s
  | _ => py_repr rt v
  end.

Definition time_ticks_ms : M N :=
  fun w =>
    (Ret (ticks_ms rt (ticks_read w)),
     {| srv := srv w; ticks_read := S (ticks_read w) |}).

(** *** Tool and resource execution *)

Definition _execute_tool (self : MCPServer) (tool_name arguments : json)
  : Result json :=
  match registry_contains tool_name (_tools self) with
  | Raise e => Raise e
  | Ret false =>
      Ret (JObj [("error", JStr ("Tool not found: " ++ py_str tool_name))])
  | Ret true =>
      match result_bind (registry_item tool_name (_tools self))
                        (fun entry => tool_handler entry arguments) with
      | Ret result => Ret result
      | Raise e =>
          Ret (JObj [("error",
                      JStr ("Tool execution failed: " ++ str_exn e))])
      end
  end.

Definition _execute_resource (self : MCPServer) (uri : json) : Result json :=
  match registry_contains uri (_resources self) with
  | Raise e => Raise e
  | Ret false =>
      Ret (JObj [("error", JStr ("Resource not found: " ++ py_str uri))])
  | Ret true =>
      match result_bind (registry_item uri (_resources self)) (fun entry =>
            result_bind (res_handler entry tt) (fun content =>
            result_bind (py_item (res_schema entry) "mimeType")
              (fun mime_type =>
            Ret (JObj [("content", content); ("mimeType", mime_type)]))))
      with
      | Ret result => Ret result
      | Raise e =>
          Ret (JObj [("error",
                      JStr ("Resource fetch failed: " ++ str_exn e))])
      end
  end.

(** *** The JSON-RPC dispatcher *)

Local Open Scope mcp_scope.

(** The chain of comparisons on [method] in the [try] block of
    [_handle_jsonrpc]. *)
Definition dispatch_method (method params req_id : json) : M json :=
  if eq_str method "initialize" then
    now <- time_ticks_ms ;;
    set_session_id
      (Some (PyStr.hexlify (unique_id rt) ++ "-" ++ PyStr.str_N now)) ;;;
    self <- get_self ;;
    ret (rpc_result req_id
           (JObj [("protocolVersion", JStr (protocol_version self));
                  ("capabilities", capabilities);
                  ("serverInfo", server_info self);
                  ("_meta", JObj [("sessionId", session_json self)])]))
  else if eq_str method "initialized" then
    ret JNull
  else if eq_str method "tools/list" then
    self <- get_self ;;
    ret (rpc_result req_id
           (JObj [("tools",
                   JArr (map tool_schema (dict_values rt (_tools self))))]))
  else if eq_str method "tools/call" then
    tool_name <- lift (py_get params "name" JNull) ;;
    arguments <- lift (py_get params "arguments" (JObj [])) ;;
    self <- get_self ;;
    result <- lift (_execute_tool self tool_name arguments) ;;
    ret (rpc_result req_id
           (JObj [("content",
                   JArr [JObj [("type", JStr "text");
                               ("text", JStr (json_dumps rt result))]])]))
  else if eq_str method "resources/list" then
    self <- get_self ;;
    ret (rpc_result req_id
           (JObj [("resources",
                   JArr (map res_schema (dict_values rt (_resources self))))]))
  else if eq_str method "resources/read" then
    uri <- lift (py_get params "uri" JNull) ;;
    self <- get_self ;;
    result <- lift (_execute_resource self uri) ;;
    if py_in "error" result then
      message <- lift (py_item result "error") ;;
      ret (JObj [("jsonrpc", JStr "2.0");
                 ("id", req_id);
                 ("error", JObj [("code", JNum (-32602));
                                 ("message", message)])])
    else
      mime_type <- lift (py_item result "mimeType") ;;
      content <- lift (py_item result "content") ;;
      ret (rpc_result req_id
             (JObj [("contents",
                     JArr [JObj [("uri", uri);
                                 ("mimeType", mime_type);
                                 ("text", content)]])]))
  else if eq_str method "ping" then
    ret (rpc_result req_id (JObj []))
  else
    ret (rpc_error req_id (-32601) ("Method not found: " ++ py_str method)).

(** The [try] block of [_handle_jsonrpc]. *)
Definition _handle_jsonrpc_try (request : json) : M json :=
  method <- lift (py_get request "method" JNull) ;;
  params <- lift (py_get request "params" (JObj [])) ;;
  req_id <- lift (py_get request "id" JNull) ;;
  dispatch_method method params req_id.

(** [_handle_jsonrpc]: the handler of the [except] clause evaluates
    [request.get("id")] once more. *)
Definition _handle_jsonrpc (request : json) : M json :=
  try_except (_handle_jsonrpc_try request)
    (fun e =>
       req_id <- lift (py_get request "id" JNull) ;;
       ret (rpc_error req_id (-32603) ("Internal error: " ++ str_exn e))).

(** *** Writing a response *)

(** What [_send_http_response] hands to [client.send]: the status line,
    the header lines in the order they are written, and the body. *)
Record http_response : Type := {
  status : string;
  headers : list (string * string);
  body : string
}.

Definition _send_http_response (self : MCPServer)
    (status content_type body : string)
    (extra_headers : option (Dict.t string)) : http_response :=
  {| status := status;
     headers :=
       [("Content-Type", content_type);
        ("Access-Control-Allow-Origin", "*");
        ("Access-Control-Allow-Methods", "POST, GET, OPTIONS, DELETE");
        ("Access-Control-Allow-Headers", "Content-Type, Mcp-Session-Id")]
       ++ match _session_id self, extra_headers with
          | Some sid, None =>
              if PyStr.truthy sid then [("Mcp-Session-Id", sid)] else []
          | _, _ => []
          end
       ++ match extra_headers with
          | Some extra => extra
          | None => []
          end
       ++ [("Content-Length", PyStr.str_nat (String.length body))];
     body := body |}.

(** *** Handling a request *)

(** The loop over [lines[1:]] that fills [headers]. *)
Fixpoint parse_headers (lines : list string) (headers : Dict.t string)
  : Dict.t string :=
  match lines with
  | [] => headers
  | line :: rest =>
      if PyStr.contains ": " line
      then let (key, value) := PyStr.split_once ": " line in
           parse_headers rest (Dict.set (PyStr.lower key) value headers)
      else parse_headers rest headers
  end.

(** [session_id == self._session_id], each side a string or [None]. *)
Definition session_eqb (a b : option string) : bool :=
  match a, b with
  | Some x, Some y => String.eqb x y
  | None, None => true
  | _, _ => false
  end.

(** The batch loop: dispatch every element in turn and keep the responses
    that are true. *)
Fixpoint batch_loop (reqs : list json) (responses : list json)
  : M (list json) :=
  match reqs with
  | [] => ret responses
  | req :: rest =>
      resp <- _handle_jsonrpc req ;;
      batch_loop rest (if truthy resp then responses ++ [resp] else responses)
  end.

(** The end of the [try] block of the POST branch: the 200 reply with the
    session header passed explicitly. *)
Definition send_ok (response_body : string) : M (list http_response) :=
  self <- get_self ;;
  let extra_headers :=
    match _session_id self with
    | Some sid =>
        if PyStr.truthy sid then Dict.set "Mcp-Session-Id" sid Dict.empty
        else Dict.empty
    | None => Dict.empty
    end in
  ret [_send_http_response self "200 OK" "application/json" response_body
         (Some extra_headers)].

(** The [try] block of the POST branch. *)
Definition post_try (body : string) : M (list http_response) :=
  json_request <- lift (json_loads rt body) ;;
  match json_request with
  | JArr reqs =>
      responses <- batch_loop reqs [] ;;
      send_ok (json_dumps rt (JArr responses))
  | _ =>
      json_response <- _handle_jsonrpc json_request ;;
      match json_response with
      | JNull =>
          self <- get_self ;;
          ret [_send_http_response self "204 No Content" "application/json"
                 "" None]
      | _ => send_ok (json_dumps rt json_response)
      end
  end.

Definition parse_error_body (e : exn) : string :=
  json_dumps rt
    (JObj [("jsonrpc", JStr "2.0");
           ("error", JObj [("code", JNum (-32700));
                           ("message", JStr ("Parse error: " ++ str_exn e))])]).

Definition handle_post (body : string) : M (list http_response) :=
  try_except (post_try body)
    (fun e =>
       self <- get_self ;;
       ret [_send_http_response self "400 Bad Request" "application/json"
              (parse_error_body e) None]).

(** One [<li>] line per registry key, for the status page. *)
Fixpoint list_items (entries : list (string * json)) : Result string :=
  match entries with
  | [] => Ret ""
  | (key, schema) :: rest =>
      result_bind (py_item schema "description") (fun desc =>
      match desc with
      | JStr d =>
          result_bind (list_items rest) (fun html =>
          Ret ("<li><strong>" ++ key ++ "</strong>: " ++ d ++ "</li>" ++ html))
      | _ => Raise (Raised "can't convert object to str implicitly")
      end)
  end.

Definition status_page (self : MCPServer) : Result string :=
  result_bind
    (list_items
       (map (fun kv => (fst kv, tool_schema (snd kv)))
          (dict_items rt (_tools self))))
    (fun tools_html =>
  result_bind
    (list_items
       (map (fun kv => (fst kv, res_schema (snd kv)))
          (dict_items rt (_resources self))))
    (fun resources_html =>
  Ret ("<!DOCTYPE html>" ++ "<html>"
       ++ "<head><title>" ++ server_name self ++ "</title></head>"
       ++ "<body>"
       ++ "<h1>MCP Server: " ++ server_name self ++ "</h1>"
       ++ "<p>Version: " ++ server_version self ++ "</p>"
       ++ "<p>Protocol: " ++ protocol_version self ++ "</p>"
       ++ "<p>MCP Endpoint: <code>POST /mcp</code></p>"
       ++ match _session_id self with
          | Some sid =>
              if PyStr.truthy sid
              then "<p>Session ID: <code>" ++ sid ++ "</code></p>"
              else ""
          | None => ""
          end
       ++ "<h2>Tools (" ++ PyStr.str_nat (List.length (_tools self)) ++ ")</h2>"
       ++ (if PyStr.truthy tools_html
           then "<ul>" ++ tools_html ++ "</ul>"
           else "<p><em>No tools registered</em></p>")
       ++ "<h2>Resources (" ++ PyStr.str_nat (List.length (_resources self))
       ++ ")</h2>"
       ++ (if PyStr.truthy resources_html
           then "<ul>" ++ resources_html ++ "</ul>"
           else "<p><em>No resources registered</em></p>")
       ++ "</body>" ++ "</html>"))).

(** The literal ['{"error":"Session not found"}']. *)
Definition session_not_found_body : string :=
  "{" ++ PyStr.DQ ++ "error" ++ PyStr.DQ ++ ":"
      ++ PyStr.DQ ++ "Session not found" ++ PyStr.DQ ++ "}".

(** Routing by method and path, once the request line and the headers are
    known. *)
Definition route (request method path : string) (headers : Dict.t string)
  : M (list http_response) :=
  if String.eqb method "OPTIONS" then
    self <- get_self ;;
    ret [_send_http_response self "204 No Content" "text/plain" "" None]
  else if String.eqb method "DELETE" && String.eqb path "/mcp" then
    self <- get_self ;;
    let session_id := Dict.get "mcp-session-id" headers in
    if session_eqb session_id (_session_id self) then
      set_session_id None ;;;
      self <- get_self ;;
      ret [_send_http_response self "200 OK" "application/json" "{}" None]
    else
      ret [_send_http_response self "404 Not Found" "application/json"
             session_not_found_body None]
  else if String.eqb method "POST" && String.eqb path "/mcp" then
    let body_start := PyStr.find PyStr.CRLFCRLF request in
    if negb (body_start =? -1)%Z then
      handle_post (PyStr.drop (Z.to_nat (body_start + 4)) request)
    else
      ret []
  else if String.eqb method "GET" && String.eqb path "/mcp" then
    self <- get_self ;;
    ret [_send_http_response self "501 Not Implemented" "application/json"
           (json_dumps rt
              (JObj [("error",
                      JStr "GET/SSE streaming not implemented on Pico")]))
           None]
  else if String.eqb method "GET" && String.eqb path "/" then
    self <- get_self ;;
    html <- lift (status_page self) ;;
    ret [_send_http_response self "200 OK" "text/html" html None]
  else
    self <- get_self ;;
    ret [_send_http_response self "404 Not Found" "text/plain" "Not Found"
           None].

(** The [try] block of [_handle_request], from the point where the bytes of
    the request have been received. *)
Definition _handle_request_try (raw : list Byte.byte)
  : M (list http_response) :=
  request <- lift (bytes_decode rt raw) ;;
  match PyStr.split PyStr.CRLF request with
  | [] => ret []
  | line0 :: rest =>
      match PyStr.split_ws line0 with
      | method :: path :: _ =>
          route request method path (parse_headers rest Dict.empty)
      | _ => ret []
      end
  end.

(** [_handle_request]: the new world and the responses written to the
    client.  A failure of the [try] block is answered with a 500. *)
Definition _handle_request (w : World) (raw : list Byte.byte)
  : World * list http_response :=
  match _handle_request_try raw w with
  | (Ret sent, w') => (w', sent)
  | (Raise e, w') =>
      (w', [_send_http_response (srv w') "500 Internal Server Error"
              "application/json"
              (json_dumps rt (JObj [("error", JStr (str_exn e))])) None])
  end.

End Server.

(** ** A reference runtime

    An executable instance of [Runtime], used to run the model on concrete
    requests: a reader and a writer for JSON documents with integer numbers
    (the writer uses the separators of [json.dumps]), a decoder for ASCII
    requests, a timer that is driven by a given function, and a [dict]
    that iterates in the order of insertion. *)

Module Ref.

Definition is_json_ws (c : ascii) : bool :=
  let n := nat_of_ascii c in
  ((n =? 32) || (n =? 9) || (n =? 10) || (n =? 13))%nat.

Fixpoint skip_ws (s : string) : string :=
  match s with
  | String c s' => if is_json_ws c then skip_ws s' else s
  | EmptyString => s
  end.

Definition digit_of (c : ascii) : option Z :=
  let n := nat_of_ascii c in
  if ((48 <=? n) && (n <=? 57))%nat then Some (Z.of_nat (n - 48)) else None.

(** The digits at the head of [s], read as a number continuing [acc]. *)
Fixpoint read_digits (s : string) (acc : Z) : Z * string :=
  match s with
  | String c s' =>
      match digit_of c with
      | Some d => read_digits s' (10 * acc + d)%Z
      | None => (acc, s)
      end
  | EmptyString => (acc, s)
  end.

Definition read_int (s : string) : option (Z * string) :=
  match s with
  | String c s' =>
      match digit_of c with
      | Some _ => Some (read_digits s 0%Z)
      | None => None
      end
  | EmptyString => None
  end.

Definition BACKSLASH : ascii := ascii_of_nat 92.
Definition QUOTE : ascii := ascii_of_nat 34.

(** The characters of a string literal up to its closing quote. *)
Fixpoint read_string (s : string) : option (string * string) :=
  match s with
  | EmptyString => None
  | String c s' =>
      if Ascii.eqb c QUOTE then Some (EmptyString, s')
      else if Ascii.eqb c BACKSLASH then
        match s' with
        | String e s'' =>
            let put x := match read_string s'' with
                         | Some (t, r) => Some (String x t, r)
                         | None => None
                         end in
            if Ascii.eqb e QUOTE then put QUOTE
            else if Ascii.eqb e BACKSLASH then put BACKSLASH
            else if Ascii.eqb e "/"%char then put "/"%char
            else if Ascii.eqb e "n"%char then put PyStr.LF
            else if Ascii.eqb e "r"%char then put PyStr.CR
            else if Ascii.eqb e "t"%char then put (ascii_of_nat 9)
            else None
        | EmptyString => None
        end
      else match read_string s' with
           | Some (t, r) => Some (String c t, r)
           | None => None
           end
  end.

Definition expect (lit : string) (v : json) (s : string)
  : option (json * string) :=
  if String.prefix lit s then Some (v, PyStr.drop (String.length lit) s)
  else None.

Fixpoint read_value (fuel : nat) (s : string) : option (json * string) :=
  match fuel with
  | O => None
  | S f =>
      match skip_ws s with
      | EmptyString => None
      | String c r as s0 =>
          if Ascii.eqb c "n"%char then expect "null" JNull s0
          else if Ascii.eqb c "t"%char then expect "true" (JBool true) s0
          else if Ascii.eqb c "f"%char then expect "false" (JBool false) s0
          else if Ascii.eqb c QUOTE then
            match read_string r with
            | Some (t, r') => Some (JStr t, r')
            | None => None
            end
          else if Ascii.eqb c "-"%char then
            match read_int r with
            | Some (z, r') => Some (JNum (- z), r')
            | None => None
            end
          else if Ascii.eqb c "["%char then
            match skip_ws r with
            | String c' r' =>
                if Ascii.eqb c' "]"%char then Some (JArr [], r')
                else read_elements f (skip_ws r) []
            | EmptyString => None
            end
          else if Ascii.eqb c "{"%char then
            match skip_ws r with
            | String c' r' =>
                if Ascii.eqb c' "}"%char then Some (JObj [], r')
                else read_members f (skip_ws r) Dict.empty
            | EmptyString => None
            end
          else
            match read_int s0 with
            | Some (z, r') => Some (JNum z, r')
            | None => None
            end
      end
  end

with read_elements (fuel : nat) (s : string) (acc : list json)
  : option (json * string) :=
  match fuel with
  | O => None
  | S f =>
      match read_value f s with
      | Some (v, r) =>
          match skip_ws r with
          | String c r' =>
              if Ascii.eqb c ","%char then read_elements f r' (acc ++ [v])
              else if Ascii.eqb c "]"%char then Some (JArr (acc ++ [v]), r')
              else None
          | EmptyString => None
          end
      | None => None
      end
  end

with read_members (fuel : nat) (s : string) (acc : Dict.t json)
  : option (json * string) :=
  match fuel with
  | O => None
  | S f =>
      match skip_ws s with
      | String q r0 =>
          if Ascii.eqb q QUOTE then
            match read_string r0 with
            | Some (key, r1) =>
                match skip_ws r1 with
                | String colon r2 =>
                    if Ascii.eqb colon ":"%char then
                      match read_value f r2 with
                      | Some (v, r3) =>
                          match skip_ws r3 with
                          | String c r4 =>
                              if Ascii.eqb c ","%char
                              then read_members f r4 (Dict.set key v acc)
                              else if Ascii.eqb c "}"%char
                              then Some (JObj (Dict.set key v acc), r4)
                              else None
                          | EmptyString => None
                          end
                      | None => None
                      end
                    else None
                | EmptyString => None
                end
            | None => None
            end
          else None
      | EmptyString => None
      end
  end.

Definition loads (s : string) : Result json :=
  match read_value (2 * String.length s + 2) s with
  | Some (v, rest) =>
      match skip_ws rest with
      | EmptyString => Ret v
      | _ => Raise (Raised "syntax error in JSON")
      end
  | None => Raise (Raised "syntax error in JSON")
  end.

Fixpoint escape (s : string) : string :=
  match s with
  | EmptyString => EmptyString
  | String c s' =>
      if Ascii.eqb c QUOTE then String BACKSLASH (String QUOTE (escape s'))
      else if Ascii.eqb c BACKSLASH
      then String BACKSLASH (String BACKSLASH (escape s'))
      else if Ascii.eqb c PyStr.LF then String BACKSLASH (String "n" (escape s'))
      else if Ascii.eqb c PyStr.CR then String BACKSLASH (String "r" (escape s'))
      else String c (escape s')
  end.

Definition quoted (s : string) : string := PyStr.DQ ++ escape s ++ PyStr.DQ.

Fixpoint dumps (v : json) : string :=
  match v with
  | JNull => "null"
  | JBool true => "true"
  | JBool false => "false"
  | JNum z => PyStr.str_Z z
  | JStr s => quoted s
  | JArr l =>
      "[" ++ (fix items (l : list json) : string :=
                match l with
                | [] => ""
                | [x] => dumps x
                | x :: r => dumps x ++ ", " ++ items r
                end) l ++ "]"
  | JObj d =>
      "{" ++ (fix members (d : list (string * json)) : string :=
                match d with
                | [] => ""
                | [(k, x)] => quoted k ++ ": " ++ dumps x
                | (k, x) :: r => quoted k ++ ": " ++ dumps x ++ ", " ++ members r
                end) d ++ "}"
  end.

(** [str()] of a list or dictionary, for strings without quotes in them. *)
Fixpoint repr (v : json) : string :=
  match v with
  | JNull => "None"
  | JBool true => "True"
  | JBool false => "False"
  | JNum z => PyStr.str_Z z
  | JStr s => "'" ++ s ++ "'"
  | JArr l =>
      "[" ++ (fix items (l : list json) : string :=
                match l with
                | [] => ""
                | [x] => repr x
                | x :: r => repr x ++ ", " ++ items r
                end) l ++ "]"
  | JObj d =>
      "{" ++ (fix members (d : list (string * json)) : string :=
                match d with
                | [] => ""
                | [(k, x)] => "'" ++ k ++ "': " ++ repr x
                | (k, x) :: r => "'" ++ k ++ "': " ++ repr x ++ ", " ++ members r
                end) d ++ "}"
  end.

(** Decoding of a request made of ASCII bytes; any other byte is reported
    as a decoding error. *)
Definition decode (raw : list Byte.byte) : Result string :=
  if forallb (fun b => (Byte.to_N b <? 128)%N) raw
  then Ret (string_of_list_byte raw)
  else Raise (Raised "invalid utf-8 data").

Definition runtime (uid : list Byte.byte) (ticks : nat -> N) : Runtime :=
  {| json_loads := loads;
     json_dumps := dumps;
     bytes_decode := decode;
     py_repr := repr;
     unique_id := uid;
     ticks_ms := ticks;
     dict_order := fun keys => keys |}.

(** The bytes of an ASCII request text. *)
Definition bytes (s : string) : list Byte.byte := list_byte_of_string s.

End Ref.

(** ** A dictionary kept as a hash table

    An order of iteration of the kind MicroPython's [dict] has: the keys
    sit in an open-addressing hash table, a new key in the first free slot
    at or after its hash modulo the size of the table, a full table is
    replaced by a larger one, and the iteration goes over the slots. *)

Module SlotDict.

(** The hash of a string: 5381, times 33 and xor the byte for every byte,
    kept to 16 bits, and never 0. *)
Definition hash (s : string) : N :=
  let h :=
    fold_left (fun h c => N.land (N.lxor (h * 33) (N_of_ascii c)) 65535)
      (list_ascii_of_string s) 5381%N in
  if (h =? 0)%N then 1%N else h.

Definition sizes : list N :=
  [2; 4; 6; 8; 10; 12; 17; 23; 29; 37; 47; 59; 73; 97; 127; 167; 223; 293;
   389; 521; 691; 919; 1223; 1627; 2161; 3229; 4831; 7243; 10861; 16273;
   24407; 36607; 54907]%N.

(** The number of slots of the table that replaces a full table of [n]
    slots. *)
Definition grown (n : nat) : nat :=
  match List.find (fun m => (N.of_nat n <? m)%N) sizes with
  | Some m => N.to_nat m
  | None => S (2 * n)
  end.

Definition table : Type := list (option string).

Definition entries (t : table) : list string :=
  flat_map (fun slot => match slot with Some k => [k] | None => [] end) t.

(** The first free slot at or after [pos], going round the table once. *)
Fixpoint free_slot (t : table) (pos fuel : nat) : option nat :=
  match fuel with
  | O => None
  | S fuel' =>
      match nth_error t pos with
      | Some None => Some pos
      | _ => free_slot t (S pos mod List.length t) fuel'
      end
  end.

Fixpoint store (t : table) (pos : nat) (k : string) : table :=
  match t, pos with
  | [], _ => []
  | _ :: t', O => Some k :: t'
  | slot :: t', S pos' => slot :: store t' pos' k
  end.

(** A new key goes to its slot, when the table has a free one. *)
Definition place (t : table) (k : string) : option table :=
  match t with
  | [] => None
  | _ =>
      match free_slot t
              (N.to_nat (hash k mod N.of_nat (List.length t)))
              (List.length t) with
      | Some pos => Some (store t pos k)
      | None => None
      end
  end.

(** The larger table, filled with the keys of the full one slot by slot. *)
Definition rehash (t : table) : table :=
  fold_left (fun t' k => match place t' k with Some t'' => t'' | None => t' end)
    (entries t) (repeat None (grown (List.length t))).

(** [d[k] = v] *)
Definition add (t : table) (k : string) : table :=
  if existsb (String.eqb k) (entries t) then t
  else match place t k with
       | Some t' => t'
       | None =>
           match place (rehash t) k with
           | Some t' => t'
           | None => rehash t
           end
       end.

(** The order of iteration of a dictionary that was given the keys in
    turn. *)
Definition order (keys : list string) : list string :=
  entries (fold_left add keys []).

End SlotDict.

(** ** Receiving a request

    The first part of [_handle_request]: the two loops that read from the
    socket until the headers are complete and the declared body has
    arrived. *)

Module PyBytes.

(** [b'\r\n\r\n'] *)
Definition CRLFCRLF : list Byte.byte := list_byte_of_string PyStr.CRLFCRLF.

(** [b.startswith(sub)] *)
Fixpoint is_prefix (sub b : list Byte.byte) : bool :=
  match sub, b with
  | [], _ => true
  | _ :: _, [] => false
  | x :: sub', y :: b' => Byte.eqb x y && is_prefix sub' b'
  end.

(** [b.find(sub)], with [-1] for "not found". *)
Fixpoint find_from (sub b : list Byte.byte) (i : Z) : Z :=
  if is_prefix sub b then i
  else match b with
       | [] => (-1)%Z
       | _ :: b' => find_from sub b' (i + 1)%Z
       end.

Definition find (sub b : list Byte.byte) : Z := find_from sub b 0.

(** [sub in b] *)
Definition contains (sub b : list Byte.byte) : bool :=
  negb (find sub b =? -1)%Z.

(** [b.split(sub)[0]]: the bytes before the first occurrence of [sub], all
    of [b] when there is none. *)
Definition before (sub b : list Byte.byte) : list Byte.byte :=
  if contains sub b then firstn (Z.to_nat (find sub b)) b else b.

End PyBytes.

Module PyText.

(** [s.lstrip()], [s.rstrip()] and [s.strip()] *)
Fixpoint lstrip (s : string) : string :=
  match s with
  | EmptyString => EmptyString
  | String c s' => if PyStr.is_space c then lstrip s' else s
  end.

Fixpoint rstrip (s : string) : string :=
  match s with
  | EmptyString => EmptyString
  | String c s' =>
      match rstrip s' with
      | EmptyString => if PyStr.is_space c then EmptyString else String c ""
      | r => String c r
      end
  end.

Definition strip (s : string) : string := rstrip (lstrip s).

End PyText.

(** A connected socket: the segments in which the data of the peer
    arrives; after the last one the peer has closed the connection. *)
Definition Client : Type := list (list Byte.byte).

(** [client.recv(n)]: at most [n] bytes of the segment at hand, the empty
    bytes once the peer has closed. *)
Definition recv (n : nat) (client : Client) : list Byte.byte * Client :=
  match client with
  | [] => ([], [])
  | segment :: rest =>
      if (List.length segment <=? n)%nat then (segment, rest)
      else (firstn n segment, skipn n segment :: rest)
  end.

(** The bytes the peer sends before closing. *)
Definition sent_bytes (client : Client) : list Byte.byte := List.concat client.

Section Framer.

Variable rt : Runtime.

(** [int(s)] *)
Variable py_int : string -> Result Z.

(** The loop over the header lines that looks for the content length: the
    first line that starts with [content-length:] decides. *)
Fixpoint scan_content_length (lines : list string) : Result Z :=
  match lines with
  | [] => Ret 0%Z
  | line :: rest =>
      if String.prefix "content-length:" (PyStr.lower line)
      then match PyStr.split ":" line with
           | _ :: field :: _ => py_int (PyText.strip field)
           | _ => Raise (Raised "list index out of range")
           end
      else scan_content_length rest
  end.

(** The [try] block run once the blank line has been seen; any failure
    leaves [content_length] at 0. *)
Definition parse_content_length (request : list Byte.byte) : Z :=
  match result_bind
          (bytes_decode rt (PyBytes.before PyBytes.CRLFCRLF request))
          (fun headers_part =>
             scan_content_length (PyStr.split PyStr.CRLF headers_part)) with
  | Ret n => n
  | Raise _ => 0%Z
  end.

(** The first loop: read until the blank line is in the buffer or the peer
    closes.  The result is the buffer, [content_length] and the socket. *)
Fixpoint header_loop (fuel : nat) (client : Client) (request : list Byte.byte)
  : list Byte.byte * Z * Client :=
  match fuel with
  | O => (request, 0%Z, client)
  | S fuel' =>
      let (chunk, client') := recv 1024 client in
      match chunk with
      | [] => (request, 0%Z, client')
      | _ =>
          let request' := (request ++ chunk)%list in
          if PyBytes.contains PyBytes.CRLFCRLF request'
          then (request', parse_content_length request', client')
          else header_loop fuel' client' request'
      end
  end.

(** The second loop: read until [content_length] bytes follow the blank
    line or the peer closes. *)
Fixpoint body_loop (fuel : nat) (client : Client) (request : list Byte.byte)
    (headers_end content_length : Z) : list Byte.byte * Client :=
  match fuel with
  | O => (request, client)
  | S fuel' =>
      let body_received := (Z.of_nat (List.length request) - headers_end)%Z in
      if (body_received <? content_length)%Z then
        let (chunk, client') :=
          recv (Z.to_nat (Z.min 1024 (content_length - body_received)))
            client in
        match chunk with
        | [] => (request, client')
        | _ => body_loop fuel' client' (request ++ chunk)%list headers_end
                 content_length
        end
      else (request, client)
  end.

(** Every pass of a loop takes at least one byte from the socket or ends
    the loop, so one pass more than the bytes at hand is enough. *)
Definition passes (client : Client) : nat := S (List.length (sent_bytes client)).

(** The bytes [_handle_request] has in [request] when it starts to decode,
    and what is left in the socket. *)
Definition receive (client : Client) : list Byte.byte * Client :=
  let '(request, content_length, client1) :=
    header_loop (passes client) client [] in
  if (0 <? content_length)%Z then
    body_loop (passes client1) client1 request
      (PyBytes.find PyBytes.CRLFCRLF request + 4)%Z content_length
  else (request, client1).

(** [_handle_request] from its first line: receive, then handle. *)
Definition handle_client (w : World) (client : Client)
  : World * list http_response :=
  _handle_request rt w (fst (receive client)).

(** The loop of [run]: the connections are handled one after the other,
    each in the world the one before has left. *)
Fixpoint serve (w : World) (clients : list Client)
  : World * list (list http_response) :=
  match clients with
  | [] => (w, [])
  | client :: rest =>
      let (w1, sent) := handle_client w client in
      let (w2, more) := serve w1 rest in
      (w2, sent :: more)
  end.

End Framer.

(** A reference [int()]: blanks around an optional sign and decimal
    digits. *)
Module RefInt.

Fixpoint all_digits (s : string) : bool :=
  match s with
  | EmptyString => true
  | String c s' =>
      match Ref.digit_of c with
      | Some _ => all_digits s'
      | None => false
      end
  end.

Definition digits (s : string) : Result Z :=
  match s with
  | EmptyString => Raise (Raised "invalid literal for int()")
  | _ => if all_digits s then Ret (fst (Ref.read_digits s 0%Z))
         else Raise (Raised "invalid literal for int()")
  end.

Definition py_int (s : string) : Result Z :=
  match PyText.strip s with
  | String "-" s' =>
      match digits s' with
      | Ret z => Ret (- z)%Z
      | Raise e => Raise e
      end
  | String "+" s' => digits s'
  | s' => digits s'
  end.

End RefInt.

(** ** The pin cache *)

Module Gpio.

(** What names a pin: a number, or a name such as ["LED"]. *)
Inductive pin_id : Type :=
| PinNumber (n : Z)
| PinName (s : string).

Definition pin_id_eqb (a b : pin_id) : bool :=
  match a, b with
  | PinNumber n, PinNumber m => (n =? m)%Z
  | PinName s, PinName t => String.eqb s t
  | _, _ => false
  end.

(** The key [(pin_num, mode)] of [_pin_cache]; tuples are equal when their
    components are. *)
Definition key : Type := (pin_id * Z)%type.

Definition key_eqb (a b : key) : bool :=
  pin_id_eqb (fst a) (fst b) && (snd a =? snd b)%Z.

Section Pins.

(** The objects of class [machine.Pin], the state of the board, and the
    constructor [Pin(id, mode)], which configures the hardware and may
    raise. *)
Variable PinObj : Type.
Variable Board : Type.
Variable Pin : pin_id -> Z -> Board -> Result PinObj * Board.

(** [Pin.IN] *)
Variable IN : Z.

(** [self._pin_cache] *)
Definition PinCache : Type := list (key * PinObj).

Fixpoint cache_get (k : key) (cache : PinCache) : option PinObj :=
  match cache with
  | [] => None
  | (k', p) :: rest => if key_eqb k k' then Some p else cache_get k rest
  end.

Fixpoint cache_set (k : key) (p : PinObj) (cache : PinCache) : PinCache :=
  match cache with
  | [] => [(k, p)]
  | (k', p') :: rest =>
      if key_eqb k k' then (k', p) :: rest else (k', p') :: cache_set k p rest
  end.

(** [_get_pin(pin_num, mode)], on the cache and the board. *)
Definition _get_pin (pin_num : pin_id) (mode : Z) (st : PinCache * Board)
  : Result PinObj * (PinCache * Board) :=
  let (cache, board) := st in
  let k := (pin_num, mode) in
  match cache_get k cache with
  | Some p => (Ret p, (cache, board))
  | None =>
      match Pin pin_num mode board with
      | (Raise e, board') => (Raise e, (cache, board'))
      | (Ret p, board') =>
          let cache' := cache_set k p cache in
          match cache_get k cache' with
          | Some q => (Ret q, (cache', board'))
          | None => (Raise (KeyError "(pin_num, mode)"), (cache', board'))
          end
      end
  end.

(** [_get_pin(pin_num)]: the mode defaults to [Pin.IN]. *)
Definition _get_pin_default (pin_num : pin_id) (st : PinCache * Board)
  : Result PinObj * (PinCache * Board) :=
  _get_pin pin_num IN st.

(** A sequence of calls of [_get_pin], whatever their callers do with the
    results. *)
Fixpoint get_pins (calls : list key) (st : PinCache * Board)
  : PinCache * Board :=
  match calls with
  | [] => st
  | (pin_num, mode) :: rest => get_pins rest (snd (_get_pin pin_num mode st))
  end.

End Pins.

Arguments cache_get {PinObj} k cache.
Arguments cache_set {PinObj} k p cache.
Arguments _get_pin {PinObj Board} Pin pin_num mode st.
Arguments _get_pin_default {PinObj Board} Pin IN pin_num st.
Arguments get_pins {PinObj Board} Pin calls st.

End Gpio.

Module GpioDemo.

(** A board that counts the pins configured, with pins 0 to 28 and the
    LED; a pin object records its number and mode. *)
Definition Pin (pin_num : Gpio.pin_id) (mode : Z) (board : nat)
  : Result (Gpio.pin_id * Z * nat) * nat :=
  match pin_num with
  | Gpio.PinNumber n =>
      if ((0 <=? n) && (n <=? 28))%Z
      then (Ret (pin_num, mode, board), S board)
      else (Raise (Raised "invalid pin"), board)
  | Gpio.PinName s =>
      if String.eqb s "LED" then (Ret (pin_num, mode, board), S board)
      else (Raise (Raised "unknown named pin"), board)
  end.

End GpioDemo.

(** * Notions used to state the properties *)

(** ** Registrations *)

(** The arguments of one call of [register_tool]. *)
Record registration : Type := {
  reg_name : string;
  reg_description : string;
  reg_input_schema : json;
  reg_handler : json -> Result json
}.

Definition register (self : MCPServer) (r : registration) : MCPServer :=
  register_tool self (reg_name r) (reg_description r) (reg_input_schema r)
    (reg_handler r).

(** A sequence of calls of [register_tool]. *)
Definition register_all (self : MCPServer) (regs : list registration)
  : MCPServer :=
  fold_left register regs self.

Definition reg_entry (r : registration) : ToolEntry :=
  {| tool_schema :=
       make_tool_schema (reg_name r) (reg_description r) (reg_input_schema r);
     tool_handler := reg_handler r |}.

(** What the specification says of the listing: the names in the order of
    their first registration, each with the data of its last one. *)
Fixpoint first_occurrences (names : list string) : list string :=
  match names with
  | [] => []
  | n :: rest =>
      n :: filter (fun m => negb (String.eqb n m)) (first_occurrences rest)
  end.

Fixpoint last_registration (name : string) (regs : list registration)
  : option registration :=
  match regs with
  | [] => None
  | r :: rest =>
      match last_registration name rest with
      | Some r' => Some r'
      | None => if String.eqb name (reg_name r) then Some r else None
      end
  end.

Definition listed (regs : list registration) : list registration :=
  flat_map
    (fun n => match last_registration n regs with
              | Some r => [r]
              | None => []
              end)
    (first_occurrences (map reg_name regs)).

Definition spec_tools_list (regs : list registration) : list json :=
  map (fun r => tool_schema (reg_entry r)) (listed regs).

(** The listing when the names come in a given order: each name with the
    data of its last registration. *)
Definition listed_in (order : list string) (regs : list registration)
  : list registration :=
  flat_map
    (fun n => match last_registration n regs with
              | Some r => [r]
              | None => []
              end)
    order.

(** ** Requests and responses *)

(** The value [d.get(key, default)] of a request object. *)
Definition req_field (d : Dict.t json) (key : string) (default : json) : json :=
  match Dict.get key d with
  | Some x => x
  | None => default
  end.

(** A value that can be looked up in a registry: not a list, not a
    dictionary. *)
Definition hashable (v : json) : bool :=
  match v with
  | JArr _ | JObj _ => false
  | _ => true
  end.

Definition is_object (v : json) : bool :=
  match v with
  | JObj _ => true
  | _ => false
  end.

Section Notions.

Variable rt : Runtime.

(** The token minted by the [k]-th reading of the timer. *)
Definition token_at (k : nat) : string :=
  PyStr.hexlify (unique_id rt) ++ "-" ++ PyStr.str_N (ticks_ms rt k).

(** The world after an [initialize] call. *)
Definition initialized_world (w : World) : World :=
  {| srv := with_session_id (srv w) (Some (token_at (ticks_read w)));
     ticks_read := S (ticks_read w) |}.

Definition initialize_result (self : MCPServer) (token : string) : json :=
  JObj [("protocolVersion", JStr (protocol_version self));
        ("capabilities", capabilities);
        ("serverInfo", server_info self);
        ("_meta", JObj [("sessionId", JStr token)])].

Definition text_content (text : string) : json :=
  JObj [("content", JArr [JObj [("type", JStr "text"); ("text", JStr text)]])].

(** What [_execute_tool] hands back for a tool name that can be hashed:
    the value the handler returns, or an error-shaped object. *)
Inductive tool_outcome (self : MCPServer) (name arguments : json)
  : json -> Prop :=
| outcome_not_found :
    registry_contains name (_tools self) = Ret false ->
    tool_outcome self name arguments
      (JObj [("error", JStr ("Tool not found: " ++ py_str rt name))])
| outcome_returned entry result :
    registry_item name (_tools self) = Ret entry ->
    tool_handler entry arguments = Ret result ->
    tool_outcome self name arguments result
| outcome_failed entry e :
    registry_item name (_tools self) = Ret entry ->
    tool_handler entry arguments = Raise e ->
    tool_outcome self name arguments
      (JObj [("error", JStr ("Tool execution failed: " ++ str_exn e))]).

Definition resource_contents (uri mime_type content : json) : json :=
  JObj [("contents",
         JArr [JObj [("uri", uri); ("mimeType", mime_type);
                     ("text", content)]])].

(** ** Requests as [_handle_request] sees them *)

(** The request text, the method, the path and the headers
    [_handle_request] works with, when the received bytes yield them. *)
Definition frame (raw : list Byte.byte)
  : option (string * string * string * Dict.t string) :=
  match bytes_decode rt raw with
  | Raise _ => None
  | Ret request =>
      match PyStr.split PyStr.CRLF request with
      | [] => None
      | line0 :: rest =>
          match PyStr.split_ws line0 with
          | method :: path :: _ =>
              Some (request, method, path, parse_headers rest Dict.empty)
          | _ => None
          end
      end
  end.

(** The reply to a failure of the [try] block of [_handle_request]. *)
Definition internal_error (self : MCPServer) (e : exn) : http_response :=
  _send_http_response self "500 Internal Server Error" "application/json"
    (json_dumps rt (JObj [("error", JStr (str_exn e))])) None.

(** The outcome of a computation that writes responses, as
    [_handle_request] reports it. *)
Definition answered (out : Result (list http_response) * World)
  : World * list http_response :=
  match out with
  | (Ret sent, w') => (w', sent)
  | (Raise e, w') => (w', [internal_error (srv w') e])
  end.

(** The world after the session has been terminated. *)
Definition cleared (w : World) : World :=
  {| srv := with_session_id (srv w) None; ticks_read := ticks_read w |}.

(** The reply of the [except] clause of the POST branch. *)
Definition parse_error (self : MCPServer) (e : exn) : http_response :=
  _send_http_response self "400 Bad Request" "application/json"
    (parse_error_body rt e) None.

(** A request whose method is [initialize]. *)
Definition is_initialize (req : json) : bool :=
  match py_get req "method" JNull with
  | Ret method => eq_str method "initialize"
  | Raise _ => false
  end.

(** A response of the dispatcher is [None] or a dictionary that is not
    empty. *)
Definition is_response (r : json) : Prop :=
  r = JNull \/ exists l, r = JObj (("jsonrpc", JStr "2.0") :: l).

(** The dispatcher applied to the elements of a batch one after the other:
    the responses that are not [None], in order, and the final world. *)
Fixpoint dispatch_all (reqs : list json) (w : World)
  : Result (list json) * World :=
  match reqs with
  | [] => (Ret [], w)
  | req :: rest =>
      match _handle_jsonrpc rt req w with
      | (Ret r, w1) =>
          match dispatch_all rest w1 with
          | (Ret rs, w2) =>
              (Ret (match r with JNull => rs | _ => r :: rs end), w2)
          | (Raise e, w2) => (Raise e, w2)
          end
      | (Raise e, w1) => (Raise e, w1)
      end
  end.

Definition session_header (self : MCPServer) : Dict.t string :=
  match _session_id self with
  | Some sid => if PyStr.truthy sid then [("Mcp-Session-Id", sid)] else []
  | None => []
  end.

Definition ok_response (self : MCPServer) (response_body : string)
  : http_response :=
  _send_http_response self "200 OK" "application/json" response_body
    (Some (session_header self)).

Definition no_content (self : MCPServer) : http_response :=
  _send_http_response self "204 No Content" "application/json" "" None.

Definition is_array (v : json) : bool :=
  match v with
  | JArr _ => true
  | _ => false
  end.

(** ** The session slot and the replies *)

Definition session_of (w : World) : option string := _session_id (srv w).

Definition has_initialize (j : json) : bool :=
  match j with
  | JArr reqs => existsb is_initialize reqs
  | _ => is_initialize j
  end.

(** The body of a POST: the text after the first blank line, if any. *)
Definition body_text (request : string) : option string :=
  if (PyStr.find PyStr.CRLFCRLF request =? -1)%Z then None
  else Some (PyStr.drop (Z.to_nat (PyStr.find PyStr.CRLFCRLF request + 4))
               request).

(** A reply written without the [extra_headers] argument. *)
Definition plain_reply (self : MCPServer) (r : http_response) : Prop :=
  exists status content_type body,
    r = _send_http_response self status content_type body None.

(** The 200 reply of the POST branch, the only one written with it. *)
Definition post_reply (self : MCPServer) (r : http_response) : Prop :=
  exists response_body, r = ok_response self response_body.

(** The worlds the server can be in: a new server, registrations, handled
    requests. *)
Inductive reachable : World -> Prop :=
| reach_init name version protocol :
    reachable {| srv := MCPServer_init name version protocol;
                 ticks_read := 0 |}
| reach_tool w name description input_schema handler :
    reachable w ->
    reachable {| srv := register_tool (srv w) name description input_schema
                          handler;
                 ticks_read := ticks_read w |}
| reach_resource w uri name description mime_type handler :
    reachable w ->
    reachable {| srv := resource (srv w) uri name description mime_type
                          handler;
                 ticks_read := ticks_read w |}
| reach_request w raw :
    reachable w -> reachable (fst (_handle_request rt w raw)).

(** A token in the session slot is never the empty string. *)
Definition session_ok (w : World) : Prop :=
  forall tok, session_of w = Some tok -> PyStr.truthy tok = true.

End Notions.

(** ** A server to run the examples on *)

Module Demo.

Definition rt : Runtime :=
  Ref.runtime [Byte.xe6; Byte.x61; Byte.x0f] (fun k => (1000 + N.of_nat k)%N).

(** A runtime whose timer does not advance between two readings. *)
Definition rt_same_tick : Runtime :=
  Ref.runtime [Byte.xe6; Byte.x61; Byte.x0f] (fun _ => 1000%N).

(** A runtime whose dictionaries iterate in the order of their slots. *)
Definition rt_slots : Runtime :=
  {| json_loads := json_loads rt;
     json_dumps := json_dumps rt;
     bytes_decode := bytes_decode rt;
     py_repr := py_repr rt;
     unique_id := unique_id rt;
     ticks_ms := ticks_ms rt;
     dict_order := SlotDict.order |}.

(** The tool [def echo(x): return {"value": x}]. *)
Definition echo (arguments : json) : Result json :=
  match arguments with
  | JObj [("x", x)] => Ret (JObj [("value", x)])
  | JObj _ => Raise (Raised "unexpected or missing keyword arguments")
  | _ => Raise (Raised "argument after ** must be a mapping")
  end.

Definition server : MCPServer :=
  register_tool (MCPServer_init "mcp-server" "1.0.0" "2025-03-26")
    "echo" "Echo a value" (JObj [("type", JStr "object")]) echo.

Definition w0 : World := {| srv := server; ticks_read := 0 |}.

Definition q (s : string) : string := PyStr.DQ ++ s ++ PyStr.DQ.

(** The bytes of a request with the given start line, header lines and
    body. *)
Definition http (start_line : string) (header_lines : list string)
    (body : string) : list Byte.byte :=
  Ref.bytes (start_line ++ PyStr.CRLF
             ++ String.concat "" (map (fun h => h ++ PyStr.CRLF) header_lines)
             ++ PyStr.CRLF ++ body).

End Demo.

(** The claim as the specification words it: a POST to /mcp whose body text
    is empty gets no reply. *)
Definition empty_post_dropped (rt : Runtime) : Prop :=
  forall w raw request headers,
    frame rt raw = Some (request, "POST", "/mcp", headers) ->
    body_text request = Some "" ->
    _handle_request rt w raw = (w, []).

(** The claim as the specification words it: every tools/call request is
    answered with a result that wraps one text item. *)
Definition tools_call_always_result (rt : Runtime) : Prop :=
  forall d w,
    req_field d "method" JNull = JStr "tools/call" ->
    exists text,
      fst (_handle_jsonrpc rt (JObj d) w)
      = Ret (rpc_result (req_field d "id" JNull) (text_content text)).

(** The claim as the specification words it: two [initialize] calls in a
    row leave two different tokens. *)
Definition consecutive_tokens_differ (rt : Runtime) : Prop :=
  forall d1 d2 w,
    req_field d1 "method" JNull = JStr "initialize" ->
    req_field d2 "method" JNull = JStr "initialize" ->
    let w1 := snd (_handle_jsonrpc rt (JObj d1) w) in
    let w2 := snd (_handle_jsonrpc rt (JObj d2) w1) in
    exists t1 t2,
      session_of w1 = Some t1 /\ session_of w2 = Some t2 /\ t1 <> t2.

(** The claim as the specification words it: the tools are listed in the
    order of their registration. *)
Definition tools_listed_in_registration_order (rt : Runtime) : Prop :=
  forall name version protocol regs d ticks,
    req_field d "method" JNull = JStr "tools/list" ->
    fst (_handle_jsonrpc rt (JObj d)
           {| srv := register_all (MCPServer_init name version protocol) regs;
              ticks_read := ticks |})
    = Ret (rpc_result (req_field d "id" JNull)
             (JObj [("tools", JArr (spec_tools_list regs))])).

Module ToolsListDemo.

Definition first : registration :=
  {| reg_name := "led"; reg_description := "Switch the LED";
     reg_input_schema := JObj []; reg_handler := fun _ => Ret JNull |}.

Definition second : registration :=
  {| reg_name := "echo"; reg_description := "Echo a value";
     reg_input_schema := JObj []; reg_handler := Demo.echo |}.

Definition again : registration :=
  {| reg_name := "led"; reg_description := "Toggle the LED";
     reg_input_schema := JObj [("type", JStr "object")];
     reg_handler := fun _ => Ret (JBool true) |}.

(** Two tools under the names [examples/main.py] gives them. *)
Definition read_gpio : registration :=
  {| reg_name := "read_gpio";
     reg_description := "Read the digital state of a GPIO pin";
     reg_input_schema := JObj [("type", JStr "object")];
     reg_handler := fun _ => Ret JNull |}.

Definition write_gpio : registration :=
  {| reg_name := "write_gpio";
     reg_description := "Set a GPIO pin to HIGH or LOW";
     reg_input_schema := JObj [("type", JStr "object")];
     reg_handler := fun _ => Ret JNull |}.

End ToolsListDemo.

(** The URI a resources/read request gives. *)
Definition given_uri (d : Dict.t json) : json :=
  match req_field d "params" (JObj []) with
  | JObj params => req_field params "uri" JNull
  | _ => JNull
  end.

(** The claim as the specification words it: when the given URI names no
    registered resource, the error has the code -32602. *)
Definition unregistered_uri_is_invalid_params (rt : Runtime) : Prop :=
  forall d w,
    req_field d "method" JNull = JStr "resources/read" ->
    (forall entry,
       registry_item (given_uri d) (_resources (srv w)) <> Ret entry) ->
    exists message,
      fst (_handle_jsonrpc rt (JObj d) w)
      = Ret (rpc_error (req_field d "id" JNull) (-32602) message).

Module ResourceDemo.

Definition server : MCPServer :=
  resource Demo.server "device://status" "status" "Device status"
    "application/json" (fun _ => Ret (JStr "up")).

Definition w : World := {| srv := server; ticks_read := 0 |}.

Definition read (uri : string) : Dict.t json :=
  [("jsonrpc", JStr "2.0"); ("id", JNum 5);
   ("method", JStr "resources/read"); ("params", JObj [("uri", JStr uri)])].

End ResourceDemo.

Module HeaderDemo.

Definition initialize : list Byte.byte :=
  Demo.http "POST /mcp HTTP/1.1" ["Content-Type: application/json"]
    ("{" ++ Demo.q "jsonrpc" ++ ":" ++ Demo.q "2.0" ++ ","
     ++ Demo.q "id" ++ ":1," ++ Demo.q "method" ++ ":"
     ++ Demo.q "initialize" ++ "}").

(** The world after one [initialize] request. *)
Definition w1 : World := fst (_handle_request Demo.rt Demo.w0 initialize).

End HeaderDemo.

(** ** Responses of the dispatcher *)

(** The error object of a JSON-RPC error response. *)
Definition error_object (code : Z) (message : json) : json :=
  JObj [("code", JNum code); ("message", message)].

(** The two shapes of a response to the request with the given id: a
    result, or an error with one of the three codes the dispatcher uses. *)
Inductive envelope (req_id : json) : json -> Prop :=
| envelope_result payload :
    envelope req_id
      (JObj [("jsonrpc", JStr "2.0"); ("id", req_id); ("result", payload)])
| envelope_error code message :
    In code [(-32601)%Z; (-32602)%Z; (-32603)%Z] ->
    envelope req_id
      (JObj [("jsonrpc", JStr "2.0"); ("id", req_id);
             ("error", error_object code (JStr message))]).

(** The method names the dispatcher knows. *)
Definition known_methods : list string :=
  ["initialize"; "initialized"; "tools/list"; "tools/call";
   "resources/list"; "resources/read"; "ping"].

Definition is_known_method (method : json) : bool :=
  existsb (eq_str method) known_methods.

(** ** What a request may change *)

(** Two worlds with the same configuration: name, version, protocol
    version and both registries; the timer has been read no fewer times in
    the second. *)
Definition same_config (w w' : World) : Prop :=
  server_name (srv w') = server_name (srv w)
  /\ server_version (srv w') = server_version (srv w)
  /\ protocol_version (srv w') = protocol_version (srv w)
  /\ _tools (srv w') = _tools (srv w)
  /\ _resources (srv w') = _resources (srv w)
  /\ ticks_read w <= ticks_read w'.

(** What a tools/call makes of the outcome of the handler call. *)
Definition reported (outcome : Result json) : json :=
  match outcome with
  | Ret result => result
  | Raise e => JObj [("error", JStr ("Tool execution failed: " ++ str_exn e))]
  end.

(** ** Resource registrations *)

(** The arguments of one use of the decorator [resource]. *)
Record resource_registration : Type := {
  rreg_uri : string;
  rreg_name : string;
  rreg_description : string;
  rreg_mime_type : string;
  rreg_handler : unit -> Result json
}.

Definition add_resource (self : MCPServer) (r : resource_registration)
  : MCPServer :=
  resource self (rreg_uri r) (rreg_name r) (rreg_description r)
    (rreg_mime_type r) (rreg_handler r).

Definition add_resources (self : MCPServer)
    (regs : list resource_registration) : MCPServer :=
  fold_left add_resource regs self.

Definition rreg_entry (r : resource_registration) : ResourceEntry :=
  {| res_schema :=
       make_resource_schema (rreg_uri r) (rreg_name r) (rreg_description r)
         (rreg_mime_type r);
     res_handler := rreg_handler r |}.

Fixpoint last_resource (uri : string) (regs : list resource_registration)
  : option resource_registration :=
  match regs with
  | [] => None
  | r :: rest =>
      match last_resource uri rest with
      | Some r' => Some r'
      | None => if String.eqb uri (rreg_uri r) then Some r else None
      end
  end.

(** The URIs in the order of their first registration, each with the data
    of its last one. *)
Definition listed_resources_in (order : list string)
    (regs : list resource_registration) : list resource_registration :=
  flat_map
    (fun u => match last_resource u regs with
              | Some r => [r]
              | None => []
              end)
    order.

Definition listed_resources (regs : list resource_registration)
  : list resource_registration :=
  flat_map
    (fun u => match last_resource u regs with
              | Some r => [r]
              | None => []
              end)
    (first_occurrences (map rreg_uri regs)).

(** ** Replies *)

(** The header block of a reply with the given content type and body,
    written by a server in the given state. *)
Definition standard_headers (self : MCPServer) (content_type body : string)
  : list (string * string) :=
  [("Content-Type", content_type);
   ("Access-Control-Allow-Origin", "*");
   ("Access-Control-Allow-Methods", "POST, GET, OPTIONS, DELETE");
   ("Access-Control-Allow-Headers", "Content-Type, Mcp-Session-Id")]
  ++ session_header self
  ++ [("Content-Length", PyStr.str_nat (String.length body))].

(** The method and path pairs that have a branch of their own in
    [_handle_request]. *)
Definition is_routed (method path : string) : bool :=
  String.eqb method "OPTIONS"
  || (String.eqb method "DELETE" && String.eqb path "/mcp")
  || (String.eqb method "POST" && String.eqb path "/mcp")
  || (String.eqb method "GET" && String.eqb path "/mcp")
  || (String.eqb method "GET" && String.eqb path "/").

(** A request whose method is [initialized]. *)
Definition is_notification (req : json) : bool :=
  match req with
  | JObj d => eq_str (req_field d "method" JNull) "initialized"
  | _ => false
  end.

(** The body of the 501 reply. *)
Definition not_implemented_body (rt : Runtime) : string :=
  json_dumps rt
    (JObj [("error", JStr "GET/SSE streaming not implemented on Pico")]).

(** A POST to /mcp with the given body text. *)
Definition posted (rt : Runtime) (raw : list Byte.byte) (body : string)
  : Prop :=
  exists request hs,
    frame rt raw = Some (request, "POST", "/mcp", hs)
    /\ body_text request = Some body.

(** ** Registries as the registration functions build them *)

(** A schema whose description is a string. *)
Definition described (schema : json) : Prop :=
  exists description, py_item schema "description" = Ret (JStr description).

Definition registry_described (self : MCPServer) : Prop :=
  Forall (fun kv => described (tool_schema (snd kv))) (_tools self)
  /\ Forall (fun kv => described (res_schema (snd kv))) (_resources self).

(** [sub] occurs in [s]. *)
Fixpoint occurs (sub s : string) : bool :=
  String.prefix sub s
  || match s with
     | EmptyString => false
     | String _ s' => occurs sub s'
     end.

(** ** Sockets and received requests *)

(** A socket none of whose segments is empty. *)
Definition live (client : Client) : Prop :=
  Forall (fun segment => segment <> []) client.

(** The number of bytes after the blank line of a buffer that has one. *)
Definition body_length (request : list Byte.byte) : Z :=
  Z.of_nat (List.length request)
  - (PyBytes.find PyBytes.CRLFCRLF request + 4).

Module FramerDemo.

(** A POST with a body of five bytes. *)
Definition request : string :=
  "POST /mcp HTTP/1.1" ++ PyStr.CRLF ++ "content-LENGTH: 5" ++ PyStr.CRLF
  ++ "Content-Length: 9" ++ PyStr.CRLF ++ PyStr.CRLF ++ "hello".

(** The request cut after 7 and after 50 bytes. *)
Definition in_three : Client :=
  [firstn 7 (Ref.bytes request);
   firstn 43 (skipn 7 (Ref.bytes request));
   skipn 50 (Ref.bytes request)].

(** A peer that closes before the blank line. *)
Definition cut_short : Client :=
  [Ref.bytes "POST /mcp HTTP/1.1"; Ref.bytes PyStr.CRLF;
   Ref.bytes "Content-Le"].

(** The first bytes of a request and a socket with more than the body. *)
Definition head : list Byte.byte :=
  Ref.bytes ("POST /mcp HTTP/1.1" ++ PyStr.CRLF ++ "Content-Length: 5"
             ++ PyStr.CRLF ++ PyStr.CRLF ++ "he").

Definition tail : Client := [Ref.bytes "l"; Ref.bytes "loGET / HTTP/1.1"].

End FramerDemo.

Module ResourcesListDemo.

Definition status : resource_registration :=
  {| rreg_uri := "device://status"; rreg_name := "Status";
     rreg_description := "Device status"; rreg_mime_type := "text/plain";
     rreg_handler := fun _ => Ret (JStr "up") |}.

Definition log : resource_registration :=
  {| rreg_uri := "device://log"; rreg_name := "Log";
     rreg_description := "Recent events"; rreg_mime_type := "text/plain";
     rreg_handler := fun _ => Raise (Raised "no log") |}.

Definition status_json : resource_registration :=
  {| rreg_uri := "device://status"; rreg_name := "Status";
     rreg_description := "Device status as JSON";
     rreg_mime_type := "application/json";
     rreg_handler := fun _ => Ret (JStr "{}") |}.

End ResourcesListDemo.

(** * Properties *)

(** ** Facts about strings *)

Lemma append_cancel_l (a x y : string) : a ++ x = a ++ y -> x = y.
Proof.
  induction a as [|c a IH]; simpl; intro H.
  - exact H.
  - injection H as H. auto.
Qed.

Lemma str_N_inj (m n : N) : PyStr.str_N m = PyStr.str_N n -> m = n.
Proof.
  unfold PyStr.str_N. intro H.
  assert (E : Some (N.to_uint m) = Some (N.to_uint n)).
  { rewrite <- (NilEmpty.usu (N.to_uint m)), <- (NilEmpty.usu (N.to_uint n)).
    now rewrite H. }
  injection E as E.
  rewrite <- (DecimalN.Unsigned.of_to m), <- (DecimalN.Unsigned.of_to n).
  now rewrite E.
Qed.

Lemma truthy_append_r (a b : string) :
  PyStr.truthy b = true -> PyStr.truthy (a ++ b) = true.
Proof. destruct a; simpl; auto. Qed.

Lemma truthy_eqb_refl (a : option string) : session_eqb a a = true.
Proof. destruct a; simpl; auto using String.eqb_refl. Qed.

Lemma session_eqb_eq (a b : option string) : session_eqb a b = true <-> a = b.
Proof.
  destruct a, b; simpl; split; intro H; try discriminate; auto.
  - apply String.eqb_eq in H. now subst.
  - injection H as ->. apply String.eqb_refl.
Qed.

Lemma flat_map_agree {A B : Type} (f g : A -> list B) (l : list A) :
  (forall a, In a l -> f a = g a) -> flat_map f l = flat_map g l.
Proof.
  induction l as [|a l IH]; simpl; intro H; auto.
  rewrite (H a) by auto. f_equal. apply IH. auto.
Qed.

(** ** Facts about dictionaries *)

Section DictFacts.

Context {V : Type}.
Implicit Types (d : Dict.t V) (k : string) (v : V).

Lemma get_set_same d k v : Dict.get k (Dict.set k v d) = Some v.
Proof.
  induction d as [|[k' v'] d IH]; simpl.
  - now rewrite String.eqb_refl.
  - destruct (String.eqb k k') eqn:E; simpl; rewrite E; auto.
Qed.

Lemma get_set_other d k k' v :
  k <> k' -> Dict.get k' (Dict.set k v d) = Dict.get k' d.
Proof.
  intro N. induction d as [|[k0 v0] d IH]; simpl.
  - destruct (String.eqb k' k) eqn:E; auto.
    apply String.eqb_eq in E. congruence.
  - destruct (String.eqb k k0) eqn:E; simpl.
    + apply String.eqb_eq in E. subst k0.
      destruct (String.eqb k' k) eqn:E'; auto.
      apply String.eqb_eq in E'. congruence.
    + now rewrite IH.
Qed.

Lemma mem_In_keys d k : Dict.mem k d = true <-> In k (Dict.keys d).
Proof.
  unfold Dict.mem. induction d as [|[k' v'] d IH]; simpl.
  - split; [discriminate | tauto].
  - destruct (String.eqb k k') eqn:E.
    + apply String.eqb_eq in E. subst. tauto.
    + apply String.eqb_neq in E. split.
      * intro H. right. now apply IH.
      * intros [H | H]; [congruence | now apply IH].
Qed.

Lemma keys_set d k v :
  Dict.keys (Dict.set k v d)
  = if Dict.mem k d then Dict.keys d else (Dict.keys d ++ [k])%list.
Proof.
  unfold Dict.mem. induction d as [|[k' v'] d IH]; simpl; auto.
  destruct (String.eqb k k') eqn:E; simpl; auto.
  rewrite IH. destruct (Dict.get k d); auto.
Qed.

Lemma dict_values_by_keys rt d :
  dict_values rt d
  = flat_map (fun k => match Dict.get k d with Some v => [v] | None => [] end)
             (dict_order rt (Dict.keys d)).
Proof.
  unfold dict_values, dict_items.
  induction (dict_order rt (Dict.keys d)) as [|k l IH]; simpl; auto.
  rewrite map_app, IH. now destruct (Dict.get k d).
Qed.

Lemma get_In d k v : Dict.get k d = Some v -> In (k, v) d.
Proof.
  induction d as [|[k' v'] d IH]; simpl; [discriminate|].
  destruct (String.eqb k k') eqn:E.
  - apply String.eqb_eq in E. intro H. injection H as ->. subst. auto.
  - auto.
Qed.

Lemma dict_items_In rt d kv : In kv (dict_items rt d) -> In kv d.
Proof.
  unfold dict_items. rewrite in_flat_map. intros (k & _ & H).
  destruct (Dict.get k d) as [v|] eqn:G; simpl in H; [|tauto].
  destruct H as [<- | []]. now apply get_In.
Qed.

End DictFacts.

(** ** The tool registry *)

Lemma first_occurrences_In names n :
  In n (first_occurrences names) <-> In n names.
Proof.
  induction names as [|a names IH]; simpl; [tauto|].
  rewrite filter_In, IH.
  destruct (String.eqb a n) eqn:E.
  - apply String.eqb_eq in E. subst. simpl. intuition.
  - apply String.eqb_neq in E. simpl. intuition.
Qed.

Lemma first_occurrences_NoDup names : NoDup (first_occurrences names).
Proof.
  induction names as [|a names IH]; simpl; constructor.
  - rewrite filter_In, String.eqb_refl. simpl. intros [_ H]. discriminate.
  - now apply NoDup_filter.
Qed.

Lemma first_occurrences_snoc names n :
  first_occurrences (names ++ [n])
  = if existsb (String.eqb n) names then first_occurrences names
    else (first_occurrences names ++ [n])%list.
Proof.
  induction names as [|a names IH]; simpl; auto.
  rewrite IH. destruct (String.eqb n a) eqn:E; simpl.
  - apply String.eqb_eq in E. subst a.
    destruct (existsb (String.eqb n) names); auto.
    rewrite filter_app. simpl. rewrite String.eqb_refl. simpl.
    now rewrite app_nil_r.
  - destruct (existsb (String.eqb n) names); auto.
    rewrite filter_app. simpl.
    rewrite String.eqb_sym, E. reflexivity.
Qed.

Lemma last_registration_snoc name regs r :
  last_registration name (regs ++ [r])
  = if String.eqb name (reg_name r) then Some r
    else last_registration name regs.
Proof.
  induction regs as [|a regs IH]; simpl.
  - reflexivity.
  - rewrite IH. destruct (String.eqb name (reg_name r)); auto.
Qed.

Lemma register_all_snoc self regs r :
  register_all self (regs ++ [r]) = register (register_all self regs) r.
Proof. unfold register_all. now rewrite fold_left_app. Qed.

Lemma register_all_fields self regs :
  server_name (register_all self regs) = server_name self
  /\ server_version (register_all self regs) = server_version self
  /\ protocol_version (register_all self regs) = protocol_version self
  /\ _resources (register_all self regs) = _resources self
  /\ _session_id (register_all self regs) = _session_id self.
Proof.
  revert self. induction regs as [|r regs IH]; intro self; simpl; auto.
  destruct (IH (register self r)) as (A & B & C & D & E).
  unfold register_all in *. rewrite A, B, C, D, E. simpl. auto.
Qed.

(** The registry after a sequence of registrations on an empty registry. *)
Lemma registry_after name version protocol regs :
  let d := _tools (register_all (MCPServer_init name version protocol) regs) in
  Dict.keys d = first_occurrences (map reg_name regs)
  /\ forall n, Dict.get n d = option_map reg_entry (last_registration n regs).
Proof.
  induction regs as [|r regs IH] using rev_ind; simpl.
  - split; auto.
  - rewrite register_all_snoc. simpl in IH. destruct IH as [K G].
    unfold register, register_tool. simpl. split.
    + rewrite keys_set, K, map_app.
      change (map reg_name [r]) with [reg_name r].
      rewrite first_occurrences_snoc.
      replace (existsb (String.eqb (reg_name r)) (map reg_name regs))
        with (Dict.mem (reg_name r)
                (_tools (register_all (MCPServer_init name version protocol)
                           regs))); auto.
      apply eq_true_iff_eq. rewrite mem_In_keys, K, first_occurrences_In.
      rewrite existsb_exists. split.
      * intro H. exists (reg_name r). split; auto. apply String.eqb_refl.
      * intros (x & H & E). apply String.eqb_eq in E. now subst.
    + intro n. rewrite last_registration_snoc.
      destruct (String.eqb n (reg_name r)) eqn:E.
      * apply String.eqb_eq in E. subst. now rewrite get_set_same.
      * apply String.eqb_neq in E. rewrite get_set_other by congruence. apply G.
Qed.

Lemma tools_list_after rt name version protocol regs :
  map tool_schema
    (dict_values rt
       (_tools (register_all (MCPServer_init name version protocol) regs)))
  = map (fun r => tool_schema (reg_entry r))
      (listed_in (dict_order rt (first_occurrences (map reg_name regs))) regs).
Proof.
  destruct (registry_after name version protocol regs) as [K G].
  rewrite dict_values_by_keys, K. unfold listed_in.
  generalize (dict_order rt (first_occurrences (map reg_name regs))) as l.
  induction l as [|n l IH]; simpl; auto.
  rewrite !map_app, IH. f_equal.
  rewrite G. destruct (last_registration n regs); reflexivity.
Qed.

Lemma last_registration_sound name regs r :
  last_registration name regs = Some r -> reg_name r = name /\ In r regs.
Proof.
  induction regs as [|a regs IH]; simpl; [discriminate|].
  destruct (last_registration name regs) as [r'|].
  - intro H. injection H as ->. destruct IH; auto.
  - destruct (String.eqb name (reg_name a)) eqn:E; [|discriminate].
    intro H. injection H as ->. apply String.eqb_eq in E. auto.
Qed.

Lemma last_registration_some name regs :
  In name (map reg_name regs) -> exists r, last_registration name regs = Some r.
Proof.
  induction regs as [|a regs IH]; simpl; [tauto|].
  intros [H | H].
  - destruct (last_registration name regs); eauto.
    subst. rewrite String.eqb_refl. eauto.
  - destruct (IH H) as [r ->]. eauto.
Qed.

Lemma listed_in_names order regs :
  (forall n, In n order -> In n (map reg_name regs)) ->
  map reg_name (listed_in order regs) = order.
Proof.
  unfold listed_in.
  induction order as [|n l IH]; intro H; simpl; auto.
  rewrite map_app, IH by (intros; apply H; simpl; auto).
  destruct (last_registration_some n regs) as [r E]; [apply H; simpl; auto|].
  rewrite E. simpl. f_equal. now apply last_registration_sound in E.
Qed.

Lemma listed_in_last order regs r :
  In r (listed_in order regs) -> last_registration (reg_name r) regs = Some r.
Proof.
  unfold listed_in. rewrite in_flat_map. intros (n & _ & H).
  destruct (last_registration n regs) as [r'|] eqn:E; simpl in H; [|tauto].
  destruct H as [-> | []].
  destruct (last_registration_sound _ _ _ E) as [-> _]. exact E.
Qed.

(** ** The dispatcher *)

Ltac munfold :=
  unfold bind, lift, ret, get_self, set_session_id, try_except,
    time_ticks_ms in *.

(** Decide the comparisons of a literal method name. *)
Ltac eval_eq_str :=
  repeat match goal with
         | |- context [eq_str (JStr ?a) ?b] =>
             let v := eval vm_compute in (eq_str (JStr a) b) in
             change (eq_str (JStr a) b) with v
         end;
  cbv iota.

Lemma py_get_object d key default :
  py_get (JObj d) key default = Ret (req_field d key default).
Proof. unfold req_field. simpl. destruct (Dict.get key d); reflexivity. Qed.

Lemma py_get_not_object v key default :
  is_object v = false ->
  py_get v key default = Raise (AttributeError (type_name v) "get").
Proof. destruct v; simpl; intro H; try reflexivity; discriminate. Qed.

Lemma eq_str_true v s : eq_str v s = true <-> v = JStr s.
Proof.
  destruct v; simpl; split; intro H; try discriminate.
  - apply String.eqb_eq in H. now subst.
  - injection H as ->. apply String.eqb_refl.
Qed.

Section Dispatcher.

Variable rt : Runtime.

Lemma handle_jsonrpc_object d w :
  _handle_jsonrpc rt (JObj d) w
  = match dispatch_method rt (req_field d "method" JNull)
            (req_field d "params" (JObj [])) (req_field d "id" JNull) w with
    | (Ret r, w') => (Ret r, w')
    | (Raise e, w') =>
        (Ret (rpc_error (req_field d "id" JNull) (-32603)
                ("Internal error: " ++ str_exn e)), w')
    end.
Proof.
  unfold _handle_jsonrpc, _handle_jsonrpc_try. munfold.
  rewrite !py_get_object. reflexivity.
Qed.

Lemma handle_jsonrpc_not_object request w :
  is_object request = false ->
  _handle_jsonrpc rt request w
  = (Raise (AttributeError (type_name request) "get"), w).
Proof.
  intro H. unfold _handle_jsonrpc, _handle_jsonrpc_try. munfold.
  rewrite !py_get_not_object by assumption. reflexivity.
Qed.

Lemma dispatch_initialize params req_id w :
  dispatch_method rt (JStr "initialize") params req_id w
  = (Ret (rpc_result req_id
            (initialize_result (srv w) (token_at rt (ticks_read w)))),
     initialized_world rt w).
Proof. reflexivity. Qed.

Lemma dispatch_world method params req_id w :
  eq_str method "initialize" = false ->
  snd (dispatch_method rt method params req_id w) = w.
Proof.
  intro H. unfold dispatch_method. rewrite H. munfold.
  repeat match goal with
         | |- context [if ?b then _ else _] => destruct b
         | |- context [match ?x with _ => _ end] => destruct x
         end; reflexivity.
Qed.

(** *** tools/call *)

Lemma execute_tool_hashable self name arguments :
  hashable name = true ->
  exists result,
    _execute_tool rt self name arguments = Ret result
    /\ tool_outcome rt self name arguments result.
Proof.
  intro H. unfold _execute_tool.
  destruct name; try discriminate; simpl;
    try (eexists; split; [reflexivity | now apply outcome_not_found]).
  unfold Dict.mem. destruct (Dict.get s (_tools self)) as [entry|] eqn:G.
  - simpl. destruct (tool_handler entry arguments) as [result|e] eqn:Hh.
    + exists result. split; auto.
      apply outcome_returned with entry; simpl; auto. now rewrite G.
    + eexists. split; [reflexivity|].
      apply outcome_failed with entry; simpl; auto. now rewrite G.
  - eexists. split; [reflexivity|]. apply outcome_not_found. simpl.
    unfold Dict.mem. now rewrite G.
Qed.

Lemma execute_tool_unhashable self name arguments :
  hashable name = false ->
  _execute_tool rt self name arguments
  = Raise (UnhashableType (type_name name)).
Proof. destruct name; simpl; intro H; try discriminate; reflexivity. Qed.

Lemma dispatch_tools_call params req_id w :
  dispatch_method rt (JStr "tools/call") (JObj params) req_id w
  = match _execute_tool rt (srv w) (req_field params "name" JNull)
            (req_field params "arguments" (JObj [])) with
    | Ret result =>
        (Ret (rpc_result req_id (text_content (json_dumps rt result))), w)
    | Raise e => (Raise e, w)
    end.
Proof.
  unfold dispatch_method. eval_eq_str. munfold.
  rewrite !py_get_object.
  destruct (_execute_tool rt (srv w) _ _); reflexivity.
Qed.

Lemma dispatch_tools_call_bad_params params req_id w :
  is_object params = false ->
  dispatch_method rt (JStr "tools/call") params req_id w
  = (Raise (AttributeError (type_name params) "get"), w).
Proof.
  intro H. unfold dispatch_method. eval_eq_str. munfold.
  rewrite py_get_not_object by assumption. reflexivity.
Qed.

(** *** resources/read *)

Lemma dispatch_resources_read params req_id w :
  dispatch_method rt (JStr "resources/read") (JObj params) req_id w
  = let uri := req_field params "uri" JNull in
    match _execute_resource rt (srv w) uri with
    | Raise e => (Raise e, w)
    | Ret result =>
        if py_in "error" result then
          match py_item result "error" with
          | Ret message =>
              (Ret (JObj [("jsonrpc", JStr "2.0"); ("id", req_id);
                          ("error", JObj [("code", JNum (-32602));
                                          ("message", message)])]), w)
          | Raise e => (Raise e, w)
          end
        else
          match py_item result "mimeType" with
          | Ret mime_type =>
              match py_item result "content" with
              | Ret content =>
                  (Ret (rpc_result req_id
                          (resource_contents uri mime_type content)), w)
              | Raise e => (Raise e, w)
              end
          | Raise e => (Raise e, w)
          end
    end.
Proof.
  unfold dispatch_method. eval_eq_str. munfold.
  rewrite !py_get_object. cbv zeta.
  destruct (_execute_resource rt (srv w) _) as [result|e]; auto.
  destruct (py_in "error" result).
  - destruct (py_item result "error"); reflexivity.
  - destruct (py_item result "mimeType"); auto;
      try (destruct (py_item result "content"); reflexivity).
Qed.

Lemma execute_resource_not_found self uri :
  registry_contains uri (_resources self) = Ret false ->
  _execute_resource rt self uri
  = Ret (JObj [("error", JStr ("Resource not found: " ++ py_str rt uri))]).
Proof. intro H. unfold _execute_resource. now rewrite H. Qed.

Lemma registry_item_contains {V : Type} (key : json) (d : Dict.t V) entry :
  registry_item key d = Ret entry -> registry_contains key d = Ret true.
Proof.
  destruct key; simpl; try discriminate.
  unfold Dict.mem. destruct (Dict.get s d); [reflexivity | discriminate].
Qed.

Lemma execute_resource_failed self uri entry e :
  registry_item uri (_resources self) = Ret entry ->
  res_handler entry tt = Raise e ->
  _execute_resource rt self uri
  = Ret (JObj [("error", JStr ("Resource fetch failed: " ++ str_exn e))]).
Proof.
  intros H He. unfold _execute_resource.
  rewrite (registry_item_contains _ _ _ H), H. simpl. now rewrite He.
Qed.

Lemma execute_resource_ok self uri entry content mime_type :
  registry_item uri (_resources self) = Ret entry ->
  res_handler entry tt = Ret content ->
  py_item (res_schema entry) "mimeType" = Ret mime_type ->
  _execute_resource rt self uri
  = Ret (JObj [("content", content); ("mimeType", mime_type)]).
Proof.
  intros H Hc Hm. unfold _execute_resource.
  rewrite (registry_item_contains _ _ _ H), H. simpl. rewrite Hc. simpl.
  now rewrite Hm.
Qed.

Lemma execute_resource_unhashable self uri :
  hashable uri = false ->
  _execute_resource rt self uri = Raise (UnhashableType (type_name uri)).
Proof. destruct uri; simpl; intro H; try discriminate; reflexivity. Qed.

End Dispatcher.

(** ** The connection handler *)

Section Http.

Variable rt : Runtime.

Lemma handle_request_framed raw request method path headers w :
  frame rt raw = Some (request, method, path, headers) ->
  _handle_request rt w raw = answered rt (route rt request method path headers w).
Proof.
  unfold frame, _handle_request, _handle_request_try. munfold.
  destruct (bytes_decode rt raw) as [text|]; try discriminate.
  destruct (PyStr.split PyStr.CRLF text) as [|line0 rest]; try discriminate.
  destruct (PyStr.split_ws line0) as [|m [|p more]]; try discriminate.
  intro H. injection H as -> -> -> ->. reflexivity.
Qed.

Lemma handle_request_undecodable raw e w :
  bytes_decode rt raw = Raise e ->
  _handle_request rt w raw = (w, [internal_error rt (srv w) e]).
Proof.
  intro H. unfold _handle_request, _handle_request_try. munfold.
  now rewrite H.
Qed.

Lemma handle_request_unframed raw request w :
  bytes_decode rt raw = Ret request ->
  frame rt raw = None ->
  _handle_request rt w raw = (w, []).
Proof.
  unfold frame, _handle_request, _handle_request_try. munfold.
  intro H. rewrite H.
  destruct (PyStr.split PyStr.CRLF request) as [|line0 rest]; auto.
  destruct (PyStr.split_ws line0) as [|m [|p more]]; auto. discriminate.
Qed.

(** *** DELETE /mcp *)

Lemma route_delete request headers w :
  route rt request "DELETE" "/mcp" headers w
  = if session_eqb (Dict.get "mcp-session-id" headers) (_session_id (srv w))
    then (Ret [_send_http_response (srv (cleared w)) "200 OK"
                 "application/json" "{}" None], cleared w)
    else (Ret [_send_http_response (srv w) "404 Not Found"
                 "application/json" session_not_found_body None], w).
Proof.
  unfold route. simpl. munfold.
  destruct (session_eqb _ _); reflexivity.
Qed.

(** *** POST /mcp *)

Lemma route_post request headers w :
  route rt request "POST" "/mcp" headers w
  = if (PyStr.find PyStr.CRLFCRLF request =? -1)%Z then (Ret [], w)
    else handle_post rt
           (PyStr.drop (Z.to_nat (PyStr.find PyStr.CRLFCRLF request + 4))
              request) w.
Proof.
  unfold route. simpl.
  destruct (PyStr.find PyStr.CRLFCRLF request =? -1)%Z; reflexivity.
Qed.

Lemma handle_post_unparsed body e w :
  json_loads rt body = Raise e ->
  handle_post rt body w = (Ret [parse_error rt (srv w) e], w).
Proof.
  intro H. unfold handle_post, post_try. munfold. now rewrite H.
Qed.

End Http.

(** *** What a dispatch does to the world *)

Section Effects.

Variable rt : Runtime.

Lemma jsonrpc_world req w :
  snd (_handle_jsonrpc rt req w) = w
  \/ (is_initialize req = true
      /\ snd (_handle_jsonrpc rt req w) = initialized_world rt w).
Proof.
  destruct (is_object req) eqn:O.
  - destruct req; try discriminate. rewrite handle_jsonrpc_object.
    unfold is_initialize. rewrite py_get_object.
    destruct (eq_str (req_field l "method" JNull) "initialize") eqn:E.
    + right. split; auto. apply eq_str_true in E. rewrite E.
      now rewrite dispatch_initialize.
    + left.
      pose proof (dispatch_world rt _ (req_field l "params" (JObj []))
                    (req_field l "id" JNull) w E) as H.
      destruct (dispatch_method rt _ _ _ w) as [[r|e] w']; exact H.
  - left. now rewrite handle_jsonrpc_not_object.
Qed.

Lemma dispatch_response method params req_id w r w' :
  dispatch_method rt method params req_id w = (Ret r, w') -> is_response r.
Proof.
  unfold dispatch_method, is_response, rpc_result, rpc_error. munfold.
  repeat match goal with
         | |- context [if ?b then _ else _] => destruct b
         | |- context [match ?x with _ => _ end] => destruct x
         end;
    intro H; inversion H; subst; eauto.
Qed.

Lemma jsonrpc_response req w r w' :
  _handle_jsonrpc rt req w = (Ret r, w') -> is_response r.
Proof.
  destruct (is_object req) eqn:O.
  - destruct req; try discriminate. rewrite handle_jsonrpc_object.
    destruct (dispatch_method rt _ _ _ w) as [[x|e] w1] eqn:D; intro H;
      inversion H; subst.
    + eapply dispatch_response; eauto.
    + right. unfold rpc_error. eauto.
  - rewrite handle_jsonrpc_not_object by assumption. discriminate.
Qed.

(** *** Batches *)

Lemma batch_loop_dispatch_all reqs acc w :
  batch_loop rt reqs acc w
  = match dispatch_all rt reqs w with
    | (Ret rs, w') => (Ret (acc ++ rs)%list, w')
    | (Raise e, w') => (Raise e, w')
    end.
Proof.
  revert acc w. induction reqs as [|req rest IH]; intros acc w; simpl.
  - unfold ret. now rewrite app_nil_r.
  - unfold bind at 1.
    destruct (_handle_jsonrpc rt req w) as [[r|e] w1] eqn:D; auto.
    rewrite IH. destruct (dispatch_all rt rest w1) as [[rs|e] w2]; auto.
    destruct (jsonrpc_response _ _ _ _ D) as [-> | [l ->]]; simpl; auto.
    now rewrite <- app_assoc.
Qed.

Lemma dispatch_all_objects reqs w :
  forallb is_object reqs = true ->
  exists rs w', dispatch_all rt reqs w = (Ret rs, w').
Proof.
  revert w. induction reqs as [|req rest IH]; intros w H; simpl in *.
  - eauto.
  - apply andb_true_iff in H as [O H].
    destruct req; try discriminate. rewrite handle_jsonrpc_object.
    destruct (dispatch_method rt _ _ _ w) as [[r|e] w1];
      destruct (IH w1 H) as (rs & w2 & ->); eauto.
Qed.

(** *** The replies to a POST *)

Lemma send_ok_eq response_body w :
  send_ok response_body w = (Ret [ok_response (srv w) response_body], w).
Proof.
  unfold send_ok, ok_response, session_header. munfold.
  destruct (_session_id (srv w)) as [sid|];
    [destruct (PyStr.truthy sid)|]; reflexivity.
Qed.

Lemma handle_post_batch body reqs w :
  json_loads rt body = Ret (JArr reqs) ->
  handle_post rt body w
  = match dispatch_all rt reqs w with
    | (Ret rs, w') =>
        (Ret [ok_response (srv w') (json_dumps rt (JArr rs))], w')
    | (Raise e, w') => (Ret [parse_error rt (srv w') e], w')
    end.
Proof.
  intro H. unfold handle_post, post_try, try_except, bind at 1, lift.
  rewrite H. unfold bind at 1. rewrite batch_loop_dispatch_all.
  destruct (dispatch_all rt reqs w) as [[rs|e] w']; cbv beta iota.
  - unfold app. now rewrite send_ok_eq.
  - reflexivity.
Qed.

Lemma handle_post_single body j w :
  json_loads rt body = Ret j ->
  is_array j = false ->
  handle_post rt body w
  = match _handle_jsonrpc rt j w with
    | (Ret JNull, w') => (Ret [no_content (srv w')], w')
    | (Ret r, w') => (Ret [ok_response (srv w') (json_dumps rt r)], w')
    | (Raise e, w') => (Ret [parse_error rt (srv w') e], w')
    end.
Proof.
  intros H A. unfold handle_post, post_try, try_except, bind at 1, lift.
  rewrite H.
  destruct j; try discriminate; unfold bind at 1;
    match goal with
    | |- context [_handle_jsonrpc rt ?q w] =>
        destruct (_handle_jsonrpc rt q w) as [[r|e] w'] eqn:D
    end; auto;
    destruct r; rewrite ?send_ok_eq; reflexivity.
Qed.

End Effects.

(** *** The session slot *)

Section Session.

Variable rt : Runtime.

Lemma jsonrpc_session req w :
  session_of (snd (_handle_jsonrpc rt req w)) = session_of w
  \/ (is_initialize req = true
      /\ session_of (snd (_handle_jsonrpc rt req w))
         = Some (token_at rt (ticks_read w))).
Proof.
  destruct (jsonrpc_world rt req w) as [E | [I E]]; rewrite E; auto.
Qed.

Lemma dispatch_all_session reqs w :
  session_of (snd (dispatch_all rt reqs w)) = session_of w
  \/ (existsb is_initialize reqs = true
      /\ exists k, session_of (snd (dispatch_all rt reqs w))
                   = Some (token_at rt k)).
Proof.
  revert w. induction reqs as [|req rest IH]; intro w; simpl; auto.
  pose proof (jsonrpc_session req w) as J.
  destruct (_handle_jsonrpc rt req w) as [[r|e] w1]; simpl in J.
  - specialize (IH w1).
    destruct (dispatch_all rt rest w1) as [[rs|e] w2]; simpl in *;
      destruct IH as [E | (X & k & E)]; rewrite E;
      destruct J as [J | [I J]]; rewrite ?J, ?I, ?X, ?orb_true_r; eauto.
  - destruct J as [J | [I J]]; rewrite ?J, ?I; eauto.
Qed.

Lemma handle_post_total body w :
  exists sent w', handle_post rt body w = (Ret sent, w').
Proof.
  unfold handle_post, try_except.
  destruct (post_try rt body w) as [[sent|e] w']; eauto.
  munfold. eauto.
Qed.

Lemma handle_post_session body w :
  session_of (snd (handle_post rt body w)) = session_of w
  \/ exists j k,
       json_loads rt body = Ret j /\ has_initialize j = true
       /\ session_of (snd (handle_post rt body w)) = Some (token_at rt k).
Proof.
  destruct (json_loads rt body) as [j|e] eqn:L.
  - destruct (is_array j) eqn:A.
    + destruct j; try discriminate.
      rewrite (handle_post_batch rt body l w L).
      pose proof (dispatch_all_session l w) as D.
      destruct (dispatch_all rt l w) as [[rs|e] w']; simpl in *;
        destruct D as [D | (X & k & D)]; auto;
        right; exists (JArr l), k; auto.
    + rewrite (handle_post_single rt body j w L A).
      pose proof (jsonrpc_session j w) as J.
      assert (H : has_initialize j = is_initialize j)
        by (destruct j; try reflexivity; discriminate).
      destruct (_handle_jsonrpc rt j w) as [[r|e] w']; simpl in J;
        [destruct r|]; simpl;
        (destruct J as [J | [I J]]; [now left|]);
        right; exists j, (ticks_read w); rewrite H; auto.
  - rewrite (handle_post_unparsed rt body e w L). now left.
Qed.

Lemma route_session request method path headers w :
  let w' := snd (route rt request method path headers w) in
  session_of w' = session_of w
  \/ (method = "DELETE" /\ path = "/mcp"
      /\ Dict.get "mcp-session-id" headers = session_of w
      /\ session_of w' = None)
  \/ (method = "POST" /\ path = "/mcp"
      /\ exists body j k,
           body_text request = Some body /\ json_loads rt body = Ret j
           /\ has_initialize j = true
           /\ session_of w' = Some (token_at rt k)).
Proof.
  cbv zeta.
  destruct (String.eqb method "OPTIONS") eqn:E1;
    [unfold route; rewrite E1; now left|].
  destruct (String.eqb method "DELETE" && String.eqb path "/mcp") eqn:E2.
  { apply andb_true_iff in E2 as [M P].
    apply String.eqb_eq in M, P. subst. rewrite route_delete.
    destruct (session_eqb _ _) eqn:S; [|now left].
    apply session_eqb_eq in S. right. left. auto. }
  destruct (String.eqb method "POST" && String.eqb path "/mcp") eqn:E3.
  { apply andb_true_iff in E3 as [M P].
    apply String.eqb_eq in M, P. subst. rewrite route_post.
    unfold body_text.
    destruct (PyStr.find PyStr.CRLFCRLF request =? -1)%Z; [now left|].
    destruct (handle_post_session
                (PyStr.drop (Z.to_nat (PyStr.find PyStr.CRLFCRLF request + 4))
                   request) w) as [E | (j & k & L & I & E)]; [now left|].
    right. right. repeat split; auto. eauto 8. }
  unfold route. rewrite E1, E2, E3.
  destruct (String.eqb method "GET" && String.eqb path "/mcp");
    [now left|].
  destruct (String.eqb method "GET" && String.eqb path "/"); [|now left].
  munfold. destruct (status_page rt (srv w)); now left.
Qed.

End Session.

(** *** The session header of a reply *)

Section Replies.

Variable rt : Runtime.

Lemma plain_reply_session_header self r tok :
  plain_reply self r ->
  _session_id self = Some tok -> PyStr.truthy tok = true ->
  In ("Mcp-Session-Id", tok) (headers r).
Proof.
  intros (st & ct & b & ->) S T. unfold _send_http_response. simpl.
  rewrite S, T. simpl. auto 10.
Qed.

Lemma post_reply_session_header self r tok :
  post_reply self r ->
  _session_id self = Some tok -> PyStr.truthy tok = true ->
  In ("Mcp-Session-Id", tok) (headers r).
Proof.
  intros (b & ->) S T.
  unfold ok_response, session_header, _send_http_response. simpl.
  rewrite S, T. simpl. auto 10.
Qed.

Lemma plain_intro self status content_type body :
  plain_reply self (_send_http_response self status content_type body None).
Proof. unfold plain_reply. eauto. Qed.

Ltac one_reply := apply Forall_cons; [|apply Forall_nil].

Lemma handle_post_replies body w :
  Forall (fun r => plain_reply (srv (snd (handle_post rt body w))) r
                   \/ post_reply (srv (snd (handle_post rt body w))) r)
         (match fst (handle_post rt body w) with
          | Ret sent => sent
          | Raise _ => []
          end).
Proof.
  destruct (json_loads rt body) as [j|e] eqn:L.
  - destruct (is_array j) eqn:A.
    + destruct j; try discriminate.
      rewrite (handle_post_batch rt body l w L).
      destruct (dispatch_all rt l w) as [[rs|e] w']; simpl;
        one_reply.
      * right. unfold post_reply. eauto.
      * left. apply plain_intro.
    + rewrite (handle_post_single rt body j w L A).
      destruct (_handle_jsonrpc rt j w) as [[r|e] w']; [destruct r|]; simpl;
        one_reply;
        try (right; unfold post_reply; now eauto);
        left; apply plain_intro.
  - rewrite (handle_post_unparsed rt body e w L). simpl.
    one_reply. left. apply plain_intro.
Qed.

Lemma route_replies request method path headers w :
  Forall (fun r =>
            plain_reply (srv (snd (route rt request method path headers w))) r
            \/ (method = "POST" /\ path = "/mcp"
                /\ post_reply
                     (srv (snd (route rt request method path headers w))) r))
         (match fst (route rt request method path headers w) with
          | Ret sent => sent
          | Raise _ => []
          end).
Proof.
  destruct (String.eqb method "OPTIONS") eqn:E1.
  { unfold route. rewrite E1. simpl. one_reply.
    left. apply plain_intro. }
  destruct (String.eqb method "DELETE" && String.eqb path "/mcp") eqn:E2.
  { apply andb_true_iff in E2 as [M P].
    apply String.eqb_eq in M, P. subst. rewrite route_delete.
    destruct (session_eqb _ _); simpl; one_reply;
      left; apply plain_intro. }
  destruct (String.eqb method "POST" && String.eqb path "/mcp") eqn:E3.
  { apply andb_true_iff in E3 as [M P].
    apply String.eqb_eq in M, P. subst. rewrite route_post.
    destruct (PyStr.find PyStr.CRLFCRLF request =? -1)%Z; simpl; auto.
    eapply Forall_impl; [|apply handle_post_replies].
    simpl. intros r [H | H]; auto. }
  unfold route. rewrite E1, E2, E3.
  destruct (String.eqb method "GET" && String.eqb path "/mcp").
  { simpl. one_reply. left. apply plain_intro. }
  destruct (String.eqb method "GET" && String.eqb path "/").
  { munfold. destruct (status_page rt (srv w)); simpl;
      [one_reply; left; apply plain_intro | apply Forall_nil]. }
  simpl. one_reply. left. apply plain_intro.
Qed.

(** Every reply of [_handle_request] is written in the world it leaves,
    and only the 200 reply to a POST /mcp is written with extra headers. *)
Lemma handle_request_replies w raw :
  Forall (fun r =>
            plain_reply (srv (fst (_handle_request rt w raw))) r
            \/ ((exists request hs,
                   frame rt raw = Some (request, "POST", "/mcp", hs))
                /\ post_reply (srv (fst (_handle_request rt w raw))) r))
         (snd (_handle_request rt w raw)).
Proof.
  destruct (frame rt raw) as [[[[request method] path] hs]|] eqn:F.
  - rewrite (handle_request_framed rt raw _ _ _ _ w F).
    pose proof (route_replies request method path hs w) as R.
    destruct (route rt request method path hs w) as [[sent|e] w']; simpl in *.
    + eapply Forall_impl; [|exact R]. simpl.
      intros r [H | (-> & -> & H)]; eauto.
    + one_reply. left. apply plain_intro.
  - destruct (bytes_decode rt raw) as [request|e] eqn:D.
    + rewrite (handle_request_unframed rt raw request w D F). apply Forall_nil.
    + rewrite (handle_request_undecodable rt raw e w D). simpl.
      one_reply. left. apply plain_intro.
Qed.

Lemma token_truthy k : PyStr.truthy (token_at rt k) = true.
Proof.
  unfold token_at. apply truthy_append_r. reflexivity.
Qed.

Lemma handle_request_session w raw :
  let w' := fst (_handle_request rt w raw) in
  session_of w' = session_of w
  \/ (exists request headers tok,
        frame rt raw = Some (request, "DELETE", "/mcp", headers)
        /\ session_of w = Some tok
        /\ Dict.get "mcp-session-id" headers = Some tok
        /\ session_of w' = None)
  \/ (exists request headers body j k,
        frame rt raw = Some (request, "POST", "/mcp", headers)
        /\ body_text request = Some body
        /\ json_loads rt body = Ret j
        /\ has_initialize j = true
        /\ session_of w' = Some (token_at rt k)).
Proof.
  cbv zeta.
  destruct (frame rt raw) as [[[[request method] path] hs]|] eqn:F.
  - rewrite (handle_request_framed rt raw _ _ _ _ w F).
    pose proof (route_session rt request method path hs w) as R.
    cbv zeta in R.
    destruct (route rt request method path hs w) as [[sent|e] w'];
      simpl in *;
      (destruct R as [R | [(M & P & G & R) | (M & P & b & j & k & B & L & I & R)]];
       [now left | | right; right; subst; eauto 12]);
      subst; destruct (session_of w) as [tok|] eqn:S;
        try (left; congruence); right; left; eauto 10.
  - destruct (bytes_decode rt raw) as [request|e] eqn:D.
    + rewrite (handle_request_unframed rt raw request w D F). now left.
    + rewrite (handle_request_undecodable rt raw e w D). now left.
Qed.

Lemma reachable_session_ok w : reachable rt w -> session_ok w.
Proof.
  induction 1 as [n v p | w n d s h R IH | w u n d m h R IH | w raw R IH];
    unfold session_ok, session_of in *; simpl; auto.
  - discriminate.
  - intros tok T.
    destruct (handle_request_session w raw)
      as [E | [(rq & hs & t & _ & _ & _ & E) | (rq & hs & b & j & k & _ & _ & _ & _ & E)]];
      unfold session_of in E; rewrite E in T.
    + auto.
    + discriminate.
    + injection T as <-. apply token_truthy.
Qed.

End Replies.

(** ** Session termination *)

Section Delete.

Variable rt : Runtime.

Lemma delete_presenting_token w raw request headers h :
  frame rt raw = Some (request, "DELETE", "/mcp", headers) ->
  Dict.get "mcp-session-id" headers = Some h ->
  (session_of w = Some h ->
   _handle_request rt w raw
   = (cleared w,
      [_send_http_response (srv (cleared w)) "200 OK" "application/json"
         "{}" None]))
  /\ (session_of w <> Some h ->
      _handle_request rt w raw
      = (w, [_send_http_response (srv w) "404 Not Found" "application/json"
               session_not_found_body None])).
Proof.
  intros F G. rewrite (handle_request_framed rt raw _ _ _ _ w F).
  rewrite route_delete, G. unfold session_of. split; intro S.
  - rewrite S. simpl. now rewrite String.eqb_refl.
  - destruct (session_eqb (Some h) (_session_id (srv w))) eqn:E; auto.
    apply session_eqb_eq in E. congruence.
Qed.

(** C1 -- the code at the failing input: with no session token stored, a
    DELETE /mcp that carries no Mcp-Session-Id header is compared as
    [None == None]; the comparison succeeds and the reply is 200 OK with
    an empty JSON object, where the claim says 404. *)
Theorem delete_without_header_without_session :
  forall w raw request headers,
    frame rt raw = Some (request, "DELETE", "/mcp", headers) ->
    Dict.get "mcp-session-id" headers = None ->
    session_of w = None ->
    _handle_request rt w raw
    = (cleared w,
       [_send_http_response (srv (cleared w)) "200 OK" "application/json"
          "{}" None]).
Proof.
  intros w raw request headers F G S.
  rewrite (handle_request_framed rt raw _ _ _ _ w F).
  rewrite route_delete, G. unfold session_of in S. rewrite S. reflexivity.
Qed.

End Delete.

Lemma delete_without_header_without_session_witness :
  snd (_handle_request Demo.rt Demo.w0
         (Demo.http "DELETE /mcp HTTP/1.1" ["Host: pico"] ""))
  = [{| status := "200 OK";
        headers :=
          [("Content-Type", "application/json");
           ("Access-Control-Allow-Origin", "*");
           ("Access-Control-Allow-Methods", "POST, GET, OPTIONS, DELETE");
           ("Access-Control-Allow-Headers", "Content-Type, Mcp-Session-Id");
           ("Content-Length", "2")];
        body := "{}" |}].
Proof.
  rewrite (delete_without_header_without_session Demo.rt Demo.w0 _
             ("DELETE /mcp HTTP/1.1" ++ PyStr.CRLF ++ "Host: pico"
              ++ PyStr.CRLF ++ PyStr.CRLF)
             [("host", "pico")]); reflexivity.
Defined.

(** ** POST with nothing to parse *)

Lemma empty_post_is_answered :
  snd (_handle_request Demo.rt Demo.w0 (Demo.http "POST /mcp HTTP/1.1" [] ""))
  = [parse_error Demo.rt Demo.server (Raised "syntax error in JSON")]
  /\ ~ empty_post_dropped Demo.rt.
Proof.
  split; [reflexivity|].
  intro H.
  specialize (H Demo.w0 (Demo.http "POST /mcp HTTP/1.1" [] "")
                ("POST /mcp HTTP/1.1" ++ PyStr.CRLF ++ PyStr.CRLF) []
                eq_refl eq_refl).
  discriminate H.
Qed.

Section Post.

Variable rt : Runtime.

(** C2, amended -- a POST to /mcp whose text has no blank line after the
    headers is dropped: nothing is written and the world is unchanged.  A
    POST whose body is the empty text is handed to the JSON parser, whose
    error is answered with 400 Bad Request and a parse-error body; the
    world is unchanged. *)
Theorem post_without_body :
  forall w raw request headers,
    frame rt raw = Some (request, "POST", "/mcp", headers) ->
    (body_text request = None -> _handle_request rt w raw = (w, []))
    /\ (forall e,
          body_text request = Some "" ->
          json_loads rt "" = Raise e ->
          _handle_request rt w raw = (w, [parse_error rt (srv w) e])
          /\ status (parse_error rt (srv w) e) = "400 Bad Request").
Proof.
  intros w raw request headers F.
  rewrite (handle_request_framed rt raw _ _ _ _ w F), route_post.
  unfold body_text.
  destruct (PyStr.find PyStr.CRLFCRLF request =? -1)%Z.
  - split; [reflexivity | discriminate].
  - split; [discriminate|]. intros e B L. injection B as B.
    rewrite B, (handle_post_unparsed rt "" e w L). split; reflexivity.
Qed.

End Post.

Lemma post_without_body_witness :
  _handle_request Demo.rt Demo.w0
    (Ref.bytes ("POST /mcp HTTP/1.1" ++ PyStr.CRLF ++ "Host: pico"))
  = (Demo.w0, [])
  /\ _handle_request Demo.rt Demo.w0 (Demo.http "POST /mcp HTTP/1.1" [] "")
     = (Demo.w0,
        [parse_error Demo.rt Demo.server (Raised "syntax error in JSON")]).
Proof.
  split.
  - apply (post_without_body Demo.rt Demo.w0 _
             ("POST /mcp HTTP/1.1" ++ PyStr.CRLF ++ "Host: pico")
             [("host", "pico")]);
      reflexivity.
  - apply (post_without_body Demo.rt Demo.w0 _
             ("POST /mcp HTTP/1.1" ++ PyStr.CRLF ++ PyStr.CRLF) []);
      reflexivity.
Defined.

(** ** Tool calls *)

Lemma tools_call_positional_params :
  _handle_jsonrpc Demo.rt
    (JObj [("jsonrpc", JStr "2.0"); ("id", JNum 1);
           ("method", JStr "tools/call"); ("params", JArr [])]) Demo.w0
  = (Ret (rpc_error (JNum 1) (-32603)
            "Internal error: 'list' object has no attribute 'get'"), Demo.w0)
  /\ _handle_jsonrpc Demo.rt
       (JObj [("jsonrpc", JStr "2.0"); ("id", JNum 1);
              ("method", JStr "tools/call");
              ("params", JObj [("name", JArr [JStr "echo"])])]) Demo.w0
     = (Ret (rpc_error (JNum 1) (-32603)
               "Internal error: unhashable type: 'list'"), Demo.w0)
  /\ ~ tools_call_always_result Demo.rt.
Proof.
  split; [reflexivity|]. split; [reflexivity|].
  intro H.
  destruct (H [("jsonrpc", JStr "2.0"); ("id", JNum 1);
               ("method", JStr "tools/call"); ("params", JArr [])]
              Demo.w0 eq_refl) as [text E].
  discriminate E.
Qed.

Section ToolsCall.

Variable rt : Runtime.

Lemma tools_call_malformed d w :
  req_field d "method" JNull = JStr "tools/call" ->
  is_object (req_field d "params" (JObj [])) = false
  \/ (exists params,
        req_field d "params" (JObj []) = JObj params
        /\ hashable (req_field params "name" JNull) = false) ->
  exists e,
    _handle_jsonrpc rt (JObj d) w
    = (Ret (rpc_error (req_field d "id" JNull) (-32603)
              ("Internal error: " ++ str_exn e)), w).
Proof.
  intros M [P | (params & P & N)]; rewrite handle_jsonrpc_object, M.
  - rewrite dispatch_tools_call_bad_params by assumption. eauto.
  - rewrite P, dispatch_tools_call, execute_tool_unhashable by assumption.
    eauto.
Qed.

(** C3, amended -- for every tools/call request whose params member is an
    object (or is absent) and whose tool name is not an array or an object,
    the dispatcher returns a JSON-RPC result with exactly one content item
    of type text; its text is the JSON serialization of what the handler
    returned, or of an error-shaped object when the tool is not registered
    or its handler raises.  The world is unchanged and a POST of the request
    is answered 200 OK with that response. *)
Theorem tools_call_reports_as_data :
  forall d params w,
    req_field d "method" JNull = JStr "tools/call" ->
    req_field d "params" (JObj []) = JObj params ->
    hashable (req_field params "name" JNull) = true ->
    exists result,
      tool_outcome rt (srv w) (req_field params "name" JNull)
        (req_field params "arguments" (JObj [])) result
      /\ _handle_jsonrpc rt (JObj d) w
         = (Ret (rpc_result (req_field d "id" JNull)
                   (text_content (json_dumps rt result))), w)
      /\ (forall body,
            json_loads rt body = Ret (JObj d) ->
            handle_post rt body w
            = (Ret [ok_response (srv w)
                      (json_dumps rt
                         (rpc_result (req_field d "id" JNull)
                            (text_content (json_dumps rt result))))], w))
      /\ status (ok_response (srv w)
                   (json_dumps rt
                      (rpc_result (req_field d "id" JNull)
                         (text_content (json_dumps rt result)))))
         = "200 OK".
Proof.
  intros d params w M P N.
  destruct (execute_tool_hashable rt (srv w) _
              (req_field params "arguments" (JObj [])) N)
    as (result & X & O).
  assert (E : _handle_jsonrpc rt (JObj d) w
              = (Ret (rpc_result (req_field d "id" JNull)
                        (text_content (json_dumps rt result))), w)).
  { rewrite handle_jsonrpc_object, M, P, dispatch_tools_call, X.
    reflexivity. }
  exists result. repeat split; auto.
  intros body L.
  rewrite (handle_post_single rt body (JObj d) w L eq_refl), E. reflexivity.
Qed.

End ToolsCall.

(** The example of the specification: the tool [echo] called with
    [{"x": "hi"}], an unregistered tool, and a handler that raises. *)
Lemma tools_call_reports_as_data_witness :
  (exists result,
     _handle_jsonrpc Demo.rt
       (JObj [("jsonrpc", JStr "2.0"); ("id", JNum 1);
              ("method", JStr "tools/call");
              ("params", JObj [("name", JStr "echo");
                               ("arguments", JObj [("x", JStr "hi")])])])
       Demo.w0
     = (Ret (rpc_result (JNum 1) (text_content (Ref.dumps result))), Demo.w0))
  /\ (exists result,
        _handle_jsonrpc Demo.rt
          (JObj [("id", JNum 2); ("method", JStr "tools/call");
                 ("params", JObj [("name", JStr "nope")])])
          Demo.w0
        = (Ret (rpc_result (JNum 2) (text_content (Ref.dumps result))),
           Demo.w0)).
Proof.
  split.
  - destruct (tools_call_reports_as_data Demo.rt
                [("jsonrpc", JStr "2.0"); ("id", JNum 1);
                 ("method", JStr "tools/call");
                 ("params", JObj [("name", JStr "echo");
                                  ("arguments", JObj [("x", JStr "hi")])])]
                [("name", JStr "echo"); ("arguments", JObj [("x", JStr "hi")])]
                Demo.w0 eq_refl eq_refl eq_refl) as (result & _ & E & _).
    exists result. exact E.
  - destruct (tools_call_reports_as_data Demo.rt
                [("id", JNum 2); ("method", JStr "tools/call");
                 ("params", JObj [("name", JStr "nope")])]
                [("name", JStr "nope")]
                Demo.w0 eq_refl eq_refl eq_refl) as (result & _ & E & _).
    exists result. exact E.
Defined.

Example echo_scenario :
  snd (_handle_request Demo.rt Demo.w0
         (Demo.http "POST /mcp HTTP/1.1" ["Content-Type: application/json"]
            ("{" ++ Demo.q "jsonrpc" ++ ":" ++ Demo.q "2.0" ++ ","
             ++ Demo.q "id" ++ ":1," ++ Demo.q "method" ++ ":"
             ++ Demo.q "tools/call" ++ "," ++ Demo.q "params" ++ ":{"
             ++ Demo.q "name" ++ ":" ++ Demo.q "echo" ++ ","
             ++ Demo.q "arguments" ++ ":{" ++ Demo.q "x" ++ ":"
             ++ Demo.q "hi" ++ "}}}")))
  = [ok_response Demo.server
       (Ref.dumps
          (rpc_result (JNum 1)
             (text_content (Ref.dumps (JObj [("value", JStr "hi")])))))].
Proof. vm_compute. reflexivity. Qed.

(** ** Failures inside the dispatcher *)

Section InternalErrors.

Variable rt : Runtime.

(** On a request that is a JSON object the dispatcher always returns: a
    failure inside the [try] block becomes the error -32603 with the
    message of the exception and the id of the request. *)
Lemma dispatcher_object_returns d w :
  (exists r w', _handle_jsonrpc rt (JObj d) w = (Ret r, w'))
  /\ (forall e w',
        dispatch_method rt (req_field d "method" JNull)
          (req_field d "params" (JObj [])) (req_field d "id" JNull) w
        = (Raise e, w') ->
        _handle_jsonrpc rt (JObj d) w
        = (Ret (rpc_error (req_field d "id" JNull) (-32603)
                  ("Internal error: " ++ str_exn e)), w')).
Proof.
  rewrite handle_jsonrpc_object. split.
  - destruct (dispatch_method rt _ _ _ w) as [[r|e] w']; eauto.
  - intros e w' ->. reflexivity.
Qed.

(** C4 -- the code at the failing input: for a request that is a number
    (the body [5], or an element of the batch [[5]]) the call
    [request.get("method")] fails in the [try] block, and the handler of
    the exception fails again on [request.get("id")]: the exception leaves
    the dispatcher instead of becoming the error -32603. *)
Theorem dispatcher_raises_on_number :
  forall z w,
    _handle_jsonrpc rt (JNum z) w = (Raise (AttributeError "int" "get"), w).
Proof. intros z w. now rewrite handle_jsonrpc_not_object. Qed.

Lemma batch_of_objects body reqs w :
  json_loads rt body = Ret (JArr reqs) ->
  forallb is_object reqs = true ->
  exists rs w',
    dispatch_all rt reqs w = (Ret rs, w')
    /\ handle_post rt body w
       = (Ret [ok_response (srv w') (json_dumps rt (JArr rs))], w').
Proof.
  intros L O. destruct (dispatch_all_objects rt reqs w O) as (rs & w' & D).
  exists rs, w'. split; auto.
  now rewrite (handle_post_batch rt body reqs w L), D.
Qed.

End InternalErrors.

(** C5 -- the code at the failing input: the body [[1]] parses as a JSON
    sequence, the dispatcher raises on its element (the defect of C4), and
    the reply is 400 Bad Request with a parse-error body, not 200 OK with
    the collected sequence. *)
Theorem batch_with_number_is_rejected :
  forall uid ticks w,
    _handle_request (Ref.runtime uid ticks) w
      (Demo.http "POST /mcp HTTP/1.1" ["Content-Type: application/json"]
         "[1]")
    = (w, [parse_error (Ref.runtime uid ticks) (srv w)
             (AttributeError "int" "get")])
    /\ status (parse_error (Ref.runtime uid ticks) (srv w)
                 (AttributeError "int" "get")) = "400 Bad Request".
Proof.
  intros uid ticks w. split; [|reflexivity].
  assert (F : frame (Ref.runtime uid ticks)
                (Demo.http "POST /mcp HTTP/1.1"
                   ["Content-Type: application/json"] "[1]")
              = Some ("POST /mcp HTTP/1.1" ++ PyStr.CRLF
                      ++ "Content-Type: application/json" ++ PyStr.CRLF
                      ++ PyStr.CRLF ++ "[1]",
                      "POST", "/mcp", [("content-type", "application/json")]))
    by reflexivity.
  rewrite (handle_request_framed _ _ _ _ _ _ w F), route_post.
  change (PyStr.find PyStr.CRLFCRLF _ =? -1)%Z with false. cbv iota.
  assert (L : json_loads (Ref.runtime uid ticks) "[1]" = Ret (JArr [JNum 1]))
    by reflexivity.
  change (PyStr.drop _ _) with "[1]".
  rewrite (handle_post_batch _ _ _ w L).
  reflexivity.
Qed.

(** A batch of one [initialized] notification and one [ping] call: the
    reply carries the response to [ping] alone. *)
Example batch_notification_and_ping :
  snd (_handle_request Demo.rt Demo.w0
         (Demo.http "POST /mcp HTTP/1.1" ["Content-Type: application/json"]
            ("[{" ++ Demo.q "jsonrpc" ++ ":" ++ Demo.q "2.0" ++ ","
             ++ Demo.q "method" ++ ":" ++ Demo.q "initialized" ++ "},{"
             ++ Demo.q "jsonrpc" ++ ":" ++ Demo.q "2.0" ++ ","
             ++ Demo.q "id" ++ ":7," ++ Demo.q "method" ++ ":"
             ++ Demo.q "ping" ++ "}]")))
  = [ok_response Demo.server
       (Ref.dumps (JArr [rpc_result (JNum 7) (JObj [])]))].
Proof. vm_compute. reflexivity. Qed.

(** ** Session tokens *)

(** Two calls that read the same value of the millisecond timer. *)
Lemma same_tick_same_token :
  let req := JObj [("jsonrpc", JStr "2.0"); ("id", JNum 1);
                   ("method", JStr "initialize")] in
  let w1 := snd (_handle_jsonrpc Demo.rt_same_tick req Demo.w0) in
  let w2 := snd (_handle_jsonrpc Demo.rt_same_tick req w1) in
  session_of w1 = Some "e6610f-1000"
  /\ session_of w2 = Some "e6610f-1000"
  /\ ~ consecutive_tokens_differ Demo.rt_same_tick.
Proof.
  cbv zeta. split; [reflexivity|]. split; [reflexivity|].
  intro H.
  destruct (H [("jsonrpc", JStr "2.0"); ("id", JNum 1);
               ("method", JStr "initialize")]
              [("jsonrpc", JStr "2.0"); ("id", JNum 1);
               ("method", JStr "initialize")]
              Demo.w0 eq_refl eq_refl) as (t1 & t2 & E1 & E2 & N).
  vm_compute in E1, E2. congruence.
Qed.

Section Tokens.

Variable rt : Runtime.

Lemma token_at_inj j k :
  token_at rt j = token_at rt k <-> ticks_ms rt j = ticks_ms rt k.
Proof.
  unfold token_at. split; intro H.
  - apply append_cancel_l in H. apply (append_cancel_l "-") in H.
    now apply str_N_inj.
  - now rewrite H.
Qed.

Lemma initialize_call d w :
  req_field d "method" JNull = JStr "initialize" ->
  _handle_jsonrpc rt (JObj d) w
  = (Ret (rpc_result (req_field d "id" JNull)
            (initialize_result (srv w) (token_at rt (ticks_read w)))),
     initialized_world rt w).
Proof.
  intro M. now rewrite handle_jsonrpc_object, M, dispatch_initialize.
Qed.

(** C6, amended -- for every pair of consecutive [initialize] calls whose
    two readings of the millisecond timer differ, the two calls produce two
    different session tokens (each reported in its response), and afterwards
    only the second validates: a DELETE /mcp presenting the first token is
    answered 404 and leaves the session in place, one presenting the second
    is answered 200 and clears it. *)
Theorem consecutive_initialize_tokens :
  forall d1 d2 w,
    req_field d1 "method" JNull = JStr "initialize" ->
    req_field d2 "method" JNull = JStr "initialize" ->
    ticks_ms rt (ticks_read w) <> ticks_ms rt (S (ticks_read w)) ->
    let t1 := token_at rt (ticks_read w) in
    let t2 := token_at rt (S (ticks_read w)) in
    let w1 := snd (_handle_jsonrpc rt (JObj d1) w) in
    let w2 := snd (_handle_jsonrpc rt (JObj d2) w1) in
    t1 <> t2
    /\ fst (_handle_jsonrpc rt (JObj d1) w)
       = Ret (rpc_result (req_field d1 "id" JNull)
                (initialize_result (srv w) t1))
    /\ fst (_handle_jsonrpc rt (JObj d2) w1)
       = Ret (rpc_result (req_field d2 "id" JNull)
                (initialize_result (srv w) t2))
    /\ session_of w1 = Some t1
    /\ session_of w2 = Some t2
    /\ (forall raw request headers,
          frame rt raw = Some (request, "DELETE", "/mcp", headers) ->
          (Dict.get "mcp-session-id" headers = Some t1 ->
           _handle_request rt w2 raw
           = (w2, [_send_http_response (srv w2) "404 Not Found"
                     "application/json" session_not_found_body None]))
          /\ (Dict.get "mcp-session-id" headers = Some t2 ->
              _handle_request rt w2 raw
              = (cleared w2,
                 [_send_http_response (srv (cleared w2)) "200 OK"
                    "application/json" "{}" None]))).
Proof.
  intros d1 d2 w M1 M2 T. cbv zeta.
  rewrite (initialize_call d1 w M1). simpl fst. simpl snd.
  rewrite (initialize_call d2 _ M2). simpl fst. simpl snd.
  assert (N : token_at rt (ticks_read w) <> token_at rt (S (ticks_read w)))
    by (intro E; apply T; now apply token_at_inj).
  split; [exact N|]. do 4 (split; [reflexivity|]).
  intros raw request hs F. split; intro G.
  - apply (delete_presenting_token rt _ raw request hs _ F G).
    unfold session_of. simpl. congruence.
  - now apply (delete_presenting_token rt _ raw request hs _ F G).
Qed.

End Tokens.

Lemma consecutive_initialize_tokens_witness :
  let req := [("jsonrpc", JStr "2.0"); ("id", JNum 1);
              ("method", JStr "initialize")] in
  let w1 := snd (_handle_jsonrpc Demo.rt (JObj req) Demo.w0) in
  let w2 := snd (_handle_jsonrpc Demo.rt (JObj req) w1) in
  session_of w1 = Some "e6610f-1000"
  /\ session_of w2 = Some "e6610f-1001"
  /\ snd (_handle_request Demo.rt w2
            (Demo.http "DELETE /mcp HTTP/1.1"
               ["Mcp-Session-Id: e6610f-1000"] ""))
     = [_send_http_response (srv w2) "404 Not Found" "application/json"
          session_not_found_body None].
Proof.
  cbv zeta.
  pose proof (consecutive_initialize_tokens Demo.rt
                [("jsonrpc", JStr "2.0"); ("id", JNum 1);
                 ("method", JStr "initialize")]
                [("jsonrpc", JStr "2.0"); ("id", JNum 1);
                 ("method", JStr "initialize")]
                Demo.w0 eq_refl eq_refl) as H.
  cbv zeta in H.
  destruct H as (_ & _ & _ & S1 & S2 & D).
  - vm_compute. discriminate.
  - split; [exact S1|]. split; [exact S2|].
    destruct (D (Demo.http "DELETE /mcp HTTP/1.1"
                   ["Mcp-Session-Id: e6610f-1000"] "")
                ("DELETE /mcp HTTP/1.1" ++ PyStr.CRLF
                 ++ "Mcp-Session-Id: e6610f-1000" ++ PyStr.CRLF ++ PyStr.CRLF)
                [("mcp-session-id", "e6610f-1000")] eq_refl) as [D1 _].
    rewrite D1; reflexivity.
Defined.

(** ** Listing the tools *)

Section ToolsList.

Variable rt : Runtime.

Lemma tool_is_register_tool self name description input_schema func :
  tool self name description input_schema func
  = register_tool self name description input_schema func.
Proof. reflexivity. Qed.

Lemma dispatch_tools_list params req_id w :
  dispatch_method rt (JStr "tools/list") params req_id w
  = (Ret (rpc_result req_id
            (JObj [("tools",
                    JArr (map tool_schema
                            (dict_values rt (_tools (srv w)))))])),
     w).
Proof. reflexivity. Qed.

(** C7 -- after any sequence of registrations on a new server, on a
    runtime whose dictionary iterates over each of the registered names
    once, the tools/list response holds one entry per registered name,
    each with the data of the last registration of its name, the names in
    the order in which the dictionary iterates over them; that is the order
    of first registration when the dictionary keeps the order of insertion.
    Registering a name that is present keeps the keys of the registry and
    replaces the entry. *)
Theorem tools_list_one_entry_per_name :
  forall name version protocol regs d ticks,
    req_field d "method" JNull = JStr "tools/list" ->
    Permutation (dict_order rt (first_occurrences (map reg_name regs)))
      (first_occurrences (map reg_name regs)) ->
    let self := register_all (MCPServer_init name version protocol) regs in
    let w := {| srv := self; ticks_read := ticks |} in
    let listing :=
      listed_in (dict_order rt (first_occurrences (map reg_name regs)))
        regs in
    _handle_jsonrpc rt (JObj d) w
    = (Ret (rpc_result (req_field d "id" JNull)
              (JObj [("tools",
                      JArr (map (fun r => tool_schema (reg_entry r))
                              listing))])), w)
    /\ map reg_name listing
       = dict_order rt (first_occurrences (map reg_name regs))
    /\ NoDup (map reg_name listing)
    /\ (forall n, In n (map reg_name listing) <-> In n (map reg_name regs))
    /\ (forall r, In r listing
                  -> last_registration (reg_name r) regs = Some r)
    /\ (dict_order rt (first_occurrences (map reg_name regs))
        = first_occurrences (map reg_name regs) ->
        map (fun r => tool_schema (reg_entry r)) listing
        = spec_tools_list regs)
    /\ (forall self0 n description input_schema handler,
          Dict.mem n (_tools self0) = true ->
          let self1 :=
            register_tool self0 n description input_schema handler in
          Dict.keys (_tools self1) = Dict.keys (_tools self0)
          /\ Dict.get n (_tools self1)
             = Some {| tool_schema :=
                         make_tool_schema n description input_schema;
                       tool_handler := handler |}).
Proof.
  intros name version protocol regs d ticks M P. cbv zeta.
  assert (N : map reg_name
                (listed_in
                   (dict_order rt (first_occurrences (map reg_name regs)))
                   regs)
              = dict_order rt (first_occurrences (map reg_name regs))).
  { apply listed_in_names. intros n H.
    apply first_occurrences_In. exact (Permutation_in n P H). }
  split; [|split; [|split; [|split; [|split; [|split]]]]].
  - rewrite handle_jsonrpc_object, M, dispatch_tools_list. simpl srv.
    now rewrite tools_list_after.
  - exact N.
  - rewrite N.
    exact (Permutation_NoDup (Permutation_sym P)
             (first_occurrences_NoDup (map reg_name regs))).
  - intro n. rewrite N. split; intro H.
    + apply first_occurrences_In. exact (Permutation_in n P H).
    + apply first_occurrences_In in H.
      exact (Permutation_in n (Permutation_sym P) H).
  - apply listed_in_last.
  - intros ->. reflexivity.
  - intros self0 n description input_schema handler H.
    unfold register_tool. simpl. rewrite keys_set, H, get_set_same. auto.
Qed.

End ToolsList.

(** On a runtime whose dictionary is a hash table, [read_gpio] registered
    before [write_gpio] is listed after it. *)
Lemma tools_list_in_slot_order :
  fst (_handle_jsonrpc Demo.rt_slots
         (JObj [("id", JNum 3); ("method", JStr "tools/list")])
         {| srv := register_all (MCPServer_init "s" "1" "2025-03-26")
                     [ToolsListDemo.read_gpio; ToolsListDemo.write_gpio];
            ticks_read := 0 |})
  = Ret (rpc_result (JNum 3)
           (JObj [("tools",
                   JArr [tool_schema (reg_entry ToolsListDemo.write_gpio);
                         tool_schema (reg_entry ToolsListDemo.read_gpio)])]))
  /\ spec_tools_list [ToolsListDemo.read_gpio; ToolsListDemo.write_gpio]
     = [tool_schema (reg_entry ToolsListDemo.read_gpio);
        tool_schema (reg_entry ToolsListDemo.write_gpio)]
  /\ ~ tools_listed_in_registration_order Demo.rt_slots.
Proof.
  split; [reflexivity|]. split; [reflexivity|].
  intro H.
  specialize (H "s" "1" "2025-03-26"
                [ToolsListDemo.read_gpio; ToolsListDemo.write_gpio]
                [("id", JNum 3); ("method", JStr "tools/list")] 0 eq_refl).
  vm_compute in H. discriminate H.
Qed.

Lemma tools_list_one_entry_per_name_witness :
  fst (_handle_jsonrpc Demo.rt_slots
         (JObj [("id", JNum 3); ("method", JStr "tools/list")])
         {| srv := register_all (MCPServer_init "s" "1" "2025-03-26")
                     [ToolsListDemo.read_gpio; ToolsListDemo.write_gpio;
                      ToolsListDemo.again; ToolsListDemo.first];
            ticks_read := 0 |})
  = Ret (rpc_result (JNum 3)
           (JObj [("tools",
                   JArr [make_tool_schema "led" "Switch the LED" (JObj []);
                         tool_schema (reg_entry ToolsListDemo.read_gpio);
                         tool_schema
                           (reg_entry ToolsListDemo.write_gpio)])])).
Proof.
  assert (P : Permutation
                (dict_order Demo.rt_slots
                   (first_occurrences
                      (map reg_name
                         [ToolsListDemo.read_gpio; ToolsListDemo.write_gpio;
                          ToolsListDemo.again; ToolsListDemo.first])))
                (first_occurrences
                   (map reg_name
                      [ToolsListDemo.read_gpio; ToolsListDemo.write_gpio;
                       ToolsListDemo.again; ToolsListDemo.first]))).
  { vm_compute. apply (Permutation_cons_app [_; _] [] _).
    apply Permutation_refl. }
  destruct (tools_list_one_entry_per_name Demo.rt_slots "s" "1" "2025-03-26"
              [ToolsListDemo.read_gpio; ToolsListDemo.write_gpio;
               ToolsListDemo.again; ToolsListDemo.first]
              [("id", JNum 3); ("method", JStr "tools/list")] 0 eq_refl P)
    as [E _].
  rewrite E. reflexivity.
Defined.

(** ** Reading a resource *)

Lemma resources_read_unhashable_uri :
  _handle_jsonrpc Demo.rt
    (JObj [("jsonrpc", JStr "2.0"); ("id", JNum 4);
           ("method", JStr "resources/read");
           ("params", JObj [("uri", JArr [JStr "status"])])]) Demo.w0
  = (Ret (rpc_error (JNum 4) (-32603)
            "Internal error: unhashable type: 'list'"), Demo.w0)
  /\ _handle_jsonrpc Demo.rt
       (JObj [("jsonrpc", JStr "2.0"); ("id", JNum 4);
              ("method", JStr "resources/read"); ("params", JArr [])])
       Demo.w0
     = (Ret (rpc_error (JNum 4) (-32603)
               "Internal error: 'list' object has no attribute 'get'"),
        Demo.w0)
  /\ ~ unregistered_uri_is_invalid_params Demo.rt.
Proof.
  split; [reflexivity|]. split; [reflexivity|].
  intro H.
  destruct (H [("jsonrpc", JStr "2.0"); ("id", JNum 4);
               ("method", JStr "resources/read");
               ("params", JObj [("uri", JArr [JStr "status"])])]
              Demo.w0 eq_refl) as [message E].
  - intros entry X. vm_compute in X. discriminate X.
  - discriminate E.
Qed.

Section ResourcesRead.

Variable rt : Runtime.

Lemma dispatch_resources_read_bad_params params req_id w :
  is_object params = false ->
  dispatch_method rt (JStr "resources/read") params req_id w
  = (Raise (AttributeError (type_name params) "get"), w).
Proof.
  intro H. unfold dispatch_method. eval_eq_str. munfold.
  rewrite py_get_not_object by assumption. reflexivity.
Qed.

Lemma resources_read_malformed d w :
  req_field d "method" JNull = JStr "resources/read" ->
  is_object (req_field d "params" (JObj [])) = false
  \/ hashable (given_uri d) = false ->
  exists e,
    _handle_jsonrpc rt (JObj d) w
    = (Ret (rpc_error (req_field d "id" JNull) (-32603)
              ("Internal error: " ++ str_exn e)), w).
Proof.
  intros M H. rewrite handle_jsonrpc_object, M. unfold given_uri in H.
  destruct (is_object (req_field d "params" (JObj []))) eqn:O.
  - destruct (req_field d "params" (JObj [])) as [| | | | |params];
      try discriminate.
    destruct H as [H | H]; [discriminate|].
    rewrite dispatch_resources_read. cbv zeta.
    rewrite execute_resource_unhashable by assumption. eauto.
  - rewrite dispatch_resources_read_bad_params by assumption. eauto.
Qed.

(** C8, amended -- for every resources/read request whose params member is
    an object (or is absent) and whose URI is not an array or an object: if
    the URI names no registered resource, or the handler of the resource
    raises, the dispatcher returns a JSON-RPC error with code -32602; if the
    handler succeeds, it returns a result with exactly one content entry
    that carries the URI, the registered mimeType and, as text, what the
    handler returned. *)
Theorem resources_read_outcomes :
  forall d params w,
    req_field d "method" JNull = JStr "resources/read" ->
    req_field d "params" (JObj []) = JObj params ->
    hashable (req_field params "uri" JNull) = true ->
    let uri := req_field params "uri" JNull in
    let req_id := req_field d "id" JNull in
    (registry_contains uri (_resources (srv w)) = Ret false ->
     _handle_jsonrpc rt (JObj d) w
     = (Ret (rpc_error req_id (-32602)
               ("Resource not found: " ++ py_str rt uri)), w))
    /\ (forall entry e,
          registry_item uri (_resources (srv w)) = Ret entry ->
          res_handler entry tt = Raise e ->
          _handle_jsonrpc rt (JObj d) w
          = (Ret (rpc_error req_id (-32602)
                    ("Resource fetch failed: " ++ str_exn e)), w))
    /\ (forall entry u name description mime_type content,
          registry_item uri (_resources (srv w)) = Ret entry ->
          res_schema entry
          = make_resource_schema u name description mime_type ->
          res_handler entry tt = Ret content ->
          _handle_jsonrpc rt (JObj d) w
          = (Ret (rpc_result req_id
                    (resource_contents uri (JStr mime_type) content)), w))
    /\ (forall self u name description mime_type func,
          registry_item (JStr u)
            (_resources (resource self u name description mime_type func))
          = Ret {| res_schema :=
                     make_resource_schema u name description mime_type;
                   res_handler := func |}).
Proof.
  intros d params w M P N. cbv zeta.
  rewrite handle_jsonrpc_object, M, P, dispatch_resources_read. cbv zeta.
  split; [|split; [|split]].
  - intro H. now rewrite (execute_resource_not_found rt _ _ H).
  - intros entry e H He.
    now rewrite (execute_resource_failed rt _ _ _ _ H He).
  - intros entry u name description mime_type content H S Hc.
    rewrite (execute_resource_ok rt _ _ entry content (JStr mime_type) H Hc);
      [reflexivity|].
    rewrite S. reflexivity.
  - intros self u name description mime_type func.
    unfold resource. simpl. now rewrite get_set_same.
Qed.

End ResourcesRead.

Lemma resources_read_outcomes_witness :
  _handle_jsonrpc Demo.rt (JObj (ResourceDemo.read "device://none"))
    ResourceDemo.w
  = (Ret (rpc_error (JNum 5) (-32602) "Resource not found: device://none"),
     ResourceDemo.w)
  /\ _handle_jsonrpc Demo.rt (JObj (ResourceDemo.read "device://status"))
       ResourceDemo.w
     = (Ret (rpc_result (JNum 5)
               (resource_contents (JStr "device://status")
                  (JStr "application/json") (JStr "up"))),
        ResourceDemo.w).
Proof.
  split.
  - apply (resources_read_outcomes Demo.rt
             (ResourceDemo.read "device://none")
             [("uri", JStr "device://none")] ResourceDemo.w
             eq_refl eq_refl eq_refl).
    reflexivity.
  - destruct (resources_read_outcomes Demo.rt
                (ResourceDemo.read "device://status")
                [("uri", JStr "device://status")] ResourceDemo.w
                eq_refl eq_refl eq_refl) as (_ & _ & H & _).
    apply (H _ "device://status" "status" "Device status" "application/json"
             (JStr "up") eq_refl eq_refl eq_refl).
Defined.

(** ** The session slot over a run of the server *)

Section Invariants.

Variable rt : Runtime.

(** C9 -- the session is one slot, [_session_id], holding a token or
    nothing.  A call of the dispatcher leaves it as it is unless the method
    is [initialize], which stores a new token over whatever was there.  A
    handled request leaves it as it is, or is a DELETE /mcp whose header
    equals the stored token and empties the slot, or is a POST /mcp whose
    body holds an [initialize] call and stores a new token. *)
Theorem session_slot_changes :
  forall w raw,
    (forall req w0,
       session_of (snd (_handle_jsonrpc rt req w0)) = session_of w0
       \/ (is_initialize req = true
           /\ session_of (snd (_handle_jsonrpc rt req w0))
              = Some (token_at rt (ticks_read w0))))
    /\ (let w' := fst (_handle_request rt w raw) in
        session_of w' = session_of w
        \/ (exists request headers tok,
              frame rt raw = Some (request, "DELETE", "/mcp", headers)
              /\ session_of w = Some tok
              /\ Dict.get "mcp-session-id" headers = Some tok
              /\ session_of w' = None)
        \/ (exists request headers body j k,
              frame rt raw = Some (request, "POST", "/mcp", headers)
              /\ body_text request = Some body
              /\ json_loads rt body = Ret j
              /\ has_initialize j = true
              /\ session_of w' = Some (token_at rt k))).
Proof.
  intros w raw. split.
  - intros req w0. apply jsonrpc_session.
  - apply handle_request_session.
Qed.

(** C10 -- in every world the server can reach, each reply of
    [_handle_request] is written in the world the request leaves; all
    replies but the 200 reply to a POST /mcp are written without the
    extra-headers argument, and each carries the header Mcp-Session-Id with
    the stored token when there is one.  In particular a DELETE /mcp that
    presents another token than the stored one is answered 404 with the
    stored token in its headers. *)
Theorem session_header_on_replies :
  forall w raw tok,
    reachable rt w ->
    (session_of (fst (_handle_request rt w raw)) = Some tok ->
     Forall (fun r =>
               (plain_reply (srv (fst (_handle_request rt w raw))) r
                \/ ((exists request hs,
                       frame rt raw = Some (request, "POST", "/mcp", hs))
                    /\ post_reply (srv (fst (_handle_request rt w raw))) r))
               /\ In ("Mcp-Session-Id", tok) (headers r))
            (snd (_handle_request rt w raw)))
    /\ (forall request hs h,
          frame rt raw = Some (request, "DELETE", "/mcp", hs) ->
          Dict.get "mcp-session-id" hs = Some h ->
          session_of w = Some tok -> h <> tok ->
          exists r,
            _handle_request rt w raw = (w, [r])
            /\ status r = "404 Not Found"
            /\ In ("Mcp-Session-Id", tok) (headers r)).
Proof.
  intros w raw tok R. split.
  - intro S.
    assert (T : PyStr.truthy tok = true).
    { apply (reachable_session_ok rt _ (reach_request rt w raw R)).
      exact S. }
    eapply Forall_impl; [|apply handle_request_replies].
    simpl. intros r H. split; [exact H|].
    destruct H as [H | [_ H]].
    + eapply plain_reply_session_header; eauto.
    + eapply post_reply_session_header; eauto.
  - intros request hs h F G S N.
    destruct (delete_presenting_token rt w raw request hs h F G) as [_ D].
    eexists. split; [apply D; congruence|]. split; [reflexivity|].
    apply plain_reply_session_header with (srv w); auto.
    + apply plain_intro.
    + now apply (reachable_session_ok rt w R).
Qed.

End Invariants.

Lemma w1_reachable : reachable Demo.rt HeaderDemo.w1.
Proof.
  apply reach_request.
  exact (reach_tool Demo.rt _ "echo" "Echo a value"
           (JObj [("type", JStr "object")]) Demo.echo
           (reach_init Demo.rt "mcp-server" "1.0.0" "2025-03-26")).
Qed.

Lemma session_header_on_replies_witness :
  (exists r,
     _handle_request Demo.rt HeaderDemo.w1
       (Demo.http "DELETE /mcp HTTP/1.1" ["Mcp-Session-Id: guess"] "")
     = (HeaderDemo.w1, [r])
     /\ status r = "404 Not Found"
     /\ In ("Mcp-Session-Id", "e6610f-1000") (headers r))
  /\ Forall (fun r => In ("Mcp-Session-Id", "e6610f-1000") (headers r))
        (snd (_handle_request Demo.rt HeaderDemo.w1
                (Demo.http "GET /mcp HTTP/1.1" [] ""))).
Proof.
  split.
  - destruct (session_header_on_replies Demo.rt HeaderDemo.w1
                (Demo.http "DELETE /mcp HTTP/1.1" ["Mcp-Session-Id: guess"] "")
                "e6610f-1000" w1_reachable) as [_ H].
    apply (H ("DELETE /mcp HTTP/1.1" ++ PyStr.CRLF
              ++ "Mcp-Session-Id: guess" ++ PyStr.CRLF ++ PyStr.CRLF)
             [("mcp-session-id", "guess")] "guess");
      try reflexivity.
    discriminate.
  - destruct (session_header_on_replies Demo.rt HeaderDemo.w1
                (Demo.http "GET /mcp HTTP/1.1" [] "")
                "e6610f-1000" w1_reachable) as [H _].
    eapply Forall_impl; [|apply H; reflexivity].
    simpl. intros r [_ I]. exact I.
Defined.

(** ** The shape of the dispatcher's responses *)

Section Envelope.

Variable rt : Runtime.

Lemma execute_resource_shape self uri result :
  _execute_resource rt self uri = Ret result ->
  (exists message, result = JObj [("error", JStr message)])
  \/ (exists content mime_type,
        result = JObj [("content", content); ("mimeType", mime_type)]).
Proof.
  unfold _execute_resource.
  destruct (registry_contains uri (_resources self)) as [[|]|e];
    try discriminate.
  - destruct (registry_item uri (_resources self)) as [entry|e]; simpl.
    + destruct (res_handler entry tt) as [content|e]; simpl.
      * destruct (py_item (res_schema entry) "mimeType") as [m|e]; simpl;
          intro H; injection H as <-; eauto.
      * intro H; injection H as <-; eauto.
    + intro H; injection H as <-; eauto.
  - intro H; injection H as <-; eauto.
Qed.

Lemma dispatch_envelope method params req_id w :
  match fst (dispatch_method rt method params req_id w) with
  | Ret r =>
      (r = JNull /\ method = JStr "initialized") \/
      (envelope req_id r /\ method <> JStr "initialized")
  | Raise _ => True
  end.
Proof.
  unfold dispatch_method.
  destruct (eq_str method "initialize") eqn:E0.
  { apply eq_str_true in E0. subst. simpl. right. split.
    - apply envelope_result.
    - discriminate. }
  destruct (eq_str method "initialized") eqn:E1.
  { apply eq_str_true in E1. subst. simpl. auto. }
  assert (N : method <> JStr "initialized").
  { intro H. subst. discriminate. }
  destruct (eq_str method "tools/list").
  { simpl. right. split; [apply envelope_result | exact N]. }
  destruct (eq_str method "tools/call").
  { munfold. destruct (py_get params "name" JNull); simpl; auto.
    destruct (py_get params "arguments" (JObj [])); simpl; auto.
    destruct (_execute_tool rt (srv w) a a0); simpl; auto.
    right. split; [apply envelope_result | exact N]. }
  destruct (eq_str method "resources/list").
  { simpl. right. split; [apply envelope_result | exact N]. }
  destruct (eq_str method "resources/read").
  { munfold. destruct (py_get params "uri" JNull) as [uri|]; simpl; auto.
    destruct (_execute_resource rt (srv w) uri) as [result|] eqn:X;
      simpl; auto.
    destruct (execute_resource_shape _ _ _ X)
      as [[message ->] | (content & mime_type & ->)]; simpl.
    - right. split; [|exact N].
      apply (envelope_error req_id (-32602) message). simpl. auto.
    - right. split; [apply envelope_result | exact N]. }
  destruct (eq_str method "ping").
  { simpl. right. split; [apply envelope_result | exact N]. }
  simpl. right. split; [|exact N].
  apply (envelope_error req_id (-32601)). simpl. auto.
Qed.

(** X1 -- for a request that is a JSON object the dispatcher always
    returns: [None] exactly when the method is [initialized] (also when the
    request carries an id), otherwise a response with the id of the request
    and either a result or an error with code -32601, -32602 or -32603,
    never both. *)
Theorem jsonrpc_envelope :
  forall d w,
    exists r w',
      _handle_jsonrpc rt (JObj d) w = (Ret r, w')
      /\ ((r = JNull /\ req_field d "method" JNull = JStr "initialized")
          \/ (envelope (req_field d "id" JNull) r
              /\ req_field d "method" JNull <> JStr "initialized")).
Proof.
  intros d w. rewrite handle_jsonrpc_object.
  pose proof (dispatch_envelope (req_field d "method" JNull)
                (req_field d "params" (JObj []))
                (req_field d "id" JNull) w) as H.
  destruct (dispatch_method rt _ _ _ w) as [[r|e] w'] eqn:D; simpl in H.
  - exists r, w'. auto.
  - eexists. exists w'. split; [reflexivity|]. right. split.
    + apply (envelope_error _ (-32603)). simpl. auto.
    + intro M. rewrite M in D. discriminate D.
Qed.

(** X2 -- a request object whose method is none of the seven known names
    (a different spelling or letter case, a value that is not a string, no
    method at all) is answered with the error -32601 and the message
    "Method not found: " followed by [str(method)]; the world is
    unchanged. *)
Theorem unknown_method_not_found :
  forall d w,
    is_known_method (req_field d "method" JNull) = false ->
    _handle_jsonrpc rt (JObj d) w
    = (Ret (rpc_error (req_field d "id" JNull) (-32601)
              ("Method not found: "
               ++ py_str rt (req_field d "method" JNull))), w).
Proof.
  intros d w K. rewrite handle_jsonrpc_object.
  unfold is_known_method, known_methods in K. simpl in K.
  repeat (apply orb_false_iff in K; destruct K as [? K]).
  unfold dispatch_method.
  repeat match goal with
         | H : eq_str _ _ = false |- _ => rewrite H; clear H
         end.
  reflexivity.
Qed.

End Envelope.

Lemma unknown_method_not_found_witness :
  _handle_jsonrpc Demo.rt (JObj [("jsonrpc", JStr "2.0"); ("id", JNum 9)])
    Demo.w0
  = (Ret (rpc_error (JNum 9) (-32601) "Method not found: None"), Demo.w0)
  /\ _handle_jsonrpc Demo.rt
       (JObj [("id", JStr "a"); ("method", JStr "Ping")]) Demo.w0
     = (Ret (rpc_error (JStr "a") (-32601) "Method not found: Ping"),
        Demo.w0).
Proof.
  split.
  - apply (unknown_method_not_found Demo.rt
             [("jsonrpc", JStr "2.0"); ("id", JNum 9)] Demo.w0 eq_refl).
  - apply (unknown_method_not_found Demo.rt
             [("id", JStr "a"); ("method", JStr "Ping")] Demo.w0 eq_refl).
Defined.

(** ** Listing the resources *)

Lemma last_resource_snoc uri regs r :
  last_resource uri (regs ++ [r])
  = if String.eqb uri (rreg_uri r) then Some r else last_resource uri regs.
Proof.
  induction regs as [|a regs IH]; simpl.
  - reflexivity.
  - rewrite IH. destruct (String.eqb uri (rreg_uri r)); auto.
Qed.

Lemma last_resource_sound uri regs r :
  last_resource uri regs = Some r -> rreg_uri r = uri /\ In r regs.
Proof.
  induction regs as [|a regs IH]; simpl; [discriminate|].
  destruct (last_resource uri regs) as [r'|].
  - intro H. injection H as ->. destruct IH; auto.
  - destruct (String.eqb uri (rreg_uri a)) eqn:E; [|discriminate].
    intro H. injection H as ->. apply String.eqb_eq in E. auto.
Qed.

Lemma last_resource_some uri regs :
  In uri (map rreg_uri regs) -> exists r, last_resource uri regs = Some r.
Proof.
  induction regs as [|a regs IH]; simpl; [tauto|].
  intros [H | H].
  - destruct (last_resource uri regs); eauto.
    subst. rewrite String.eqb_refl. eauto.
  - destruct (IH H) as [r ->]. eauto.
Qed.

Lemma add_resources_snoc self regs r :
  add_resources self (regs ++ [r]) = add_resource (add_resources self regs) r.
Proof. unfold add_resources. now rewrite fold_left_app. Qed.

Lemma add_resources_tools self regs :
  _tools (add_resources self regs) = _tools self.
Proof.
  unfold add_resources. revert self.
  induction regs as [|r regs IH]; intro self; simpl; auto.
  now rewrite IH.
Qed.

(** The resource registry after a sequence of registrations on an empty
    one. *)
Lemma resources_after self regs :
  _resources self = [] ->
  let d := _resources (add_resources self regs) in
  Dict.keys d = first_occurrences (map rreg_uri regs)
  /\ forall u, Dict.get u d = option_map rreg_entry (last_resource u regs).
Proof.
  intro E. induction regs as [|r regs IH] using rev_ind; simpl.
  - rewrite E. split; auto.
  - rewrite add_resources_snoc. simpl in IH. destruct IH as [K G].
    unfold add_resource, resource. simpl. split.
    + rewrite keys_set, K, map_app.
      change (map rreg_uri [r]) with [rreg_uri r].
      rewrite first_occurrences_snoc.
      replace (existsb (String.eqb (rreg_uri r)) (map rreg_uri regs))
        with (Dict.mem (rreg_uri r) (_resources (add_resources self regs)));
        auto.
      apply eq_true_iff_eq. rewrite mem_In_keys, K, first_occurrences_In.
      rewrite existsb_exists. split.
      * intro H. exists (rreg_uri r). split; auto. apply String.eqb_refl.
      * intros (x & H & X). apply String.eqb_eq in X. now subst.
    + intro u. rewrite last_resource_snoc.
      destruct (String.eqb u (rreg_uri r)) eqn:X.
      * apply String.eqb_eq in X. subst. now rewrite get_set_same.
      * apply String.eqb_neq in X. rewrite get_set_other by congruence.
        apply G.
Qed.

Lemma listed_resources_in_uris order regs :
  (forall u, In u order -> In u (map rreg_uri regs)) ->
  map rreg_uri (listed_resources_in order regs) = order.
Proof.
  unfold listed_resources_in.
  induction order as [|u l IH]; intro H; simpl; auto.
  rewrite map_app, IH by (intros; apply H; simpl; auto).
  destruct (last_resource_some u regs) as [r E]; [apply H; simpl; auto|].
  rewrite E. simpl. f_equal. now apply last_resource_sound in E.
Qed.

Lemma resources_schemas_after rt self regs :
  _resources self = [] ->
  map res_schema (dict_values rt (_resources (add_resources self regs)))
  = map (fun r => res_schema (rreg_entry r))
      (listed_resources_in
         (dict_order rt (first_occurrences (map rreg_uri regs))) regs).
Proof.
  intro E. destruct (resources_after self regs E) as [K G].
  rewrite dict_values_by_keys, K. unfold listed_resources_in.
  generalize (dict_order rt (first_occurrences (map rreg_uri regs))) as l.
  induction l as [|u l IH]; simpl; auto.
  rewrite !map_app, IH. f_equal.
  rewrite G. destruct (last_resource u regs); reflexivity.
Qed.

Section ResourcesList.

Variable rt : Runtime.

(** X3 -- after any sequence of resource registrations on a server without
    resources, on a runtime whose dictionary iterates over each of the
    registered URIs once, the resources/list response holds one schema per
    registered URI, each with the name, description and mimeType of the
    last registration of that URI, the URIs in the order in which the
    dictionary iterates over them (the order of first registration when
    the dictionary keeps the order of insertion); the tools and the world
    are untouched. *)
Theorem resources_list_one_entry_per_uri :
  forall self regs d ticks,
    _resources self = [] ->
    req_field d "method" JNull = JStr "resources/list" ->
    Permutation (dict_order rt (first_occurrences (map rreg_uri regs)))
      (first_occurrences (map rreg_uri regs)) ->
    let w := {| srv := add_resources self regs; ticks_read := ticks |} in
    let listing :=
      listed_resources_in
        (dict_order rt (first_occurrences (map rreg_uri regs))) regs in
    _handle_jsonrpc rt (JObj d) w
    = (Ret (rpc_result (req_field d "id" JNull)
              (JObj [("resources",
                      JArr (map (fun r => res_schema (rreg_entry r))
                              listing))])), w)
    /\ map rreg_uri listing
       = dict_order rt (first_occurrences (map rreg_uri regs))
    /\ NoDup (map rreg_uri listing)
    /\ (forall u, In u (map rreg_uri listing) <-> In u (map rreg_uri regs))
    /\ (forall r, In r listing -> last_resource (rreg_uri r) regs = Some r)
    /\ (dict_order rt (first_occurrences (map rreg_uri regs))
        = first_occurrences (map rreg_uri regs) ->
        listing = listed_resources regs)
    /\ _tools (add_resources self regs) = _tools self.
Proof.
  intros self regs d ticks E M P. cbv zeta.
  assert (N : map rreg_uri
                (listed_resources_in
                   (dict_order rt (first_occurrences (map rreg_uri regs)))
                   regs)
              = dict_order rt (first_occurrences (map rreg_uri regs))).
  { apply listed_resources_in_uris. intros u H.
    apply first_occurrences_In. exact (Permutation_in u P H). }
  split; [|split; [|split; [|split; [|split; [|split]]]]].
  - rewrite handle_jsonrpc_object, M.
    unfold dispatch_method. eval_eq_str. munfold. simpl srv.
    now rewrite (resources_schemas_after rt self regs E).
  - exact N.
  - rewrite N.
    exact (Permutation_NoDup (Permutation_sym P)
             (first_occurrences_NoDup (map rreg_uri regs))).
  - intro u. rewrite N. split; intro H.
    + apply first_occurrences_In. exact (Permutation_in u P H).
    + apply first_occurrences_In in H.
      exact (Permutation_in u (Permutation_sym P) H).
  - intros r. unfold listed_resources_in. rewrite in_flat_map.
    intros (u & _ & H).
    destruct (last_resource u regs) as [r'|] eqn:X; simpl in H; [|tauto].
    destruct H as [-> | []].
    destruct (last_resource_sound _ _ _ X) as [-> _]. exact X.
  - intros ->. reflexivity.
  - apply add_resources_tools.
Qed.

End ResourcesList.

Lemma resources_list_one_entry_per_uri_witness :
  fst (_handle_jsonrpc Demo.rt_slots
         (JObj [("id", JNum 3); ("method", JStr "resources/list")])
         {| srv := add_resources Demo.server
                     [ResourcesListDemo.status; ResourcesListDemo.log;
                      ResourcesListDemo.status_json];
            ticks_read := 0 |})
  = Ret (rpc_result (JNum 3)
           (JObj [("resources",
                   JArr [make_resource_schema "device://log" "Log"
                           "Recent events" "text/plain";
                         make_resource_schema "device://status" "Status"
                           "Device status as JSON" "application/json"])])).
Proof.
  assert (P : Permutation
                (dict_order Demo.rt_slots
                   (first_occurrences
                      (map rreg_uri
                         [ResourcesListDemo.status; ResourcesListDemo.log;
                          ResourcesListDemo.status_json])))
                (first_occurrences
                   (map rreg_uri
                      [ResourcesListDemo.status; ResourcesListDemo.log;
                       ResourcesListDemo.status_json]))).
  { vm_compute. apply perm_swap. }
  destruct (resources_list_one_entry_per_uri Demo.rt_slots Demo.server
              [ResourcesListDemo.status; ResourcesListDemo.log;
               ResourcesListDemo.status_json]
              [("id", JNum 3); ("method", JStr "resources/list")] 0
              eq_refl eq_refl P) as [E _].
  rewrite E. reflexivity.
Defined.

(** ** Registering and calling *)

Section RegisterCall.

Variable rt : Runtime.

Lemma execute_tool_registered self name description input_schema handler
    arguments :
  _execute_tool rt (register_tool self name description input_schema handler)
    (JStr name) arguments
  = Ret (reported (handler arguments)).
Proof.
  unfold _execute_tool, register_tool. simpl.
  unfold Dict.mem. rewrite get_set_same. simpl.
  destruct (handler arguments); reflexivity.
Qed.

Lemma execute_tool_other self name description input_schema handler other
    arguments :
  other <> name ->
  _execute_tool rt (register_tool self name description input_schema handler)
    (JStr other) arguments
  = _execute_tool rt self (JStr other) arguments.
Proof.
  intro N. unfold _execute_tool, register_tool. simpl.
  unfold Dict.mem. rewrite !get_set_other by congruence. reflexivity.
Qed.

(** X4 -- once a tool is registered under a name (by [register_tool] or the
    decorator [tool]), a tools/call of that name runs the handler just
    registered, whatever was registered under the name before: the text of
    the response is the serialization of the handler's return value, or of
    the error object when it raises.  Calls of every other name are
    answered as before the registration. *)
Theorem call_after_register :
  forall self name description input_schema handler d params ticks,
    req_field d "method" JNull = JStr "tools/call" ->
    req_field d "params" (JObj []) = JObj params ->
    let w := {| srv := self; ticks_read := ticks |} in
    let w' :=
      {| srv := register_tool self name description input_schema handler;
         ticks_read := ticks |} in
    (req_field params "name" JNull = JStr name ->
     _handle_jsonrpc rt (JObj d) w'
     = (Ret (rpc_result (req_field d "id" JNull)
               (text_content
                  (json_dumps rt
                     (reported
                        (handler
                           (req_field params "arguments" (JObj []))))))),
        w'))
    /\ (forall other,
          req_field params "name" JNull = JStr other -> other <> name ->
          fst (_handle_jsonrpc rt (JObj d) w')
          = fst (_handle_jsonrpc rt (JObj d) w))
    /\ tool self name description input_schema handler
       = register_tool self name description input_schema handler.
Proof.
  intros self name description input_schema handler d params ticks M P.
  cbv zeta. split; [|split].
  - intro N.
    rewrite handle_jsonrpc_object, M, P, dispatch_tools_call, N. simpl srv.
    now rewrite execute_tool_registered.
  - intros other N D.
    rewrite !handle_jsonrpc_object, M, P, !dispatch_tools_call, N. simpl srv.
    rewrite (execute_tool_other _ _ _ _ _ _ _ D).
    destruct (_execute_tool rt self (JStr other) _); reflexivity.
  - reflexivity.
Qed.

End RegisterCall.

Lemma call_after_register_witness :
  fst (_handle_jsonrpc Demo.rt
         (JObj [("id", JNum 1); ("method", JStr "tools/call");
                ("params", JObj [("name", JStr "echo");
                                 ("arguments", JObj [("x", JNum 7)])])])
         {| srv := register_tool Demo.server "echo" "Always fails"
                     (JObj []) (fun _ => Raise (Raised "boom"));
            ticks_read := 0 |})
  = Ret (rpc_result (JNum 1)
           (text_content
              (Ref.dumps
                 (JObj [("error",
                         JStr "Tool execution failed: boom")])))).
Proof.
  destruct (call_after_register Demo.rt Demo.server "echo" "Always fails"
              (JObj []) (fun _ => Raise (Raised "boom"))
              [("id", JNum 1); ("method", JStr "tools/call");
               ("params", JObj [("name", JStr "echo");
                                ("arguments", JObj [("x", JNum 7)])])]
              [("name", JStr "echo"); ("arguments", JObj [("x", JNum 7)])]
              0 eq_refl eq_refl) as [H _].
  rewrite (H eq_refl). reflexivity.
Defined.

(** ** What handling a request leaves alone *)

Section Config.

Variable rt : Runtime.

Lemma same_config_refl w : same_config w w.
Proof. unfold same_config. auto 10. Qed.

Lemma same_config_trans w1 w2 w3 :
  same_config w1 w2 -> same_config w2 w3 -> same_config w1 w3.
Proof.
  unfold same_config.
  intros (A & B & C & D & E & F) (A' & B' & C' & D' & E' & F').
  repeat split; try congruence. lia.
Qed.

Lemma jsonrpc_same_config req w :
  same_config w (snd (_handle_jsonrpc rt req w)).
Proof.
  destruct (jsonrpc_world rt req w) as [E | [_ E]]; rewrite E.
  - apply same_config_refl.
  - unfold same_config, initialized_world. simpl. auto 10.
Qed.

Lemma dispatch_all_same_config reqs w :
  same_config w (snd (dispatch_all rt reqs w)).
Proof.
  revert w. induction reqs as [|req rest IH]; intro w; simpl.
  - apply same_config_refl.
  - pose proof (jsonrpc_same_config req w) as J.
    destruct (_handle_jsonrpc rt req w) as [[r|e] w1]; simpl in J; auto.
    specialize (IH w1).
    destruct (dispatch_all rt rest w1) as [[rs|e] w2]; simpl in *;
      eapply same_config_trans; eauto.
Qed.

Lemma handle_post_same_config body w :
  same_config w (snd (handle_post rt body w)).
Proof.
  destruct (json_loads rt body) as [j|e] eqn:L.
  - destruct (is_array j) eqn:A.
    + destruct j; try discriminate.
      rewrite (handle_post_batch rt body l w L).
      pose proof (dispatch_all_same_config l w) as D.
      destruct (dispatch_all rt l w) as [[rs|e] w']; exact D.
    + rewrite (handle_post_single rt body j w L A).
      pose proof (jsonrpc_same_config j w) as J.
      destruct (_handle_jsonrpc rt j w) as [[r|e] w']; [destruct r|];
        exact J.
  - rewrite (handle_post_unparsed rt body e w L). apply same_config_refl.
Qed.

Lemma route_same_config request method path headers w :
  same_config w (snd (route rt request method path headers w)).
Proof.
  destruct (String.eqb method "OPTIONS") eqn:E1;
    [unfold route; rewrite E1; apply same_config_refl|].
  destruct (String.eqb method "DELETE" && String.eqb path "/mcp") eqn:E2.
  { apply andb_true_iff in E2 as [M P].
    apply String.eqb_eq in M, P. subst. rewrite route_delete.
    destruct (session_eqb _ _); simpl; [|apply same_config_refl].
    unfold same_config, cleared. simpl. auto 10. }
  destruct (String.eqb method "POST" && String.eqb path "/mcp") eqn:E3.
  { apply andb_true_iff in E3 as [M P].
    apply String.eqb_eq in M, P. subst. rewrite route_post.
    destruct (PyStr.find PyStr.CRLFCRLF request =? -1)%Z;
      [apply same_config_refl | apply handle_post_same_config]. }
  unfold route. rewrite E1, E2, E3.
  destruct (String.eqb method "GET" && String.eqb path "/mcp");
    [apply same_config_refl|].
  destruct (String.eqb method "GET" && String.eqb path "/");
    [|apply same_config_refl].
  munfold. destruct (status_page rt (srv w)); apply same_config_refl.
Qed.

Lemma handle_request_same_config :
  forall w raw, same_config w (fst (_handle_request rt w raw)).
Proof.
  intros w raw.
  destruct (frame rt raw) as [[[[request method] path] hs]|] eqn:F.
  - rewrite (handle_request_framed rt raw _ _ _ _ w F).
    pose proof (route_same_config request method path hs w) as R.
    destruct (route rt request method path hs w) as [[sent|e] w']; exact R.
  - destruct (bytes_decode rt raw) as [request|e] eqn:D.
    + rewrite (handle_request_unframed rt raw request w D F).
      apply same_config_refl.
    + rewrite (handle_request_undecodable rt raw e w D).
      apply same_config_refl.
Qed.

(** X5 -- handling a request never alters the configuration of the server:
    whatever bytes arrive, the name, the version, the protocol version, the
    tool registry and the resource registry are afterwards what they were
    before (only the session slot and the timer move). *)
Theorem request_keeps_config :
  forall w raw, same_config w (fst (_handle_request rt w raw)).
Proof. exact handle_request_same_config. Qed.

End Config.

(** ** Routing *)

Section Routing.

Variable rt : Runtime.

Lemma handle_post_one_reply body w :
  exists r w', handle_post rt body w = (Ret [r], w').
Proof.
  destruct (json_loads rt body) as [j|e] eqn:L.
  - destruct (is_array j) eqn:A.
    + destruct j; try discriminate.
      rewrite (handle_post_batch rt body l w L).
      destruct (dispatch_all rt l w) as [[rs|e] w']; eauto.
    + rewrite (handle_post_single rt body j w L A).
      destruct (_handle_jsonrpc rt j w) as [[r|e] w']; [destruct r|]; eauto.
  - rewrite (handle_post_unparsed rt body e w L). eauto.
Qed.

Lemma handle_request_posted w raw body :
  posted rt raw body ->
  _handle_request rt w raw = answered rt (handle_post rt body w).
Proof.
  intros (request & hs & F & B).
  rewrite (handle_request_framed rt raw _ _ _ _ w F), route_post.
  unfold body_text in B.
  destruct (PyStr.find PyStr.CRLFCRLF request =? -1)%Z; [discriminate|].
  now injection B as ->.
Qed.

(** X6 -- the routes that neither dispatch nor end a session: OPTIONS on
    any path (also /mcp, also with a session header) is answered 204 with
    an empty text/plain body; GET /mcp is answered 501; every method and
    path without a branch of its own (POST or DELETE on another path, GET
    on another path, any other method, a method in lower case) is answered
    404 "Not Found".  None of them changes the world. *)
Theorem routing_table :
  forall w raw request method path hs,
    frame rt raw = Some (request, method, path, hs) ->
    (method = "OPTIONS" ->
     _handle_request rt w raw
     = (w, [_send_http_response (srv w) "204 No Content" "text/plain" ""
              None]))
    /\ (method = "GET" -> path = "/mcp" ->
        _handle_request rt w raw
        = (w, [_send_http_response (srv w) "501 Not Implemented"
                 "application/json" (not_implemented_body rt) None]))
    /\ (is_routed method path = false ->
        _handle_request rt w raw
        = (w, [_send_http_response (srv w) "404 Not Found" "text/plain"
                 "Not Found" None])).
Proof.
  intros w raw request method path hs F.
  rewrite (handle_request_framed rt raw _ _ _ _ w F).
  split; [|split].
  - intros ->. reflexivity.
  - intros -> ->. reflexivity.
  - unfold is_routed. intro H.
    repeat (apply orb_false_iff in H; destruct H as [H ?]).
    unfold route.
    repeat match goal with
           | X : _ = false |- _ => rewrite X; clear X
           end.
    reflexivity.
Qed.

Lemma handle_request_one_or_none :
  forall w raw,
    (exists r, snd (_handle_request rt w raw) = [r])
    \/ (_handle_request rt w raw = (w, [])
        /\ exists request,
             bytes_decode rt raw = Ret request
             /\ (frame rt raw = None
                 \/ exists hs,
                      frame rt raw = Some (request, "POST", "/mcp", hs)
                      /\ body_text request = None)).
Proof.
  intros w raw.
  destruct (frame rt raw) as [[[[request method] path] hs]|] eqn:F.
  - rewrite (handle_request_framed rt raw _ _ _ _ w F).
    assert (D : bytes_decode rt raw = Ret request).
    { unfold frame in F. destruct (bytes_decode rt raw) as [t|]; [|discriminate].
      destruct (PyStr.split PyStr.CRLF t) as [|l0 rest]; [discriminate|].
      destruct (PyStr.split_ws l0) as [|m [|p more]]; try discriminate.
      now injection F as -> _ _ _. }
    destruct (String.eqb method "OPTIONS") eqn:E1.
    { left. unfold route. rewrite E1. simpl. eauto. }
    destruct (String.eqb method "DELETE" && String.eqb path "/mcp") eqn:E2.
    { left. apply andb_true_iff in E2 as [M P].
      apply String.eqb_eq in M, P. subst. rewrite route_delete.
      destruct (session_eqb _ _); simpl; eauto. }
    destruct (String.eqb method "POST" && String.eqb path "/mcp") eqn:E3.
    { apply andb_true_iff in E3 as [M P].
      apply String.eqb_eq in M, P. subst. rewrite route_post.
      destruct (PyStr.find PyStr.CRLFCRLF request =? -1)%Z eqn:T.
      - right. split; [reflexivity|]. exists request. split; auto.
        right. exists hs. split; auto. unfold body_text. now rewrite T.
      - left. destruct (handle_post_one_reply
                          (PyStr.drop
                             (Z.to_nat
                                (PyStr.find PyStr.CRLFCRLF request + 4))
                             request) w) as (r & w' & ->).
        simpl. eauto. }
    left. unfold route. rewrite E1, E2, E3.
    destruct (String.eqb method "GET" && String.eqb path "/mcp");
      [simpl; eauto|].
    destruct (String.eqb method "GET" && String.eqb path "/");
      [|simpl; eauto].
    munfold. destruct (status_page rt (srv w)); simpl; eauto.
  - destruct (bytes_decode rt raw) as [request|e] eqn:D.
    + right. rewrite (handle_request_unframed rt raw request w D F).
      split; auto. exists request. auto.
    + left. rewrite (handle_request_undecodable rt raw e w D). simpl. eauto.
Qed.

(** X7 -- a handled request is answered with exactly one reply, except in
    two cases in which nothing at all is written and the world is
    unchanged: the first line of the decoded request has fewer than two
    words, or the request is a POST to /mcp with no blank line in its
    text. *)
Theorem one_reply_or_silence :
  forall w raw,
    (exists r, snd (_handle_request rt w raw) = [r])
    \/ (_handle_request rt w raw = (w, [])
        /\ exists request,
             bytes_decode rt raw = Ret request
             /\ (frame rt raw = None
                 \/ exists hs,
                      frame rt raw = Some (request, "POST", "/mcp", hs)
                      /\ body_text request = None)).
Proof. exact handle_request_one_or_none. Qed.

(** *** The header block *)

Lemma plain_reply_headers self r :
  plain_reply self r ->
  exists content_type,
    headers r = standard_headers self content_type (body r).
Proof.
  intros (st & ct & b & ->). exists ct.
  unfold _send_http_response, standard_headers, session_header. simpl.
  destruct (_session_id self) as [sid|]; [destruct (PyStr.truthy sid)|];
    reflexivity.
Qed.

Lemma post_reply_headers self r :
  post_reply self r ->
  exists content_type,
    headers r = standard_headers self content_type (body r).
Proof.
  intros (b & ->). exists "application/json".
  unfold ok_response, _send_http_response, standard_headers. simpl.
  destruct (_session_id self) as [sid|]; simpl; now rewrite ?app_nil_r.
Qed.

(** X8 -- the header block of every reply is, in this order: Content-Type,
    the three CORS headers, the header Mcp-Session-Id with the token stored
    when the reply is written if there is one (once, and never another
    token), and Content-Length with the length of the body in decimal. *)
Theorem reply_header_block :
  forall w raw,
    Forall (fun r =>
              exists content_type,
                headers r
                = standard_headers (srv (fst (_handle_request rt w raw)))
                    content_type (body r))
           (snd (_handle_request rt w raw)).
Proof.
  intros w raw.
  eapply Forall_impl; [|apply handle_request_replies].
  simpl. intros r [H | [_ H]].
  - now apply plain_reply_headers.
  - now apply post_reply_headers.
Qed.

(** *** Notifications and unparsable bodies *)

Lemma notification_dispatch req w :
  is_notification req = true -> _handle_jsonrpc rt req w = (Ret JNull, w).
Proof.
  destruct req; try discriminate. simpl. intro M.
  apply eq_str_true in M. rewrite handle_jsonrpc_object, M. reflexivity.
Qed.

Lemma notifications_dispatch_all reqs w :
  forallb is_notification reqs = true ->
  dispatch_all rt reqs w = (Ret [], w).
Proof.
  induction reqs as [|req rest IH]; simpl; auto.
  intro H. apply andb_true_iff in H as [N H].
  now rewrite (notification_dispatch req w N), (IH H).
Qed.

(** X9 -- a POST whose body is one [initialized] notification is answered
    204 No Content with an empty body, while a POST whose body is a batch
    made of such notifications only (the empty batch included) is answered
    200 OK with the serialization of the empty list; in both cases the
    world is unchanged. *)
Theorem notifications_only :
  forall w raw body,
    posted rt raw body ->
    (forall req,
       json_loads rt body = Ret req -> is_notification req = true ->
       _handle_request rt w raw = (w, [no_content (srv w)]))
    /\ (forall reqs,
          json_loads rt body = Ret (JArr reqs) ->
          forallb is_notification reqs = true ->
          _handle_request rt w raw
          = (w, [ok_response (srv w) (json_dumps rt (JArr []))])).
Proof.
  intros w raw body P. rewrite (handle_request_posted w raw body P).
  split.
  - intros req L N.
    assert (A : is_array req = false) by (destruct req; auto; discriminate).
    now rewrite (handle_post_single rt body req w L A),
      (notification_dispatch req w N).
  - intros reqs L N.
    now rewrite (handle_post_batch rt body reqs w L),
      (notifications_dispatch_all reqs w N).
Qed.

(** X10 -- a POST to /mcp whose body the JSON parser rejects is answered
    400 Bad Request with a JSON-RPC error body of code -32700 that carries
    the parser's message; nothing is dispatched and the world is
    unchanged. *)
Theorem unparsable_body_rejected :
  forall w raw text e,
    posted rt raw text ->
    json_loads rt text = Raise e ->
    _handle_request rt w raw = (w, [parse_error rt (srv w) e])
    /\ status (parse_error rt (srv w) e) = "400 Bad Request"
    /\ body (parse_error rt (srv w) e)
       = json_dumps rt
           (JObj [("jsonrpc", JStr "2.0");
                  ("error",
                   error_object (-32700)
                     (JStr ("Parse error: " ++ str_exn e)))]).
Proof.
  intros w raw text e P L.
  rewrite (handle_request_posted w raw text P),
    (handle_post_unparsed rt text e w L).
  repeat split.
Qed.

End Routing.

Lemma routing_table_witness :
  _handle_request Demo.rt HeaderDemo.w1
    (Demo.http "OPTIONS /mcp HTTP/1.1" ["Mcp-Session-Id: e6610f-1000"] "")
  = (HeaderDemo.w1,
     [_send_http_response (srv HeaderDemo.w1) "204 No Content" "text/plain"
        "" None])
  /\ _handle_request Demo.rt Demo.w0 (Demo.http "GET /mcp HTTP/1.1" [] "")
     = (Demo.w0,
        [_send_http_response Demo.server "501 Not Implemented"
           "application/json" (not_implemented_body Demo.rt) None])
  /\ _handle_request Demo.rt Demo.w0 (Demo.http "POST /mcp/ HTTP/1.1" [] "{}")
     = (Demo.w0,
        [_send_http_response Demo.server "404 Not Found" "text/plain"
           "Not Found" None]).
Proof.
  split; [|split].
  - apply (routing_table Demo.rt HeaderDemo.w1
             (Demo.http "OPTIONS /mcp HTTP/1.1"
                ["Mcp-Session-Id: e6610f-1000"] "")
             ("OPTIONS /mcp HTTP/1.1" ++ PyStr.CRLF
              ++ "Mcp-Session-Id: e6610f-1000" ++ PyStr.CRLF ++ PyStr.CRLF)
             "OPTIONS" "/mcp" [("mcp-session-id", "e6610f-1000")] eq_refl).
    reflexivity.
  - apply (routing_table Demo.rt Demo.w0
             (Demo.http "GET /mcp HTTP/1.1" [] "")
             ("GET /mcp HTTP/1.1" ++ PyStr.CRLF ++ PyStr.CRLF)
             "GET" "/mcp" [] eq_refl); reflexivity.
  - apply (routing_table Demo.rt Demo.w0
             (Demo.http "POST /mcp/ HTTP/1.1" [] "{}")
             ("POST /mcp/ HTTP/1.1" ++ PyStr.CRLF ++ PyStr.CRLF ++ "{}")
             "POST" "/mcp/" [] eq_refl); reflexivity.
Defined.

Lemma notifications_only_witness :
  _handle_request Demo.rt Demo.w0
    (Demo.http "POST /mcp HTTP/1.1" []
       ("{" ++ Demo.q "jsonrpc" ++ ":" ++ Demo.q "2.0" ++ ","
        ++ Demo.q "method" ++ ":" ++ Demo.q "initialized" ++ "}"))
  = (Demo.w0, [no_content Demo.server])
  /\ _handle_request Demo.rt Demo.w0 (Demo.http "POST /mcp HTTP/1.1" [] "[]")
     = (Demo.w0, [ok_response Demo.server "[]"]).
Proof.
  split.
  - refine (proj1 (notifications_only Demo.rt Demo.w0 _
                     ("{" ++ Demo.q "jsonrpc" ++ ":" ++ Demo.q "2.0" ++ ","
                      ++ Demo.q "method" ++ ":" ++ Demo.q "initialized"
                      ++ "}") _)
              (JObj [("jsonrpc", JStr "2.0"); ("method", JStr "initialized")])
              eq_refl eq_refl).
    eexists. exists []. split; reflexivity.
  - refine (proj2 (notifications_only Demo.rt Demo.w0 _ "[]" _)
              [] eq_refl eq_refl).
    eexists. exists []. split; reflexivity.
Defined.

Lemma unparsable_body_rejected_witness :
  _handle_request Demo.rt Demo.w0 (Demo.http "POST /mcp HTTP/1.1" [] "{bad")
  = (Demo.w0,
     [parse_error Demo.rt Demo.server (Raised "syntax error in JSON")]).
Proof.
  refine (proj1 (unparsable_body_rejected Demo.rt Demo.w0 _ "{bad"
                   (Raised "syntax error in JSON") _ eq_refl)).
  eexists. exists []. split; reflexivity.
Defined.

(** ** The life of a session *)

Section Lifecycle.

Variable rt : Runtime.

(** X11 -- a session from its creation to its end: a POST of an
    [initialize] request is answered 200 with the new token in the header
    Mcp-Session-Id (and in the result); a DELETE /mcp presenting that token
    is answered 200 with an empty JSON object and no session header, and
    empties the slot; the same DELETE sent once more is answered 404. *)
Theorem session_lifecycle :
  forall w post text d del request hs,
    posted rt post text ->
    json_loads rt text = Ret (JObj d) ->
    req_field d "method" JNull = JStr "initialize" ->
    frame rt del = Some (request, "DELETE", "/mcp", hs) ->
    Dict.get "mcp-session-id" hs = Some (token_at rt (ticks_read w)) ->
    let tok := token_at rt (ticks_read w) in
    let w1 := initialized_world rt w in
    let created :=
      ok_response (srv w1)
        (json_dumps rt
           (rpc_result (req_field d "id" JNull)
              (initialize_result (srv w) tok))) in
    let ended :=
      _send_http_response (srv (cleared w1)) "200 OK" "application/json"
        "{}" None in
    _handle_request rt w post = (w1, [created])
    /\ In ("Mcp-Session-Id", tok) (headers created)
    /\ _handle_request rt w1 del = (cleared w1, [ended])
    /\ ~ In "Mcp-Session-Id" (map fst (headers ended))
    /\ _handle_request rt (cleared w1) del
       = (cleared w1,
          [_send_http_response (srv (cleared w1)) "404 Not Found"
             "application/json" session_not_found_body None]).
Proof.
  intros w post text d del request hs P L M F G. cbv zeta.
  split; [|split; [|split; [|split]]].
  - rewrite (handle_request_posted rt w post text P),
      (handle_post_single rt text (JObj d) w L eq_refl),
      (initialize_call rt d w M).
    reflexivity.
  - apply post_reply_session_header with (srv (initialized_world rt w)).
    + unfold post_reply. eauto.
    + reflexivity.
    + apply token_truthy.
  - now apply (delete_presenting_token rt _ del request hs _ F G).
  - simpl. intuition discriminate.
  - apply (delete_presenting_token rt _ del request hs _ F G).
    discriminate.
Qed.

End Lifecycle.

Lemma session_lifecycle_witness :
  session_of (fst (_handle_request Demo.rt Demo.w0 HeaderDemo.initialize))
  = Some "e6610f-1000"
  /\ session_of
       (fst (_handle_request Demo.rt HeaderDemo.w1
               (Demo.http "DELETE /mcp HTTP/1.1"
                  ["Mcp-Session-Id: e6610f-1000"] "")))
     = None.
Proof.
  destruct (session_lifecycle Demo.rt Demo.w0 HeaderDemo.initialize
              ("{" ++ Demo.q "jsonrpc" ++ ":" ++ Demo.q "2.0" ++ ","
               ++ Demo.q "id" ++ ":1," ++ Demo.q "method" ++ ":"
               ++ Demo.q "initialize" ++ "}")
              [("jsonrpc", JStr "2.0"); ("id", JNum 1);
               ("method", JStr "initialize")]
              (Demo.http "DELETE /mcp HTTP/1.1"
                 ["Mcp-Session-Id: e6610f-1000"] "")
              ("DELETE /mcp HTTP/1.1" ++ PyStr.CRLF
               ++ "Mcp-Session-Id: e6610f-1000" ++ PyStr.CRLF ++ PyStr.CRLF)
              [("mcp-session-id", "e6610f-1000")])
    as (A & _ & B & _); try reflexivity.
  - eexists. exists [("content-type", "application/json")].
    split; reflexivity.
  - split.
    + rewrite A. reflexivity.
    + change HeaderDemo.w1 with (initialized_world Demo.rt Demo.w0).
      rewrite B. reflexivity.
Defined.

(** ** The status page *)

Section StatusPage.

Variable rt : Runtime.

Lemma set_described {V : Type} (schema_of : V -> json) (d : Dict.t V) k v :
  Forall (fun kv => described (schema_of (snd kv))) d ->
  described (schema_of v) ->
  Forall (fun kv => described (schema_of (snd kv))) (Dict.set k v d).
Proof.
  intros F H. induction d as [|[k' v'] d IH]; simpl.
  - constructor; auto.
  - inversion F as [|? ? Hv Hd]; subst.
    destruct (String.eqb k k'); constructor; auto.
Qed.

Lemma reachable_described w : reachable rt w -> registry_described (srv w).
Proof.
  induction 1 as [n v p | w n d s h R IH | w u n d m h R IH | w raw R IH];
    unfold registry_described in *; simpl.
  - split; constructor.
  - destruct IH as [T Rs]. split; auto.
    apply set_described; auto. unfold described. simpl. eauto.
  - destruct IH as [T Rs]. split; auto.
    apply set_described; auto. unfold described. simpl. eauto.
  - destruct (handle_request_same_config rt w raw) as (_ & _ & _ & T & Rs & _).
    now rewrite T, Rs.
Qed.

Lemma list_items_described entries :
  Forall (fun kv => described (snd kv)) entries ->
  exists html, list_items entries = Ret html.
Proof.
  induction 1 as [|[k schema] entries [desc D] F [html IH]]; simpl.
  - eauto.
  - simpl in D. rewrite D. simpl. rewrite IH. simpl. eauto.
Qed.

Lemma status_page_described self :
  registry_described self -> exists html, status_page rt self = Ret html.
Proof.
  intros [T R]. unfold status_page.
  destruct (list_items_described
              (map (fun kv => (fst kv, tool_schema (snd kv)))
                 (dict_items rt (_tools self))))
    as [th ->].
  { rewrite Forall_map. apply Forall_forall. intros kv H.
    exact (proj1 (Forall_forall _ _) T kv (dict_items_In rt _ kv H)). }
  destruct (list_items_described
              (map (fun kv => (fst kv, res_schema (snd kv)))
                 (dict_items rt (_resources self)))) as [rh ->].
  { rewrite Forall_map. apply Forall_forall. intros kv H.
    exact (proj1 (Forall_forall _ _) R kv (dict_items_In rt _ kv H)). }
  simpl. eauto.
Qed.

(** X12 -- in every world the server can reach, GET / is answered 200 with
    a text/html page: building the page never fails on registries filled by
    the registration functions, so the request is never answered 500; the
    world is unchanged. *)
Theorem status_page_served :
  forall w raw request hs,
    reachable rt w ->
    frame rt raw = Some (request, "GET", "/", hs) ->
    exists html,
      status_page rt (srv w) = Ret html
      /\ _handle_request rt w raw
         = (w, [_send_http_response (srv w) "200 OK" "text/html" html None]).
Proof.
  intros w raw request hs R F.
  destruct (status_page_described (srv w) (reachable_described w R))
    as [html E].
  exists html. split; auto.
  rewrite (handle_request_framed rt raw _ _ _ _ w F).
  unfold route. simpl. munfold. now rewrite E.
Qed.

End StatusPage.

Lemma status_page_served_witness :
  exists html,
    _handle_request Demo.rt HeaderDemo.w1 (Demo.http "GET / HTTP/1.1" [] "")
    = (HeaderDemo.w1,
       [_send_http_response (srv HeaderDemo.w1) "200 OK" "text/html" html
          None]).
Proof.
  destruct (status_page_served Demo.rt HeaderDemo.w1
              (Demo.http "GET / HTTP/1.1" [] "")
              ("GET / HTTP/1.1" ++ PyStr.CRLF ++ PyStr.CRLF) []
              w1_reachable eq_refl) as (html & _ & E).
  exists html. exact E.
Defined.

(** ** Header lines *)

Lemma find_from_eq sub s i :
  PyStr.find_from sub s i
  = if String.prefix sub s then i
    else match s with
         | EmptyString => (-1)%Z
         | String _ s' => PyStr.find_from sub s' (i + 1)%Z
         end.
Proof. destruct s; reflexivity. Qed.

Lemma occurs_eq sub s :
  occurs sub s
  = String.prefix sub s
    || match s with
       | EmptyString => false
       | String _ s' => occurs sub s'
       end.
Proof. destruct s; reflexivity. Qed.

Lemma find_from_occurs sub s i :
  (0 <= i)%Z ->
  (PyStr.find_from sub s i =? -1)%Z = negb (occurs sub s).
Proof.
  revert i. induction s as [|c s IH]; intros i Hi;
    rewrite find_from_eq, occurs_eq;
    destruct (String.prefix sub _); simpl; try reflexivity;
    try (apply Z.eqb_neq; lia).
  apply IH. lia.
Qed.

Lemma contains_occurs sub s : PyStr.contains sub s = occurs sub s.
Proof.
  unfold PyStr.contains, PyStr.find.
  rewrite find_from_occurs by lia. apply negb_involutive.
Qed.

Lemma prefix_nil s : String.prefix "" s = true.
Proof. destruct s; reflexivity. Qed.

Lemma prefix_cons a s1 b s2 :
  String.prefix (String a s1) (String b s2)
  = if ascii_dec a b then String.prefix s1 s2 else false.
Proof. reflexivity. Qed.

Lemma prefix_app sub v : String.prefix sub (sub ++ v) = true.
Proof.
  induction sub as [|c sub IH]; simpl.
  - destruct v; reflexivity.
  - destruct (ascii_dec c c); [exact IH | congruence].
Qed.

Lemma occurs_app sub a v : occurs sub (a ++ sub ++ v) = true.
Proof.
  induction a as [|c a IH].
  - simpl append. rewrite occurs_eq, prefix_app. reflexivity.
  - simpl append. rewrite occurs_eq, IH. apply orb_true_r.
Qed.

Lemma drop_app sub v : PyStr.drop (String.length sub) (sub ++ v) = v.
Proof. induction sub as [|c sub IH]; simpl; auto. Qed.

(** The first occurrence of [": "] in [key ++ ": " ++ value] is the one
    after [key], when [key] has none. *)
Lemma split_once_colon key value :
  occurs ": " key = false ->
  PyStr.split_once ": " (key ++ ": " ++ value) = (key, value).
Proof.
  induction key as [|c key IH]; intro H.
  - destruct value; reflexivity.
  - rewrite occurs_eq in H. apply orb_false_iff in H as [P O].
    change (PyStr.split_once ": " (String c key ++ ": " ++ value))
      with (if String.prefix ": " (String c (key ++ ": " ++ value))
            then ("", PyStr.drop 2 (String c (key ++ ": " ++ value)))
            else let (a, b) := PyStr.split_once ": " (key ++ ": " ++ value)
                 in (String c a, b)).
    assert (Q : String.prefix ": " (String c (key ++ ": " ++ value)) = false).
    { change ": " with (String ":" " ") in *.
      rewrite prefix_cons in *.
      destruct (ascii_dec ":" c) as [E|E]; [|reflexivity].
      destruct key as [|c2 key]; [reflexivity|].
      change (String c2 key ++ String ":" " " ++ value)
        with (String c2 (key ++ String ":" " " ++ value)).
      change " " with (String " " "") in *.
      rewrite prefix_cons in *.
      destruct (ascii_dec " " c2); [|reflexivity].
      rewrite prefix_nil in P. discriminate P. }
    rewrite Q, (IH O). reflexivity.
Qed.

Lemma parse_headers_app l1 l2 d :
  parse_headers (l1 ++ l2) d = parse_headers l2 (parse_headers l1 d).
Proof.
  revert d. induction l1 as [|line l1 IH]; intro d; simpl; auto.
  destruct (PyStr.contains ": " line); auto.
  destruct (PyStr.split_once ": " line). apply IH.
Qed.

Lemma parse_headers_one line d :
  parse_headers [line] d
  = if PyStr.contains ": " line
    then let (key, value) := PyStr.split_once ": " line in
         Dict.set (PyStr.lower key) value d
    else d.
Proof.
  simpl. destruct (PyStr.contains ": " line);
    [destruct (PyStr.split_once ": " line)|]; reflexivity.
Qed.

(** X13 -- header lines are read in order and a later line replaces an
    earlier one of the same name, names being compared without regard to
    letter case: after a line [key: value] (with no colon-space inside
    [key]) the header [key.lower()] has that value, whatever came before.
    A line without a colon followed by a space, such as
    [Mcp-Session-Id:token], is not a header at all. *)
Theorem header_lines_last_wins :
  forall lines key value line d,
    PyStr.contains ": " key = false ->
    PyStr.contains ": " line = false ->
    Dict.get (PyStr.lower key)
      (parse_headers (lines ++ [key ++ ": " ++ value]) d)
    = Some value
    /\ parse_headers (lines ++ [line]) d = parse_headers lines d.
Proof.
  intros lines key value line d K L.
  rewrite !parse_headers_app, !parse_headers_one, L. split; [|reflexivity].
  rewrite contains_occurs in K.
  rewrite contains_occurs, occurs_app, (split_once_colon key value K).
  apply get_set_same.
Qed.

Lemma header_lines_last_wins_witness :
  Dict.get "mcp-session-id"
    (parse_headers
       (["Mcp-Session-Id: first"; "Host: pico"]
        ++ ["MCP-SESSION-ID" ++ ": " ++ "second"]) Dict.empty)
  = Some "second"
  /\ parse_headers
       (["Mcp-Session-Id: first"; "Host: pico"] ++ ["Mcp-Session-Id:token"])
       Dict.empty
     = parse_headers ["Mcp-Session-Id: first"; "Host: pico"] Dict.empty.
Proof.
  apply (header_lines_last_wins ["Mcp-Session-Id: first"; "Host: pico"]
           "MCP-SESSION-ID" "second" "Mcp-Session-Id:token" Dict.empty);
    reflexivity.
Defined.

(** ** Searching in bytes *)

Lemma is_prefix_app sub a b :
  PyBytes.is_prefix sub a = true -> PyBytes.is_prefix sub (a ++ b) = true.
Proof.
  revert a. induction sub as [|x sub IH]; intros a H; simpl in *; auto.
  destruct a as [|y a]; [discriminate|]. simpl.
  apply andb_true_iff in H as [E H]. rewrite E. simpl. auto.
Qed.

Lemma is_prefix_length sub a :
  PyBytes.is_prefix sub a = true -> List.length sub <= List.length a.
Proof.
  revert a. induction sub as [|x sub IH]; intros a H; simpl in *; [lia|].
  destruct a as [|y a]; [discriminate|]. simpl.
  apply andb_true_iff in H as [_ H]. apply IH in H. lia.
Qed.

Lemma is_prefix_app_false sub a b :
  PyBytes.is_prefix sub a = false ->
  List.length sub <= List.length a ->
  PyBytes.is_prefix sub (a ++ b) = false.
Proof.
  revert a. induction sub as [|x sub IH]; intros a H L; simpl in *;
    [discriminate|].
  destruct a as [|y a]; simpl in *; [lia|].
  apply andb_false_iff in H as [E | H].
  - now rewrite E.
  - rewrite (IH a H) by lia. apply andb_false_r.
Qed.

Lemma bytes_find_from_eq sub b i :
  PyBytes.find_from sub b i
  = if PyBytes.is_prefix sub b then i
    else match b with
         | [] => (-1)%Z
         | _ :: b' => PyBytes.find_from sub b' (i + 1)%Z
         end.
Proof. destruct b; reflexivity. Qed.

(** A match lies inside the bytes searched. *)
Lemma find_from_range sub b i :
  (0 <= i)%Z ->
  PyBytes.find_from sub b i = (-1)%Z
  \/ (i <= PyBytes.find_from sub b i
      /\ PyBytes.find_from sub b i - i + Z.of_nat (List.length sub)
         <= Z.of_nat (List.length b))%Z.
Proof.
  revert i. induction b as [|y b IH]; intros i Hi; rewrite bytes_find_from_eq.
  - destruct (PyBytes.is_prefix sub []) eqn:P; auto.
    apply is_prefix_length in P. right. simpl in *. lia.
  - destruct (PyBytes.is_prefix sub (y :: b)) eqn:P.
    + apply is_prefix_length in P. right. simpl in *. lia.
    + destruct (IH (i + 1)%Z) as [E | [A B]]; [lia | auto |].
      right. simpl List.length. lia.
Qed.

Lemma find_from_app sub a b i :
  (0 <= i)%Z ->
  PyBytes.find_from sub a i <> (-1)%Z ->
  PyBytes.find_from sub (a ++ b) i = PyBytes.find_from sub a i.
Proof.
  revert i. induction a as [|y a IH]; intros i Hi H;
    rewrite bytes_find_from_eq in H; rewrite (bytes_find_from_eq sub (_ ++ b)).
  - destruct (PyBytes.is_prefix sub []) eqn:P; [|congruence].
    now rewrite (is_prefix_app sub [] b P), bytes_find_from_eq, P.
  - rewrite (bytes_find_from_eq sub (y :: a)).
    destruct (PyBytes.is_prefix sub (y :: a)) eqn:P.
    + now rewrite (is_prefix_app sub (y :: a) b P).
    + assert (L : List.length sub <= List.length (y :: a)).
      { destruct (find_from_range sub a (i + 1)%Z) as [E | [A B]];
          [lia | congruence |]. simpl. lia. }
      rewrite (is_prefix_app_false sub (y :: a) b P L). simpl.
      apply IH; [lia | exact H].
Qed.

Lemma contains_app sub a b :
  PyBytes.contains sub a = true ->
  PyBytes.contains sub (a ++ b) = true
  /\ PyBytes.find sub (a ++ b) = PyBytes.find sub a.
Proof.
  unfold PyBytes.contains, PyBytes.find. intro H.
  apply negb_true_iff, Z.eqb_neq in H.
  rewrite (find_from_app sub a b 0%Z) by (lia || assumption).
  split; auto. now apply negb_true_iff, Z.eqb_neq.
Qed.

Lemma contains_prefix_false sub a b :
  PyBytes.contains sub (a ++ b) = false -> PyBytes.contains sub a = false.
Proof.
  intro H. destruct (PyBytes.contains sub a) eqn:E; auto.
  apply (contains_app sub a b) in E as [E _]. congruence.
Qed.

Lemma find_bounds sub b :
  PyBytes.contains sub b = true ->
  (0 <= PyBytes.find sub b
   /\ PyBytes.find sub b + Z.of_nat (List.length sub)
      <= Z.of_nat (List.length b))%Z.
Proof.
  unfold PyBytes.contains, PyBytes.find. intro H.
  apply negb_true_iff, Z.eqb_neq in H.
  destruct (find_from_range sub b 0%Z) as [E | [A B]]; [lia | congruence | lia].
Qed.

(** ** Reading from the socket *)

Lemma recv_conserves n client :
  (fst (recv n client) ++ sent_bytes (snd (recv n client)))%list
  = sent_bytes client.
Proof.
  unfold recv, sent_bytes. destruct client as [|segment rest]; simpl; auto.
  destruct (List.length segment <=? n)%nat; simpl; auto.
  now rewrite app_assoc, firstn_skipn.
Qed.

Lemma recv_length n client : List.length (fst (recv n client)) <= n.
Proof.
  unfold recv. destruct client as [|segment rest]; simpl; [lia|].
  destruct (List.length segment <=? n)%nat eqn:E; simpl.
  - now apply Nat.leb_le.
  - rewrite length_firstn. lia.
Qed.

Lemma recv_live n client :
  live client -> 0 < n ->
  live (snd (recv n client))
  /\ (fst (recv n client) = [] -> client = [] /\ snd (recv n client) = []).
Proof.
  unfold live, recv. intros L N. destruct client as [|segment rest]; simpl.
  - auto.
  - inversion L as [|? ? S R]; subst.
    destruct (List.length segment <=? n)%nat eqn:E; simpl.
    + split; auto. intro H. contradiction.
    + apply Nat.leb_gt in E. split.
      * constructor; auto. intro H.
        apply (f_equal (@List.length _)) in H. rewrite length_skipn in H.
        simpl in H. lia.
      * intro H. apply (f_equal (@List.length _)) in H.
        rewrite length_firstn in H. simpl in H. lia.
Qed.

Lemma recv_closed n : recv n [] = ([], []).
Proof. reflexivity. Qed.

Lemma live_nothing_sent client :
  live client -> sent_bytes client = [] -> client = [].
Proof.
  unfold live, sent_bytes. intros L H. destruct client as [|s rest]; auto.
  inversion L; subst. simpl in H. apply app_eq_nil in H as [H _].
  contradiction.
Qed.

Lemma before_app sub a b :
  PyBytes.contains sub a = true ->
  PyBytes.before sub (a ++ b) = PyBytes.before sub a.
Proof.
  intro H. unfold PyBytes.before.
  destruct (contains_app sub a b H) as [C F]. rewrite C, F, H.
  destruct (find_bounds sub a H) as [L U].
  rewrite firstn_app.
  replace (Z.to_nat (PyBytes.find sub a) - List.length a) with 0 by lia.
  simpl. apply app_nil_r.
Qed.

Lemma recv_pending n client :
  fst (recv n client) <> [] ->
  List.length (sent_bytes (snd (recv n client)))
  < List.length (sent_bytes client).
Proof.
  intro H. rewrite <- (recv_conserves n client), length_app.
  destruct (fst (recv n client)); [contradiction | simpl; lia].
Qed.

Section Loops.

Variable rt : Runtime.
Variable py_int : string -> Result Z.

Lemma header_loop_conserves fuel client request :
  let '(request', _, client') := header_loop rt py_int fuel client request in
  (request' ++ sent_bytes client')%list
  = (request ++ sent_bytes client)%list.
Proof.
  revert client request.
  induction fuel as [|fuel IH]; intros client request; simpl; auto.
  pose proof (recv_conserves 1024 client) as R.
  destruct (recv 1024 client) as [chunk client']. simpl in R.
  destruct chunk as [|b chunk]; [now rewrite <- R|].
  destruct (PyBytes.contains PyBytes.CRLFCRLF (request ++ b :: chunk)).
  - now rewrite <- R, app_assoc.
  - specialize (IH client' (request ++ b :: chunk)%list).
    destruct (header_loop rt py_int fuel client' _) as [[r n] c].
    now rewrite IH, <- R, app_assoc.
Qed.

Lemma body_loop_conserves fuel client request headers_end content_length :
  let '(request', client') :=
    body_loop fuel client request headers_end content_length in
  (request' ++ sent_bytes client')%list
  = (request ++ sent_bytes client)%list.
Proof.
  revert client request.
  induction fuel as [|fuel IH]; intros client request; simpl; auto.
  destruct (_ <? content_length)%Z; auto.
  pose proof (recv_conserves
                (Z.to_nat
                   (Z.min 1024
                      (content_length
                       - (Z.of_nat (List.length request) - headers_end))))
                client) as R.
  destruct (recv _ client) as [chunk client']. simpl in R.
  destruct chunk as [|b chunk]; [now rewrite <- R|].
  specialize (IH client' (request ++ b :: chunk)%list).
  destruct (body_loop fuel client' _ headers_end content_length) as [r c].
  now rewrite IH, <- R, app_assoc.
Qed.

(** X14 -- the bytes handed to the request parser, followed by the bytes
    left in the socket, are the bytes the peer sent: the two loops neither
    drop, nor repeat, nor reorder anything, whatever the segments. *)
Theorem receive_conserves :
  forall client,
    (fst (receive rt py_int client)
     ++ sent_bytes (snd (receive rt py_int client)))%list
    = sent_bytes client.
Proof.
  intro client. unfold receive.
  pose proof (header_loop_conserves (passes client) client []) as H.
  destruct (header_loop rt py_int (passes client) client [])
    as [[request n] client1].
  simpl in H. destruct (0 <? n)%Z; [|exact H].
  pose proof (body_loop_conserves (passes client1) client1 request
                (PyBytes.find PyBytes.CRLFCRLF request + 4) n) as B.
  destruct (body_loop _ client1 request _ n) as [r c]. simpl.
  now rewrite B.
Qed.

Lemma header_loop_no_blank fuel client request :
  live client ->
  PyBytes.contains PyBytes.CRLFCRLF (request ++ sent_bytes client) = false ->
  List.length (sent_bytes client) < fuel ->
  header_loop rt py_int fuel client request
  = ((request ++ sent_bytes client)%list, 0%Z, []).
Proof.
  revert client request.
  induction fuel as [|fuel IH]; intros client request L C F; [lia|].
  simpl.
  pose proof (recv_conserves 1024 client) as R.
  pose proof (recv_live 1024 client L ltac:(lia)) as [L' E].
  pose proof (recv_pending 1024 client) as P.
  destruct (recv 1024 client) as [chunk client']. simpl in *.
  destruct chunk as [|b chunk].
  - destruct (E eq_refl) as [-> ->]. unfold sent_bytes. simpl.
    now rewrite app_nil_r.
  - rewrite <- R, app_assoc in C.
    rewrite (contains_prefix_false _ _ _ C).
    rewrite IH; auto.
    + now rewrite <- R, app_assoc.
    + assert (b :: chunk <> []) by discriminate. specialize (P H). lia.
Qed.

(** X15 -- when no blank line ever arrives, the first loop reads until the
    peer closes: the request is everything that was sent, no body is
    awaited and nothing is left in the socket. *)
Theorem receive_without_blank_line :
  forall client,
    live client ->
    PyBytes.contains PyBytes.CRLFCRLF (sent_bytes client) = false ->
    receive rt py_int client = (sent_bytes client, []).
Proof.
  intros client L C. unfold receive, passes.
  rewrite (header_loop_no_blank _ client [] L C) by lia. reflexivity.
Qed.

Lemma header_loop_blank fuel client request :
  live client ->
  PyBytes.contains PyBytes.CRLFCRLF request = false ->
  PyBytes.contains PyBytes.CRLFCRLF (request ++ sent_bytes client) = true ->
  List.length (sent_bytes client) < fuel ->
  exists request1 client1,
    header_loop rt py_int fuel client request
    = (request1, parse_content_length rt py_int request1, client1)
    /\ PyBytes.contains PyBytes.CRLFCRLF request1 = true
    /\ (request1 ++ sent_bytes client1)%list
       = (request ++ sent_bytes client)%list
    /\ live client1.
Proof.
  revert client request.
  induction fuel as [|fuel IH]; intros client request L N C F; [lia|].
  simpl.
  pose proof (recv_conserves 1024 client) as R.
  pose proof (recv_live 1024 client L ltac:(lia)) as [L' E].
  pose proof (recv_pending 1024 client) as P.
  destruct (recv 1024 client) as [chunk client']. simpl in *.
  destruct chunk as [|b chunk].
  - destruct (E eq_refl) as [-> _]. unfold sent_bytes in C. simpl in C.
    rewrite app_nil_r in C. congruence.
  - destruct (PyBytes.contains PyBytes.CRLFCRLF (request ++ b :: chunk))
      eqn:X.
    + exists (request ++ b :: chunk)%list, client'.
      repeat split; auto. now rewrite <- R, app_assoc.
    + destruct (IH client' (request ++ b :: chunk)%list L' X)
        as (r1 & c1 & H1 & H2 & H3 & H4).
      * now rewrite <- app_assoc, R.
      * assert (b :: chunk <> []) by discriminate. specialize (P H). lia.
      * exists r1, c1. repeat split; auto.
        now rewrite H3, <- R, app_assoc.
Qed.

Lemma body_loop_spec fuel client request headers_end content_length :
  live client ->
  List.length (sent_bytes client) < fuel ->
  let missing :=
    Z.to_nat
      (content_length - (Z.of_nat (List.length request) - headers_end)) in
  exists client',
    body_loop fuel client request headers_end content_length
    = ((request ++ firstn missing (sent_bytes client))%list, client')
    /\ sent_bytes client' = skipn missing (sent_bytes client)
    /\ live client'.
Proof.
  revert client request.
  induction fuel as [|fuel IH]; intros client request L F; [lia|].
  cbv zeta. simpl.
  destruct (_ <? content_length)%Z eqn:T.
  - apply Z.ltb_lt in T.
    set (k := Z.to_nat
                (Z.min 1024
                   (content_length
                    - (Z.of_nat (List.length request) - headers_end)))).
    pose proof (recv_conserves k client) as R.
    pose proof (recv_live k client L ltac:(lia)) as [L' E].
    pose proof (recv_pending k client) as P.
    pose proof (recv_length k client) as K.
    destruct (recv k client) as [chunk client']. simpl fst in *.
    simpl snd in *.
    destruct chunk as [|b chunk].
    + destruct (E eq_refl) as [-> ->]. exists []. unfold sent_bytes. simpl.
      rewrite firstn_nil, skipn_nil, app_nil_r. repeat split. constructor.
    + assert (NE : b :: chunk <> []) by discriminate. specialize (P NE).
      destruct (IH client' (request ++ b :: chunk)%list L' ltac:(lia))
        as (c & H1 & H2 & H3).
      exists c. rewrite H1, H2, <- R. clear H1 H2 IH.
      assert (M : Z.to_nat
                    (content_length
                     - (Z.of_nat (List.length (request ++ b :: chunk))
                        - headers_end))
                  = Z.to_nat
                      (content_length
                       - (Z.of_nat (List.length request) - headers_end))
                    - List.length (b :: chunk)).
      { rewrite length_app. lia. }
      assert (Km : List.length (b :: chunk)
                   <= Z.to_nat
                        (content_length
                         - (Z.of_nat (List.length request) - headers_end))).
      { subst k. lia. }
      rewrite M. split; [|split; [|exact H3]].
      * f_equal. rewrite firstn_app, (firstn_all2 _ Km), <- app_assoc.
        reflexivity.
      * rewrite skipn_app, (skipn_all2 _ Km). reflexivity.
  - apply Z.ltb_ge in T. exists client.
    replace (Z.to_nat _) with 0 by lia.
    simpl. rewrite app_nil_r. auto.
Qed.

(** X17 -- the second loop appends exactly the bytes that are missing to
    reach [content_length], or all that the peer still sends when that is
    less; it never takes a byte beyond the declared length, and leaves the
    rest in the socket. *)
Theorem body_loop_takes_the_missing_bytes :
  forall client request headers_end content_length,
    live client ->
    let missing :=
      Z.to_nat
        (content_length - (Z.of_nat (List.length request) - headers_end)) in
    fst (body_loop (passes client) client request headers_end content_length)
    = (request ++ firstn missing (sent_bytes client))%list
    /\ sent_bytes
         (snd (body_loop (passes client) client request headers_end
                 content_length))
       = skipn missing (sent_bytes client).
Proof.
  intros client request headers_end content_length L. cbv zeta.
  destruct (body_loop_spec (passes client) client request headers_end
              content_length L) as (c & H & S & _).
  - unfold passes. lia.
  - rewrite H. simpl. auto.
Qed.

Lemma receive_all :
  forall client,
    live client ->
    PyBytes.contains PyBytes.CRLFCRLF (sent_bytes client) = true ->
    (body_length (sent_bytes client)
     <= Z.max 0 (parse_content_length rt py_int (sent_bytes client)))%Z ->
    receive rt py_int client = (sent_bytes client, []).
Proof.
  intros client L C B. unfold receive.
  destruct (header_loop_blank (passes client) client [] L eq_refl C)
    as (r1 & c1 & H & C1 & E & L1); [unfold passes; lia|].
  rewrite H. simpl in E.
  destruct (contains_app _ r1 (sent_bytes c1) C1) as [_ F].
  rewrite E in F.
  assert (P : parse_content_length rt py_int r1
              = parse_content_length rt py_int (sent_bytes client)).
  { unfold parse_content_length.
    now rewrite <- E, (before_app _ r1 (sent_bytes c1) C1). }
  destruct (find_bounds _ r1 C1) as [F0 F1].
  change (List.length PyBytes.CRLFCRLF) with 4 in F1.
  assert (Len : List.length (sent_bytes client)
                = List.length r1 + List.length (sent_bytes c1))
    by (now rewrite <- E, length_app).
  unfold body_length in B. rewrite P.
  destruct (0 <? parse_content_length rt py_int (sent_bytes client))%Z eqn:T.
  - apply Z.ltb_lt in T.
    destruct (body_loop_spec (passes c1) c1 r1
                (PyBytes.find PyBytes.CRLFCRLF r1 + 4)
                (parse_content_length rt py_int (sent_bytes client)) L1)
      as (c & H1 & H2 & H3); [unfold passes; lia|].
    rewrite H1.
    rewrite firstn_all2 in * by lia. rewrite skipn_all2 in H2 by lia.
    now rewrite (live_nothing_sent c H3 H2), E.
  - apply Z.ltb_ge in T.
    assert (Z : sent_bytes c1 = []).
    { apply length_zero_iff_nil. lia. }
    rewrite <- E, Z, app_nil_r, (live_nothing_sent c1 L1 Z). reflexivity.
Qed.

(** X16 -- however the peer's bytes are cut into segments, a request with
    a blank line whose body is not longer than the declared content length
    (no body when none, or none greater than 0, is declared) is received
    in full, and the socket is left empty; a body shorter than declared,
    cut off by the peer closing, is used as it is. *)
Theorem receive_whole_request :
  forall client,
    live client ->
    PyBytes.contains PyBytes.CRLFCRLF (sent_bytes client) = true ->
    (body_length (sent_bytes client)
     <= Z.max 0 (parse_content_length rt py_int (sent_bytes client)))%Z ->
    receive rt py_int client = (sent_bytes client, []).
Proof. exact receive_all. Qed.

(** X19 -- the reply to a request that has its blank line and a body not
    longer than the declared content length does not depend on how its
    bytes were cut into segments: the connection is handled as the request
    that was sent. *)
Theorem handle_client_whole_request :
  forall w client,
    live client ->
    PyBytes.contains PyBytes.CRLFCRLF (sent_bytes client) = true ->
    (body_length (sent_bytes client)
     <= Z.max 0 (parse_content_length rt py_int (sent_bytes client)))%Z ->
    handle_client rt py_int w client = _handle_request rt w (sent_bytes client).
Proof.
  intros w client L C B. unfold handle_client.
  now rewrite (receive_all client L C B).
Qed.

End Loops.

Lemma in_three_live : live FramerDemo.in_three.
Proof. repeat constructor; discriminate. Qed.

Lemma receive_without_blank_line_witness :
  receive Demo.rt RefInt.py_int FramerDemo.cut_short
  = (Ref.bytes ("POST /mcp HTTP/1.1" ++ PyStr.CRLF ++ "Content-Le"), []).
Proof.
  apply (receive_without_blank_line Demo.rt RefInt.py_int
           FramerDemo.cut_short).
  - repeat constructor; discriminate.
  - reflexivity.
Defined.

Lemma receive_whole_request_witness :
  receive Demo.rt RefInt.py_int FramerDemo.in_three
  = (Ref.bytes FramerDemo.request, []).
Proof.
  apply (receive_whole_request Demo.rt RefInt.py_int FramerDemo.in_three).
  - exact in_three_live.
  - reflexivity.
  - vm_compute. discriminate.
Defined.

Lemma body_loop_takes_the_missing_bytes_witness :
  fst (body_loop (passes FramerDemo.tail) FramerDemo.tail FramerDemo.head
         41 5)
  = (FramerDemo.head ++ Ref.bytes "llo")%list
  /\ sent_bytes
       (snd (body_loop (passes FramerDemo.tail) FramerDemo.tail
               FramerDemo.head 41 5))
     = Ref.bytes "GET / HTTP/1.1".
Proof.
  assert (L : live FramerDemo.tail) by (repeat constructor; discriminate).
  exact (body_loop_takes_the_missing_bytes FramerDemo.tail FramerDemo.head
           41 5 L).
Defined.

Lemma handle_client_whole_request_witness :
  handle_client Demo.rt RefInt.py_int Demo.w0 FramerDemo.in_three
  = _handle_request Demo.rt Demo.w0 (Ref.bytes FramerDemo.request).
Proof.
  apply (handle_client_whole_request Demo.rt RefInt.py_int Demo.w0
           FramerDemo.in_three).
  - exact in_three_live.
  - reflexivity.
  - vm_compute. discriminate.
Defined.

(** ** The declared content length *)

Section ContentLength.

Variable rt : Runtime.
Variable py_int : string -> Result Z.

Lemma scan_skips before rest :
  Forall (fun l => String.prefix "content-length:" (PyStr.lower l) = false)
         before ->
  scan_content_length py_int (before ++ rest)
  = scan_content_length py_int rest.
Proof.
  induction 1 as [|l before H F IH]; simpl; auto. now rewrite H.
Qed.

(** X18 -- the declared content length is taken from the first header line
    that starts with [content-length:] in any letter case: the text
    between its first and second colon, stripped, is given to [int()].
    Later lines do not count, and when [int()] rejects the text no body is
    awaited at all (the length stays 0), as when no line matches or the
    header block cannot be decoded. *)
Theorem content_length_first_line_decides :
  forall request,
    (forall text before line after name field more,
       bytes_decode rt (PyBytes.before PyBytes.CRLFCRLF request) = Ret text ->
       PyStr.split PyStr.CRLF text = (before ++ line :: after)%list ->
       Forall (fun l =>
                 String.prefix "content-length:" (PyStr.lower l) = false)
              before ->
       String.prefix "content-length:" (PyStr.lower line) = true ->
       PyStr.split ":" line = name :: field :: more ->
       parse_content_length rt py_int request
       = match py_int (PyText.strip field) with
         | Ret n => n
         | Raise _ => 0%Z
         end)
    /\ (forall text,
          bytes_decode rt (PyBytes.before PyBytes.CRLFCRLF request)
          = Ret text ->
          Forall (fun l =>
                    String.prefix "content-length:" (PyStr.lower l) = false)
                 (PyStr.split PyStr.CRLF text) ->
          parse_content_length rt py_int request = 0%Z)
    /\ (forall e,
          bytes_decode rt (PyBytes.before PyBytes.CRLFCRLF request)
          = Raise e ->
          parse_content_length rt py_int request = 0%Z).
Proof.
  intro request. unfold parse_content_length. split; [|split].
  - intros text before line after name field more D S B P F.
    rewrite D. simpl. rewrite S, (scan_skips before _ B). simpl.
    rewrite P, F. reflexivity.
  - intros text D B. rewrite D. simpl.
    rewrite <- (app_nil_r (PyStr.split PyStr.CRLF text)).
    now rewrite (scan_skips _ [] B).
  - intros e D. now rewrite D.
Qed.

End ContentLength.

Lemma content_length_first_line_decides_witness :
  parse_content_length Demo.rt RefInt.py_int (Ref.bytes FramerDemo.request)
  = 5%Z
  /\ parse_content_length Demo.rt RefInt.py_int
       (Ref.bytes ("POST /mcp HTTP/1.1" ++ PyStr.CRLF ++ "Content-Length: x"
                   ++ PyStr.CRLF ++ "Content-Length: 9" ++ PyStr.CRLF
                   ++ PyStr.CRLF ++ "123456789"))
     = 0%Z.
Proof.
  split.
  - apply (proj1 (content_length_first_line_decides Demo.rt RefInt.py_int
                    (Ref.bytes FramerDemo.request))
             ("POST /mcp HTTP/1.1" ++ PyStr.CRLF ++ "content-LENGTH: 5"
              ++ PyStr.CRLF ++ "Content-Length: 9")
             ["POST /mcp HTTP/1.1"] "content-LENGTH: 5"
             ["Content-Length: 9"] "content-LENGTH" " 5" []);
      try reflexivity.
    repeat constructor.
  - apply (proj1 (content_length_first_line_decides Demo.rt RefInt.py_int _)
             ("POST /mcp HTTP/1.1" ++ PyStr.CRLF ++ "Content-Length: x"
              ++ PyStr.CRLF ++ "Content-Length: 9")
             ["POST /mcp HTTP/1.1"] "Content-Length: x"
             ["Content-Length: 9"] "Content-Length" " x" []);
      try reflexivity.
    repeat constructor.
Defined.

(** ** The accept loop *)

Section Serve.

Variable rt : Runtime.
Variable py_int : string -> Result Z.

(** X20 -- over any sequence of connections the loop of [run] answers each
    connection with at most one reply, and leaves the configuration of the
    server (name, versions, both registries) as it found it, whatever the
    peers send. *)
Theorem serve_keeps_config :
  forall clients w,
    same_config w (fst (serve rt py_int w clients))
    /\ List.length (snd (serve rt py_int w clients)) = List.length clients
    /\ Forall (fun sent => List.length sent <= 1)
              (snd (serve rt py_int w clients)).
Proof.
  induction clients as [|client rest IH]; intro w; simpl.
  - split; [apply same_config_refl | auto].
  - unfold handle_client.
    pose proof (handle_request_same_config rt w (fst (receive rt py_int client)))
      as C.
    pose proof (handle_request_one_or_none rt w (fst (receive rt py_int client)))
      as O.
    destruct (_handle_request rt w (fst (receive rt py_int client)))
      as [w1 sent]. simpl in C, O.
    destruct (IH w1) as (C' & L & F).
    destruct (serve rt py_int w1 rest) as [w2 more]. simpl in *.
    split; [eapply same_config_trans; eauto|]. split; [lia|].
    constructor; auto.
    destruct O as [[r ->] | [E _]]; [simpl; lia|].
    injection E as _ ->. simpl. lia.
Qed.

End Serve.

(** ** Registering and reading *)

Section RegisterRead.

Variable rt : Runtime.

Lemma execute_resource_registered self uri name description mime_type func :
  _execute_resource rt (resource self uri name description mime_type func)
    (JStr uri)
  = Ret match func tt with
        | Ret content =>
            JObj [("content", content); ("mimeType", JStr mime_type)]
        | Raise e =>
            JObj [("error", JStr ("Resource fetch failed: " ++ str_exn e))]
        end.
Proof.
  unfold _execute_resource, resource. simpl.
  unfold Dict.mem. rewrite get_set_same. simpl.
  destruct (func tt); reflexivity.
Qed.

Lemma execute_resource_other self uri name description mime_type func other :
  other <> uri ->
  _execute_resource rt (resource self uri name description mime_type func)
    (JStr other)
  = _execute_resource rt self (JStr other).
Proof.
  intro N. unfold _execute_resource, resource. simpl.
  unfold Dict.mem. rewrite !get_set_other by congruence. reflexivity.
Qed.

(** X21 -- once a resource is registered under a URI, a resources/read of
    that URI runs the handler just registered, whatever was registered
    under the URI before: the one content entry carries the URI, the MIME
    type of this registration and what the handler returns; when the
    handler raises, the answer is the error -32602 with the handler's
    message.  Reads of every other URI are answered as before the
    registration. *)
Theorem read_after_register :
  forall self uri name description mime_type func d params ticks,
    req_field d "method" JNull = JStr "resources/read" ->
    req_field d "params" (JObj []) = JObj params ->
    let w := {| srv := self; ticks_read := ticks |} in
    let w' :=
      {| srv := resource self uri name description mime_type func;
         ticks_read := ticks |} in
    (req_field params "uri" JNull = JStr uri ->
     _handle_jsonrpc rt (JObj d) w'
     = (Ret match func tt with
            | Ret content =>
                rpc_result (req_field d "id" JNull)
                  (resource_contents (JStr uri) (JStr mime_type) content)
            | Raise e =>
                rpc_error (req_field d "id" JNull) (-32602)
                  ("Resource fetch failed: " ++ str_exn e)
            end,
        w'))
    /\ (forall other,
          req_field params "uri" JNull = JStr other -> other <> uri ->
          fst (_handle_jsonrpc rt (JObj d) w')
          = fst (_handle_jsonrpc rt (JObj d) w)).
Proof.
  intros self uri name description mime_type func d params ticks M P.
  cbv zeta. split.
  - intro N.
    rewrite handle_jsonrpc_object, M, P, dispatch_resources_read.
    cbv zeta. rewrite N.
    simpl srv. rewrite execute_resource_registered.
    destruct (func tt); reflexivity.
  - intros other N D.
    rewrite !handle_jsonrpc_object, M, P, !dispatch_resources_read.
    cbv zeta. rewrite N.
    simpl srv. rewrite (execute_resource_other _ _ _ _ _ _ _ D).
    destruct (_execute_resource rt self (JStr other)) as [result|e];
      [|reflexivity].
    destruct (py_in "error" result).
    + destruct (py_item result "error"); reflexivity.
    + destruct (py_item result "mimeType"); [|reflexivity].
      destruct (py_item result "content"); reflexivity.
Qed.

End RegisterRead.

Lemma read_after_register_witness :
  fst (_handle_jsonrpc Demo.rt (JObj (ResourceDemo.read "device://status"))
         {| srv := resource ResourceDemo.server "device://status" "status"
                     "Device status" "text/plain"
                     (fun _ => Ret (JStr "down"));
            ticks_read := 0 |})
  = Ret (rpc_result (JNum 5)
           (resource_contents (JStr "device://status") (JStr "text/plain")
              (JStr "down"))).
Proof.
  destruct (read_after_register Demo.rt ResourceDemo.server "device://status"
              "status" "Device status" "text/plain"
              (fun _ => Ret (JStr "down"))
              (ResourceDemo.read "device://status")
              [("uri", JStr "device://status")] 0 eq_refl eq_refl) as [H _].
  rewrite (H eq_refl). reflexivity.
Defined.

(** ** The pin cache *)

Section PinCache.

Import Gpio.

Variable PinObj : Type.
Variable Board : Type.
Variable Pin : pin_id -> Z -> Board -> Result PinObj * Board.

Lemma key_eqb_eq a b : key_eqb a b = true <-> a = b.
Proof.
  destruct a as [[n|s] m], b as [[n'|s'] m']; unfold key_eqb; simpl;
    rewrite ?andb_true_iff, ?Z.eqb_eq, ?String.eqb_eq;
    split; try (intros [? ?]; congruence); try (intro H; now inversion H);
    try (intros [? ?]; discriminate).
Qed.

Lemma key_eqb_refl a : key_eqb a a = true.
Proof. now apply key_eqb_eq. Qed.

Lemma cache_get_set_same k (p : PinObj) cache :
  cache_get k (cache_set k p cache) = Some p.
Proof.
  induction cache as [|[k' p'] rest IH]; simpl.
  - now rewrite key_eqb_refl.
  - destruct (key_eqb k k') eqn:E; simpl; rewrite E; auto.
Qed.

Lemma cache_get_set_other k k' (p : PinObj) cache :
  k' <> k -> cache_get k' (cache_set k p cache) = cache_get k' cache.
Proof.
  intro N. induction cache as [|[k0 p0] rest IH]; simpl.
  - destruct (key_eqb k' k) eqn:E; [|reflexivity].
    apply key_eqb_eq in E. contradiction.
  - destruct (key_eqb k k0) eqn:E; simpl.
    + apply key_eqb_eq in E. subst k0.
      destruct (key_eqb k' k) eqn:E'; [|reflexivity].
      apply key_eqb_eq in E'. contradiction.
    + now rewrite IH.
Qed.

Lemma get_pin_keeps pin_num mode st k q :
  cache_get k (fst st) = Some q ->
  cache_get k (fst (snd (_get_pin Pin pin_num mode st))) = Some q.
Proof.
  destruct st as [cache board]. simpl. intro H.
  destruct (cache_get (pin_num, mode) cache) as [p|] eqn:G; simpl; auto.
  destruct (Pin pin_num mode board) as [[p|e] board']; simpl; auto.
  rewrite cache_get_set_same. simpl.
  rewrite cache_get_set_other; auto.
  intros ->. congruence.
Qed.

Lemma get_pins_keeps calls st k q :
  cache_get k (fst st) = Some q ->
  cache_get k (fst (get_pins Pin calls st)) = Some q.
Proof.
  revert st. induction calls as [|[pin_num mode] rest IH]; intros st H;
    simpl; auto.
  apply IH. now apply get_pin_keeps.
Qed.

Lemma get_pin_cached pin_num mode st p :
  cache_get (pin_num, mode) (fst st) = Some p ->
  _get_pin Pin pin_num mode st = (Ret p, st).
Proof.
  destruct st as [cache board]. simpl. now intros ->.
Qed.

Lemma get_pin_caches pin_num mode st p st' :
  _get_pin Pin pin_num mode st = (Ret p, st') ->
  cache_get (pin_num, mode) (fst st') = Some p.
Proof.
  destruct st as [cache board]. simpl.
  destruct (cache_get (pin_num, mode) cache) as [q|] eqn:G.
  - intro H. injection H as <- <-. exact G.
  - destruct (Pin pin_num mode board) as [[q|e] board']; [|discriminate].
    rewrite cache_get_set_same. intro H. injection H as <- <-.
    apply cache_get_set_same.
Qed.

(** X22 -- [_get_pin] memoises: once a call for a pin and a mode has
    returned a pin object, every later call for the same pin and mode
    returns that same object and touches neither the cache nor the board,
    whatever calls of [_get_pin] for this or other pins and modes, failed
    ones included, come in between. *)
Theorem get_pin_memoised :
  forall pin_num mode st p st1 calls,
    _get_pin Pin pin_num mode st = (Ret p, st1) ->
    let st2 := get_pins Pin calls st1 in
    _get_pin Pin pin_num mode st2 = (Ret p, st2).
Proof.
  intros pin_num mode st p st1 calls H. cbv zeta.
  apply get_pin_cached, get_pins_keeps.
  exact (get_pin_caches _ _ _ _ _ H).
Qed.

(** X23 -- the first use of a pin in a mode: when the cache has no entry for
    the pair, [_get_pin] calls the constructor [Pin] exactly for this pair,
    also when the same pin is cached in another mode.  If the constructor
    raises, the exception is the caller's and the cache is left as it was,
    so that the next call tries again; if it returns, its object is
    returned and cached.  In both cases every other entry of the cache is
    left as it was. *)
Theorem get_pin_first_use :
  forall pin_num mode cache board,
    cache_get (pin_num, mode) cache = None ->
    let out := _get_pin Pin pin_num mode (cache, board) in
    fst out = fst (Pin pin_num mode board)
    /\ snd (snd out) = snd (Pin pin_num mode board)
    /\ cache_get (pin_num, mode) (fst (snd out))
       = match fst (Pin pin_num mode board) with
         | Ret p => Some p
         | Raise _ => None
         end
    /\ (forall e, fst (Pin pin_num mode board) = Raise e ->
                  fst (snd out) = cache)
    /\ (forall k, k <> (pin_num, mode) ->
                  cache_get k (fst (snd out)) = cache_get k cache).
Proof.
  intros pin_num mode cache board G. cbv zeta. simpl. rewrite G.
  destruct (Pin pin_num mode board) as [[p|e] board']; simpl.
  - rewrite cache_get_set_same. simpl. rewrite cache_get_set_same.
    repeat split; try discriminate.
    intros k N. now apply cache_get_set_other.
  - repeat split; auto.
Qed.

End PinCache.

Lemma get_pin_memoised_witness :
  let st2 :=
    Gpio.get_pins GpioDemo.Pin
      [(Gpio.PinNumber 99, 0%Z); (Gpio.PinNumber 2, 1%Z);
       (Gpio.PinName "LED", 1%Z)]
      ([((Gpio.PinNumber 2, 0%Z), (Gpio.PinNumber 2, 0%Z, 0))], 1) in
  Gpio._get_pin GpioDemo.Pin (Gpio.PinNumber 2) 0 st2
  = (Ret (Gpio.PinNumber 2, 0%Z, 0), st2).
Proof.
  apply (get_pin_memoised _ _ GpioDemo.Pin (Gpio.PinNumber 2) 0 ([], 0)).
  reflexivity.
Defined.

Lemma get_pin_first_use_witness :
  fst (Gpio._get_pin GpioDemo.Pin (Gpio.PinNumber 2) 1
         ([((Gpio.PinNumber 2, 0%Z), (Gpio.PinNumber 2, 0%Z, 0))], 1))
  = Ret (Gpio.PinNumber 2, 1%Z, 1).
Proof.
  destruct (get_pin_first_use _ _ GpioDemo.Pin (Gpio.PinNumber 2) 1
              [((Gpio.PinNumber 2, 0%Z), (Gpio.PinNumber 2, 0%Z, 0))] 1
              eq_refl) as [H _].
  exact H.
Defined.
